(** * teliAdsPy: the Facebook Ads to Google Sheets synchronisation job

    A shallow embedding of [teliads.py].  The Python functions become Rocq
    functions of the same names.  JSON documents and the other dynamically
    typed values the program handles are values of [pyval]; the Python
    built-ins the program applies to them ([in], [x[k]], [.get], [len],
    iteration, [float], truthiness) are total functions that return either
    a value or the exception Python raises.  The network, the spreadsheet
    service and the file system are an explicit world that every effectful
    function threads through, together with a log of the remote calls made.

    Logging calls are not modelled; a handler of the form
    [except Exception as e: logging.error(...); raise] is therefore the
    identity and does not appear.  Arguments of f-strings that can raise
    are evaluated where the source evaluates them.  Time is not modelled:
    the waits between the attempts of a retried call leave no trace.  The
    [while] loop of [fetch_api_data] takes a number of iterations it may
    use, and a run that needs more ends as [OutOfFuel]. *)

From Stdlib Require Import ZArith List String Ascii Bool Lia DecimalString SpecFloat.
From ExtLib Require Import Structures.Monad.
Import ListNotations.
Import MonadNotation.

Local Open Scope string_scope.
Local Open Scope Z_scope.
Local Open Scope monad_scope.

(* ===================================================================== *)
(** * Python values and exceptions *)
(* ===================================================================== *)

(** The values [response.json()] can produce, which are also the values the
    program stores in its rows.  A [dict] is an association list in
    insertion order; floats are IEEE binary64 numbers. *)
#[warnings="-register-all"]
Inductive pyval : Type :=
| PNone
| PBool (b : bool)
| PInt (n : Z)
| PFloat (x : spec_float)
| PStr (s : string)
| PList (items : list pyval)
| PDict (entries : list (string * pyval)).

(** The exceptions that can travel through the program.  All of them are
    subclasses of Python's [Exception], and each carries what [str] prints
    of it: the message it was raised with, or for [KeyError] the key.
    [ExternalError] stands for what the libraries outside this repository
    raise (requests, json, dateutil, googleapiclient, the operating system),
    with the name of its class and its text; [RetryError] is tenacity's
    wrapper around the outcome of the last attempt. *)
Inductive exn : Type :=
| TypeError (msg : string)
| AttributeError (msg : string)
| KeyError (key : string)
| OverflowError (msg : string)
| ValueError (msg : string)
| FileNotFoundError (msg : string)
| FacebookAdsError (msg : string)
| ExternalError (class_name msg : string)
| RetryError (last_attempt : exn).

(** [type(e).__name__]. *)
Definition exn_class (e : exn) : string :=
  match e with
  | TypeError _ => "TypeError"
  | AttributeError _ => "AttributeError"
  | KeyError _ => "KeyError"
  | OverflowError _ => "OverflowError"
  | ValueError _ => "ValueError"
  | FileNotFoundError _ => "FileNotFoundError"
  | FacebookAdsError _ => "FacebookAdsError"
  | ExternalError class_name _ => class_name
  | RetryError _ => "RetryError"
  end.

(** [str(e)].  An exception raised with one message prints that message; a
    [KeyError] prints the [repr] of its key (the keys of this program are
    literals without quotes or escapes).  tenacity's [RetryError] prints
    [RetryError[<last attempt>]], where the last attempt is a [Future] that
    prints its own address, its state and the name of the class of the
    exception it holds -- not the text of that exception.  The address is
    given by the caller. *)
Definition exn_str (address : string) (e : exn) : string :=
  match e with
  | TypeError msg | AttributeError msg | OverflowError msg | ValueError msg
  | FileNotFoundError msg | FacebookAdsError msg | ExternalError _ msg => msg
  | KeyError key => "'" ++ key ++ "'"
  | RetryError last =>
      "RetryError[<Future at " ++ address ++ " state=finished raised "
        ++ exn_class last ++ ">]"
  end.

(** A computation without side effects: [inl e] raises [e]. *)
Definition result (A : Type) : Type := (exn + A)%type.

#[export] Instance Monad_result : Monad result :=
  {| ret := fun _ a => inr a;
     bind := fun _ _ c k => match c with inl e => inl e | inr a => k a end |}.

(** ** Dictionaries in insertion order *)

Section Dict.
Context {V : Type}.

Fixpoint dict_lookup (key : string) (d : list (string * V)) : option V :=
  match d with
  | [] => None
  | (k, v) :: rest => if String.eqb k key then Some v else dict_lookup key rest
  end.

(** [d[key] = v]: an existing key keeps its position, a new key goes last. *)
Fixpoint dict_set (key : string) (v : V) (d : list (string * V)) : list (string * V) :=
  match d with
  | [] => [(key, v)]
  | (k, w) :: rest =>
      if String.eqb k key then (k, v) :: rest else (k, w) :: dict_set key v rest
  end.

End Dict.

(** ** Built-ins *)

(** [bool(v)]. A NaN is true, both zeros are false. *)
Definition py_truthy (v : pyval) : bool :=
  match v with
  | PNone => false
  | PBool b => b
  | PInt n => negb (n =? 0)
  | PFloat (S754_zero _) => false
  | PFloat _ => true
  | PStr EmptyString => false
  | PStr _ => true
  | PList [] => false
  | PList _ => true
  | PDict [] => false
  | PDict _ => true
  end.

Fixpoint is_infix (needle hay : string) : bool :=
  if String.prefix needle hay then true
  else match hay with
       | EmptyString => false
       | String _ rest => is_infix needle rest
       end.

Definition is_str (key : string) (v : pyval) : bool :=
  match v with
  | PStr s => String.eqb s key
  | _ => false
  end.

(** [type(v).__name__]. *)
Definition type_name (v : pyval) : string :=
  match v with
  | PNone => "NoneType"
  | PBool _ => "bool"
  | PInt _ => "int"
  | PFloat _ => "float"
  | PStr _ => "str"
  | PList _ => "list"
  | PDict _ => "dict"
  end.

(** The built-ins below raise with the messages of CPython 3.11 to 3.13. *)

(** [key in v] for a string [key]: key membership on a dict, element
    membership on a list, substring test on a string, [TypeError] on a
    value that is no container. *)
Definition py_contains (key : string) (v : pyval) : result bool :=
  match v with
  | PDict d => inr (match dict_lookup key d with Some _ => true | None => false end)
  | PList l => inr (existsb (is_str key) l)
  | PStr s => inr (is_infix key s)
  | _ => inl (TypeError ("argument of type '" ++ type_name v ++ "' is not iterable"))
  end.

(** [v[key]] for a string [key]. *)
Definition py_subscript (v : pyval) (key : string) : result pyval :=
  match v with
  | PDict d => match dict_lookup key d with
               | Some x => inr x
               | None => inl (KeyError key)
               end
  | PList _ => inl (TypeError "list indices must be integers or slices, not str")
  | PStr _ => inl (TypeError "string indices must be integers, not 'str'")
  | _ => inl (TypeError ("'" ++ type_name v ++ "' object is not subscriptable"))
  end.

(** [v.get(key, default)]: only a dict has the method. *)
Definition py_get (v : pyval) (key : string) (default : pyval) : result pyval :=
  match v with
  | PDict d => inr (match dict_lookup key d with Some x => x | None => default end)
  | _ => inl (AttributeError ("'" ++ type_name v ++ "' object has no attribute 'get'"))
  end.

(** The items [for x in v] visits: the elements of a list, the keys of a
    dict, the characters of a string. *)
Definition py_iter (v : pyval) : result (list pyval) :=
  match v with
  | PList l => inr l
  | PDict d => inr (map (fun kv => PStr (fst kv)) d)
  | PStr s => inr (map (fun c => PStr (String c EmptyString)) (list_ascii_of_string s))
  | _ => inl (TypeError ("'" ++ type_name v ++ "' object is not iterable"))
  end.

(** [len(v)]; it raises on exactly the values [py_iter] raises on. *)
Definition py_len (v : pyval) : result Z :=
  match v with
  | PList l => inr (Z.of_nat (List.length l))
  | PDict d => inr (Z.of_nat (List.length d))
  | PStr s => inr (Z.of_nat (String.length s))
  | _ => inl (TypeError ("object of type '" ++ type_name v ++ "' has no len()"))
  end.

(** [float(n)] for an integer: round to nearest even on 53 bits;
    [OverflowError] when the rounded value does not fit a double. *)
Definition float_of_int (n : Z) : result spec_float :=
  match binary_normalize 53 1024 n 0 false with
  | S754_infinity _ => inl (OverflowError "int too large to convert to float")
  | x => inr x
  end.

Definition string_of_Z (z : Z) : string := NilZero.string_of_int (Z.to_int z).

(** ** Naive datetimes *)

Record datetime : Type := mk_datetime {
  year : Z; month : Z; day : Z;
  hour : Z; minute : Z; second : Z; microsecond : Z
}.

Definition datetime_fields (d : datetime) : list Z :=
  [year d; month d; day d; hour d; minute d; second d; microsecond d].

Fixpoint lex_compare (a b : list Z) : comparison :=
  match a, b with
  | x :: a', y :: b' =>
      match x ?= y with
      | Eq => lex_compare a' b'
      | c => c
      end
  | [], [] => Eq
  | [], _ :: _ => Lt
  | _ :: _, [] => Gt
  end.

(** [a >= b] on naive datetimes. *)
Definition datetime_ge (a b : datetime) : bool :=
  match lex_compare (datetime_fields a) (datetime_fields b) with
  | Lt => false
  | _ => true
  end.

(* ===================================================================== *)
(** * Module constants *)
(* ===================================================================== *)

Definition CUTOFF_DATE : datetime := mk_datetime 2024 9 1 0 0 0 0.
Definition API_VERSION : string := "v17.0".
Definition MAX_RETRIES : nat := 3.

(* ===================================================================== *)
(** * The world outside the process *)
(* ===================================================================== *)

(** The two places of the source that call [requests.get]. *)
Inductive call_site : Type :=
| AdLookup      (* fetch_ad_creation_time *)
| AdsListing.   (* fetch_api_data *)

(** A range in A1 notation, [tab!<col><row>:<col><row>]; a row bound that
    is left out (as in [A:A]) is [None]. *)
Record a1_range : Type := A1 {
  tab : string;
  first_col : string; first_row : option Z;
  last_col : string; last_row : option Z
}.

Definition row_text (r : option Z) : string :=
  match r with
  | Some n => string_of_Z n
  | None => EmptyString
  end.

(** The text of a range, as the f-strings of the source build it. *)
Definition a1_notation (r : a1_range) : string :=
  tab r ++ "!" ++ first_col r ++ row_text (first_row r)
        ++ ":" ++ last_col r ++ row_text (last_row r).

(** The number of rows a range with both row bounds covers (A1 ranges
    include both ends). *)
Definition rows_spanned (r : a1_range) : option Z :=
  match first_row r, last_row r with
  | Some a, Some b => Some (b - a + 1)
  | _, _ => None
  end.

(** One remote call, with its arguments and what came back. *)
Inductive event : Type :=
| EvGet (site : call_site) (url : string) (params : pyval) (response : result pyval)
| EvValuesGet (spreadsheet : string) (range : a1_range) (response : result pyval)
| EvValuesUpdate (spreadsheet : string) (range : a1_range) (value_input_option : string)
                 (body : pyval) (response : result pyval).

(** Everything the program gets from outside: the remote services, the
    files, the library functions whose text-level behaviour is not spelled
    out here, and the values fixed when the module is imported.

    - [http_get url params] is [requests.get(url, params=params, timeout=10)]
      followed by [raise_for_status()] and [.json()]: the decoded body, or
      the exception one of the three raised;
    - [values_get] and [values_update] are
      [sheets.values().get(...).execute()] and
      [sheets.values().update(...).execute()];
    - [build_sheets] is [Credentials.from_service_account_file] followed by
      [build('sheets', 'v4', ...)];
    - [py_repr] is [repr], [float_of_str] is [float] on a string ([None]
      when it raises [ValueError]), [isoparse] is [dateutil]'s parser
      followed by [replace(tzinfo=None)];
    - [future_address] is the address, in hexadecimal, that the text of a
      [RetryError] shows for the object that holds its last attempt. *)
Record Env : Type := {
  World : Type;
  http_get : string -> pyval -> World -> result pyval * World;
  values_get : string -> a1_range -> World -> result pyval * World;
  values_update : string -> a1_range -> string -> pyval -> World -> result pyval * World;
  path_exists : string -> World -> bool;
  json_load : string -> World -> result pyval;
  build_sheets : string -> World -> result unit * World;
  py_repr : pyval -> string;
  float_of_str : string -> option spec_float;
  isoparse : pyval -> result datetime;
  future_address : World -> string;
  YESTERDAY_DATE : string;
  CONFIG_FILE : string;
  SPREADSHEET_ID : string
}.

(** The state a run threads through: the world, and the remote calls made
    so far, most recent first. *)
Record state (env : Env) : Type := mk_state {
  world : World env;
  calls : list event
}.
Arguments mk_state {env} _ _.
Arguments world {env} _.
Arguments calls {env} _.

(** How a computation ends: with a value, with an exception, or not within
    the number of loop iterations it was given. *)
Inductive outcome (A : Type) : Type :=
| Return (a : A)
| Raise (e : exn)
| OutOfFuel.
Arguments Return {A} _.
Arguments Raise {A} _.
Arguments OutOfFuel {A}.

Definition M (env : Env) (A : Type) : Type := state env -> outcome A * state env.

#[export] Instance Monad_M (env : Env) : Monad (M env) :=
  {| ret := fun _ a st => (Return a, st);
     bind := fun _ _ c k st =>
       match c st with
       | (Return a, st') => k a st'
       | (Raise e, st') => (Raise e, st')
       | (OutOfFuel, st') => (OutOfFuel, st')
       end |}.

Definition outcome_of {A : Type} (r : result A) : outcome A :=
  match r with
  | inl e => Raise e
  | inr a => Return a
  end.

(** One processed record, the dict of lines 194 to 200. *)
Record row_entry : Type := mk_row {
  campaign_name : pyval;
  ad_name : pyval;
  spend : pyval;
  date_start : string;
  date_stop : string
}.

(** The handle [init_sheets_api] returns, [service.spreadsheets()]. *)
Inductive sheets_resource : Type := Spreadsheets.

(** What a Flask view returns: [jsonify(...)] and a status code. *)
Record http_response : Type := mk_response {
  body : pyval;
  status_code : Z
}.

Definition jsonify (fields : list (string * pyval)) : pyval := PDict fields.

Section Program.

Variable env : Env.

Definition lift {A : Type} (r : result A) : M env A :=
  fun st => (outcome_of r, st).

Definition raise {A : Type} (e : exn) : M env A :=
  fun st => (Raise e, st).

Definition out_of_fuel {A : Type} : M env A :=
  fun st => (OutOfFuel, st).

(** [try: c  except Exception as e: handler e]. *)
Definition try_except {A : Type} (c : M env A) (handler : exn -> M env A) : M env A :=
  fun st =>
    match c st with
    | (Raise e, st') => handler e st'
    | other => other
    end.

Definition requests_get (site : call_site) (url : string) (params : pyval) : M env pyval :=
  fun st =>
    let (r, w) := http_get env url params (world st) in
    (outcome_of r, mk_state w (EvGet site url params r :: calls st)).

Definition sheets_values_get (spreadsheet : string) (range : a1_range) : M env pyval :=
  fun st =>
    let (r, w) := values_get env spreadsheet range (world st) in
    (outcome_of r, mk_state w (EvValuesGet spreadsheet range r :: calls st)).

Definition sheets_values_update (spreadsheet : string) (range : a1_range)
    (value_input_option : string) (body : pyval) : M env pyval :=
  fun st =>
    let (r, w) := values_update env spreadsheet range value_input_option body (world st) in
    (outcome_of r,
     mk_state w (EvValuesUpdate spreadsheet range value_input_option body r :: calls st)).

(** [str(v)], which is what an f-string applies: a string is itself, every
    other value prints as its [repr]. *)
Definition py_str (v : pyval) : string :=
  match v with
  | PStr s => s
  | _ => py_repr env v
  end.

(** [float(v)]. *)
Definition py_float (v : pyval) : result spec_float :=
  match v with
  | PFloat x => inr x
  | PInt n => float_of_int n
  | PBool b => float_of_int (if b then 1 else 0)
  | PStr s => match float_of_str env s with
              | Some x => inr x
              | None => inl (ValueError ("could not convert string to float: "
                                         ++ py_repr env (PStr s)))
              end
  | PNone | PList _ | PDict _ =>
      inl (TypeError ("float() argument must be a string or a real number, not '"
                      ++ type_name v ++ "'"))
  end.

(* ===================================================================== *)
(** * The retry decorator *)
(* ===================================================================== *)

(** [@retry(stop=stop_after_attempt(n), wait=wait_exponential(...))] of
    tenacity, with its defaults otherwise ([retry_if_exception_type()],
    [reraise=False]): call the function; a returned value is the result; on
    an exception, if the attempt number has reached [n] raise [RetryError]
    holding the last attempt, else wait and call again.  The waits are not
    modelled.  [retry_loop] also returns the attempt number it stopped at,
    which tenacity keeps in [statistics]. *)
Fixpoint retry_loop {A : Type} (retries_left attempt_number : nat) (fn : M env A)
    (st : state env) : (outcome A * nat) * state env :=
  match fn st with
  | (Return a, st') => ((Return a, attempt_number), st')
  | (Raise e, st') =>
      match retries_left with
      | O => ((Raise (RetryError e), attempt_number), st')
      | S k => retry_loop k (S attempt_number) fn st'
      end
  | (OutOfFuel, st') => ((OutOfFuel, attempt_number), st')
  end.

Definition retry_statistics {A : Type} (max_attempts : nat) (fn : M env A)
    (st : state env) : (outcome A * nat) * state env :=
  retry_loop (max_attempts - 1) 1 fn st.

Definition retry {A : Type} (max_attempts : nat) (fn : M env A) : M env A :=
  fun st => (fst (fst (retry_statistics max_attempts fn st)),
             snd (retry_statistics max_attempts fn st)).

(* ===================================================================== *)
(** * fetch_ad_creation_time *)
(* ===================================================================== *)

Definition fetch_ad_creation_time_body (ad_id access_token : pyval)
    : M env (option datetime) :=
  let url := "https://graph.facebook.com/" ++ API_VERSION ++ "/" ++ py_str ad_id in
  let params := PDict [("fields", PStr "created_time");
                       ("access_token", access_token)] in
  data <- requests_get AdLookup url params ;;
  has_error <- lift (py_contains "error" data) ;;
  if (has_error : bool) then
    (* the log line formats data['error'] *)
    _ <- lift (py_subscript data "error") ;;
    ret None
  else
    created_str <- lift (py_get data "created_time" PNone) ;;
    if negb (py_truthy created_str) then ret None
    else
      dt <- lift (isoparse env created_str) ;;
      ret (Some dt).

Definition fetch_ad_creation_time (ad_id access_token : pyval)
    : M env (option datetime) :=
  retry MAX_RETRIES (fetch_ad_creation_time_body ad_id access_token).

(* ===================================================================== *)
(** * fetch_api_data *)
(* ===================================================================== *)

Definition quoted (s : string) : string :=
  String "034" EmptyString ++ s ++ String "034" EmptyString.

(** [json.dumps({"since": d, "until": d})] for a date [d] in the form
    [%Y-%m-%d], which needs no escaping. *)
Definition time_range (d : string) : string :=
  "{" ++ quoted "since" ++ ": " ++ quoted d ++ ", "
      ++ quoted "until" ++ ": " ++ quoted d ++ "}".

(** Lines 157 to 163: the decision on one item of a page. *)
Definition keep_ad (access_token : pyval) (all_data : list pyval) (ad : pyval)
    : M env (list pyval) :=
  ad_id <- lift (py_get ad "ad_id" PNone) ;;
  if py_truthy ad_id then
    created_dt <- fetch_ad_creation_time ad_id access_token ;;
    match created_dt with
    | Some dt =>
        if datetime_ge dt CUTOFF_DATE then ret (all_data ++ [ad])%list
        else ret all_data
    | None => ret all_data
    end
  else ret all_data.

(** Lines 156 to 163: [for ad in page_data]. *)
Fixpoint for_each_ad (access_token : pyval) (all_data page_data : list pyval)
    : M env (list pyval) :=
  match page_data with
  | [] => ret all_data
  | ad :: rest =>
      all_data' <- keep_ad access_token all_data ad ;;
      for_each_ad access_token all_data' rest
  end.

(** Lines 143 to 172: [while next_page], one unit of [fuel] per iteration. *)
Fixpoint fetch_pages (fuel : nat) (access_token next_page params : pyval)
    (all_data : list pyval) : M env (list pyval) :=
  if py_truthy next_page then
    match fuel with
    | O => out_of_fuel
    | S fuel' =>
        data <- requests_get AdsListing (py_str next_page) params ;;
        has_error <- lift (py_contains "error" data) ;;
        if (has_error : bool) then
          err <- lift (py_subscript data "error") ;;
          raise (FacebookAdsError ("Facebook API error: " ++ py_str err))
        else
          page_data <- lift (py_get data "data" (PList [])) ;;
          (* the log line of line 154 takes len(page_data) *)
          _ <- lift (py_len page_data) ;;
          items <- lift (py_iter page_data) ;;
          all_data' <- for_each_ad access_token all_data items ;;
          paging <- lift (py_get data "paging" (PDict [])) ;;
          next_page' <- lift (py_get paging "next" PNone) ;;
          fetch_pages fuel' access_token next_page'
                      (if py_truthy next_page' then PDict [] else params)
                      all_data'
    end
  else ret all_data.

Definition api_url (ad_account_id : pyval) : string :=
  "https://graph.facebook.com/" ++ API_VERSION ++ "/act_"
    ++ py_str ad_account_id ++ "/insights".

Definition listing_params (access_token : pyval) : pyval :=
  PDict [("fields", PStr "campaign_name,ad_name,spend,ad_id");
         ("access_token", access_token);
         ("level", PStr "ad");
         ("time_range", PStr (time_range (YESTERDAY_DATE env)));
         ("limit", PInt 5000)].

Definition fetch_api_data_body (fuel : nat) (config : pyval) : M env (list pyval) :=
  access_token <- lift (py_subscript config "accessToken") ;;
  ad_account_id <- lift (py_subscript config "adAccountId") ;;
  fetch_pages fuel access_token (PStr (api_url ad_account_id))
              (listing_params access_token) [].

Definition fetch_api_data (fuel : nat) (config : pyval) : M env (list pyval) :=
  retry MAX_RETRIES (fetch_api_data_body fuel config).

(* ===================================================================== *)
(** * process_daily_data *)
(* ===================================================================== *)

(** Lines 188 to 192: [float(entry.get("spend", 0))] under
    [except (TypeError, ValueError)]. *)
Definition parse_spend (entry : pyval) : result pyval :=
  match (raw <- py_get entry "spend" (PInt 0) ;; py_float raw) with
  | inr x => inr (PFloat x)
  | inl (TypeError _) => inr (PInt 0)
  | inl (ValueError _) => inr (PInt 0)
  | inl e => inl e
  end.

(** One iteration of the loop of lines 182 to 200. *)
Definition process_entry (daily_data : list (string * list row_entry)) (entry : pyval)
    : result (list (string * list row_entry)) :=
  let date := YESTERDAY_DATE env in
  let daily_data :=
    match dict_lookup date daily_data with
    | Some (_ :: _) => daily_data
    | _ => dict_set date [] daily_data
    end in
  spend <- parse_spend entry ;;
  entries <- match dict_lookup date daily_data with
             | Some l => inr l
             | None => inl (KeyError date)
             end ;;
  campaign_name <- py_get entry "campaign_name" (PStr "Not Available") ;;
  ad_name <- py_get entry "ad_name" (PStr "Not Available") ;;
  ret (dict_set date
         (entries ++ [mk_row campaign_name ad_name spend date date])%list
         daily_data).

Fixpoint process_entries (daily_data : list (string * list row_entry))
    (api_data : list pyval) : result (list (string * list row_entry)) :=
  match api_data with
  | [] => ret daily_data
  | entry :: rest =>
      daily_data' <- process_entry daily_data entry ;;
      process_entries daily_data' rest
  end.

Definition process_daily_data (api_data : list pyval)
    : result (list (string * list row_entry)) :=
  process_entries [] api_data.

(* ===================================================================== *)
(** * write_to_sheets and get_next_empty_row *)
(* ===================================================================== *)

Definition row_of (date : string) (entry : row_entry) : list pyval :=
  [PStr date; campaign_name entry; ad_name entry; spend entry;
   PStr (date_start entry); PStr (date_stop entry)].

(** Lines 209 to 220. *)
Definition build_rows (data : list (string * list row_entry)) : list (list pyval) :=
  flat_map (fun kv => map (row_of (fst kv)) (snd kv)) data.

Definition get_next_empty_row (sheets : sheets_resource)
    (spreadsheet_id tab_name : string) : M env Z :=
  let range_name := A1 tab_name "A" None "A" None in
  result <- sheets_values_get spreadsheet_id range_name ;;
  values <- lift (py_get result "values" (PList [])) ;;
  n <- lift (py_len values) ;;
  ret (n + 1).

Definition write_to_sheets (sheets : sheets_resource)
    (data : list (string * list row_entry)) : M env unit :=
  let rows := build_rows data in
  match rows with
  | [] => ret tt
  | _ :: _ =>
      let tab_name := "Sheet1" in
      next_row <- get_next_empty_row sheets (SPREADSHEET_ID env) tab_name ;;
      let range_name :=
        A1 tab_name "A" (Some next_row)
                    "F" (Some (next_row + Z.of_nat (List.length rows))) in
      let body := PDict [("values", PList (map PList rows))] in
      _ <- sheets_values_update (SPREADSHEET_ID env) range_name "RAW" body ;;
      ret tt
  end.

(* ===================================================================== *)
(** * load_config and init_sheets_api *)
(* ===================================================================== *)

Definition get_world : M env (World env) :=
  fun st => (Return (world st), st).

(** [[key for key in required if key not in config]]. *)
Fixpoint missing_keys (required : list string) (config : pyval) : result (list string) :=
  match required with
  | [] => ret []
  | key :: rest =>
      present <- py_contains key config ;;
      others <- missing_keys rest config ;;
      ret (if (present : bool) then others else key :: others)
  end.

Definition load_config : M env pyval :=
  w <- get_world ;;
  if negb (path_exists env (CONFIG_FILE env) w) then
    raise (FileNotFoundError ("Config file " ++ CONFIG_FILE env ++ " not found"))
  else
    config <- lift (json_load env (CONFIG_FILE env) w) ;;
    missing <- lift (missing_keys ["accessToken"; "adAccountId"] config) ;;
    match missing with
    | _ :: _ =>
        raise (ValueError ("Missing required config keys: "
                           ++ String.concat ", " missing))
    | [] => ret config
    end.

Definition creds_file : string := "zeta-environs-448616-m0-cb4f0707f662.json".

Definition init_sheets_api : M env sheets_resource :=
  w <- get_world ;;
  if negb (path_exists env creds_file w) then
    raise (FileNotFoundError
             ("Google Sheets credentials file " ++ creds_file ++ " not found"))
  else
    fun st =>
      let (r, w') := build_sheets env creds_file (world st) in
      (outcome_of (_ <- r ;; ret Spreadsheets), mk_state w' (calls st)).

(* ===================================================================== *)
(** * The /sync endpoint *)
(* ===================================================================== *)

(** The five stages inside the [try] of [sync_data]. *)
Definition pipeline (fuel : nat) : M env unit :=
  config <- load_config ;;
  sheets <- init_sheets_api ;;
  api_data <- fetch_api_data fuel config ;;
  daily_data <- lift (process_daily_data api_data) ;;
  write_to_sheets sheets daily_data.

Definition success_response : http_response :=
  mk_response (jsonify [("status", PStr "success");
                        ("message", PStr "Data sync completed")]) 200.

(** [jsonify({"status": "error", "message": str(e)}), 500], for an
    exception whose text names the address [address] if it names one. *)
Definition error_response (address : string) (e : exn) : http_response :=
  mk_response (jsonify [("status", PStr "error");
                        ("message", PStr (exn_str address e))]) 500.

(** The routes [/_ah/warmup], [/health] and [/]. *)
Definition warmup : pyval * Z := (PStr EmptyString, 200).
Definition health : http_response :=
  mk_response (jsonify [("status", PStr "healthy")]) 200.
Definition home : http_response :=
  mk_response (jsonify [("status", PStr "healthy")]) 200.

Definition sync_data (fuel : nat) : M env http_response :=
  try_except
    (_ <- pipeline fuel ;; ret success_response)
    (fun e => w <- get_world ;; ret (error_response (future_address env w) e)).

End Program.

(* ===================================================================== *)
(** * A model of the spreadsheet service *)
(* ===================================================================== *)

(** One tab of a spreadsheet, as the two calls of the program see it
    through the Sheets API (v4): a grid of cells, rows and columns numbered
    from 1, of which only the first [height] rows can hold something.  A
    cell is empty or holds a scalar. *)
Module SheetModel.

Definition cell : Type := option pyval.

Record sheet : Type := mk_sheet {
  height : Z;
  cells : Z -> Z -> cell
}.

Definition cell_at (s : sheet) (r c : Z) : cell :=
  if (1 <=? r) && (r <=? height s) && (1 <=? c) then cells s r c else None.

Definition blank : sheet := mk_sheet 0 (fun _ _ => None).

(** A sheet given by its rows, for examples. *)
Definition of_rows (rows : list (list cell)) : sheet :=
  mk_sheet (Z.of_nat (List.length rows))
           (fun r c => match nth_error rows (Z.to_nat (r - 1)) with
                       | Some row => match nth_error row (Z.to_nat (c - 1)) with
                                     | Some x => x
                                     | None => None
                                     end
                       | None => None
                       end).

Definition letter_index (c : ascii) : option Z :=
  let n := Z.of_nat (nat_of_ascii c) in
  if (65 <=? n) && (n <=? 90) then Some (n - 64) else None.

Fixpoint col_index_from (acc : Z) (s : string) : option Z :=
  match s with
  | EmptyString => Some acc
  | String c rest =>
      match letter_index c with
      | Some i => col_index_from (26 * acc + i) rest
      | None => None
      end
  end.

(** The number of a column given by its letters: A is 1, Z is 26, AA is 27. *)
Definition col_index (s : string) : option Z :=
  match s with
  | EmptyString => None
  | _ => col_index_from 0 s
  end.

Definition Zseq (first : Z) (count : nat) : list Z :=
  map (fun i => first + Z.of_nat i) (seq 0 count).

(** Drop the elements at the end of a list that are [empty]. *)
Fixpoint trim_trailing {A : Type} (empty : A -> bool) (l : list A) : list A :=
  match l with
  | [] => []
  | x :: rest =>
      match trim_trailing empty rest with
      | [] => if empty x then [] else [x]
      | kept => x :: kept
      end
  end.

Definition is_empty_cell (x : cell) : bool :=
  match x with
  | None => true
  | Some _ => false
  end.

Definition is_nil {A : Type} (l : list A) : bool :=
  match l with
  | [] => true
  | _ :: _ => false
  end.

(** What a read reports for a cell: an empty cell that is followed by a
    filled one in its row reads as the empty string.  (The display
    formatting the service applies to numbers is left out: the program only
    counts rows.) *)
Definition cell_output (x : cell) : pyval :=
  match x with
  | Some v => v
  | None => PStr EmptyString
  end.

Definition read_row (s : sheet) (c1 c2 r : Z) : list pyval :=
  map cell_output
      (trim_trailing is_empty_cell
         (map (cell_at s r) (Zseq c1 (Z.to_nat (c2 - c1 + 1))))).

(** The rows a read of the columns [c1] to [c2], rows [r1] to [r2],
    returns: the rows of the range in order, each without its trailing
    empty cells, and without the trailing rows that are entirely empty.
    An empty row above a filled one is kept, as an empty list. *)
Definition read_rows (s : sheet) (c1 c2 r1 r2 : Z) : list (list pyval) :=
  trim_trailing is_nil
    (map (read_row s c1 c2) (Zseq r1 (Z.to_nat (Z.min r2 (height s) - r1 + 1)))).

Definition http_error : exn :=
  ExternalError "HttpError" "<HttpError 400 when requesting the values of the range>".

(** [spreadsheets.values.get]: the key [values] is left out of the result
    when there is nothing to report. *)
Definition get (s : sheet) (range : a1_range) : result pyval :=
  match col_index (first_col range), col_index (last_col range) with
  | Some c1, Some c2 =>
      if String.eqb (tab range) "Sheet1" then
        let r1 := match first_row range with Some r => r | None => 1 end in
        let r2 := match last_row range with Some r => r | None => height s end in
        let header := [("range", PStr (a1_notation range));
                       ("majorDimension", PStr "ROWS")] in
        match read_rows s c1 c2 r1 r2 with
        | [] => inr (PDict header)
        | rows => inr (PDict (header ++ [("values", PList (map PList rows))])%list)
        end
      else inl http_error
  | _, _ => inl http_error
  end.

(** The scalars an update accepts; a list, a dict or a float that JSON
    cannot carry is refused. *)
Definition storable (v : pyval) : bool :=
  match v with
  | PNone | PStr _ | PInt _ | PBool _ => true
  | PFloat (S754_zero _) | PFloat (S754_finite _ _ _) => true
  | _ => false
  end.

(** What an input value does to a cell: a null leaves the cell as it is,
    an empty string empties it, another scalar is stored verbatim (input
    option RAW). *)
Definition stored (v : pyval) (old : cell) : cell :=
  match v with
  | PNone => old
  | PStr EmptyString => None
  | _ => Some v
  end.

Fixpoint all_some {A : Type} (l : list (option A)) : option (list A) :=
  match l with
  | [] => Some []
  | Some x :: rest => option_map (cons x) (all_some rest)
  | None :: _ => None
  end.

Definition row_values (v : pyval) : option (list pyval) :=
  match v with
  | PList l => if forallb storable l then Some l else None
  | _ => None
  end.

Definition body_values (body : pyval) : option (list (list pyval)) :=
  match body with
  | PDict d =>
      match dict_lookup "values" d with
      | Some (PList rows) => all_some (map row_values rows)
      | _ => None
      end
  | _ => None
  end.

(** The sheet after the values are laid out with their top left corner at
    row [r1], column [c1]. *)
Definition write_block (s : sheet) (r1 c1 : Z) (rows : list (list pyval)) : sheet :=
  mk_sheet
    (Z.max (height s) (r1 + Z.of_nat (List.length rows) - 1))
    (fun r c =>
       if (r1 <=? r) && (c1 <=? c) then
         match nth_error rows (Z.to_nat (r - r1)) with
         | Some row =>
             match nth_error row (Z.to_nat (c - c1)) with
             | Some v => stored v (cell_at s r c)
             | None => cell_at s r c
             end
         | None => cell_at s r c
         end
       else cell_at s r c).

Definition fits (first : Z) (count : nat) (last : option Z) : bool :=
  match last with
  | Some b => first + Z.of_nat count - 1 <=? b
  | None => true
  end.

(** [spreadsheets.values.update]: the values are written from the top left
    corner of the range; values that reach outside the range are refused,
    a range larger than the values is accepted. *)
Definition update (s : sheet) (range : a1_range) (body : pyval)
    : result pyval * sheet :=
  match col_index (first_col range), col_index (last_col range), body_values body with
  | Some c1, Some c2, Some rows =>
      let r1 := match first_row range with Some r => r | None => 1 end in
      if String.eqb (tab range) "Sheet1"
         && (1 <=? r1)
         && fits r1 (List.length rows) (last_row range)
         && forallb (fun row => fits c1 (List.length row) (Some c2)) rows
      then (inr (PDict [("updatedRange", PStr (a1_notation range));
                        ("updatedRows", PInt (Z.of_nat (List.length rows)))]),
            write_block s r1 c1 rows)
      else (inl http_error, s)
  | _, _, _ => (inl http_error, s)
  end.

(** The number of rows a read of column A reports: the number of the last
    row whose cell in column A is filled, 0 when there is none. *)
Definition rows_reported_for_column_A (s : sheet) : Z :=
  Z.of_nat (List.length (read_rows s 1 1 1 (height s))).

(** The number of filled cells in column A. *)
Definition filled_in_column_A (s : sheet) : Z :=
  Z.of_nat (List.length
              (filter (fun r => negb (is_empty_cell (cell_at s r 1)))
                      (Zseq 1 (Z.to_nat (height s))))).

End SheetModel.

(* ===================================================================== *)
(** * A scripted environment *)
(* ===================================================================== *)

(** An environment that can be run: the spreadsheet is a [SheetModel.sheet],
    the answer to an HTTP request is read off a script from the number of
    requests served before it, its URL and its parameters, and the files are
    fixed.  The library functions are instances that cover the inputs of the
    examples: [repr] without string escapes and without floats, [float] on
    plain decimal notation, ISO timestamps of the form
    [YYYY-MM-DDThh:mm:ss] followed by a zone designator, and one fixed
    address for the futures of tenacity. *)
Module Scripted.

Record remote : Type := mk_remote {
  sheet_of : SheetModel.sheet;
  served : nat
}.

Record script : Type := mk_script {
  respond : nat -> string -> pyval -> result pyval;
  config_file : option (result pyval);      (* [None]: no such file *)
  credentials : option (result unit);       (* [None]: no such file *)
  yesterday : string
}.

Fixpoint repr (v : pyval) : string :=
  match v with
  | PNone => "None"
  | PBool true => "True"
  | PBool false => "False"
  | PInt n => string_of_Z n
  | PFloat _ => "<float>"
  | PStr s => "'" ++ s ++ "'"
  | PList l => "[" ++ String.concat ", " (map repr l) ++ "]"
  | PDict d =>
      "{" ++ String.concat ", "
               (map (fun kv : string * pyval => let (k, x) := kv in "'" ++ k ++ "': " ++ repr x) d)
          ++ "}"
  end.

Definition digit_value (c : ascii) : option Z :=
  let n := Z.of_nat (nat_of_ascii c) in
  if (48 <=? n) && (n <=? 57) then Some (n - 48) else None.

(** The digits at the start of a string, and what follows them. *)
Fixpoint take_digits (s : string) : list Z * string :=
  match s with
  | EmptyString => ([], EmptyString)
  | String c rest =>
      match digit_value c with
      | Some d => let (ds, tail) := take_digits rest in (d :: ds, tail)
      | None => ([], s)
      end
  end.

Definition number_of (digits : list Z) : Z :=
  fold_left (fun acc d => 10 * acc + d) digits 0.

(** The double nearest to [m / 10^k], ties to even: the quotient is taken
    with 64 bits to spare and one sticky bit below them. *)
Definition round_decimal (negative : bool) (m : Z) (k : nat) : spec_float :=
  if m =? 0 then S754_zero negative
  else
    let shift := 64 + 4 * Z.of_nat k in
    let den := 10 ^ Z.of_nat k in
    let q := (m * 2 ^ shift) / den in
    let sticky := if (m * 2 ^ shift) mod den =? 0 then 0 else 1 in
    let x := binary_normalize 53 1024 (2 * q + sticky) (- shift - 1) false in
    if negative then SFopp x else x.

Definition decimal_point : ascii := "."%char.

Definition unsigned_decimal (negative : bool) (s : string) : option spec_float :=
  let (int_digits, after) := take_digits s in
  match after with
  | EmptyString =>
      match int_digits with
      | [] => None
      | _ => Some (round_decimal negative (number_of int_digits) 0)
      end
  | String c rest =>
      if Ascii.eqb c decimal_point then
        let (frac_digits, tail) := take_digits rest in
        match tail, (int_digits ++ frac_digits)%list with
        | EmptyString, (_ :: _) as ds =>
            Some (round_decimal negative (number_of ds) (List.length frac_digits))
        | _, _ => None
        end
      else None
  end.

Definition float_of_decimal (s : string) : option spec_float :=
  match s with
  | String "-" rest => unsigned_decimal true rest
  | String "+" rest => unsigned_decimal false rest
  | _ => unsigned_decimal false s
  end.

(** [count] digits at the start of [s] as a number, then a separator. *)
Definition field (count : nat) (separator : option ascii) (s : string)
    : option (Z * string) :=
  let (ds, tail) := take_digits (String.substring 0 count s) in
  match tail, Nat.eqb (List.length ds) count with
  | EmptyString, true =>
      let rest := String.substring count (String.length s - count) s in
      match separator, rest with
      | None, _ => Some (number_of ds, rest)
      | Some c, String c' rest' =>
          if Ascii.eqb c c' then Some (number_of ds, rest') else None
      | Some _, EmptyString => None
      end
  | _, _ => None
  end.

Definition in_range (lo hi x : Z) : bool := (lo <=? x) && (x <=? hi).

Definition parse_timestamp (s : string) : option datetime :=
  match field 4 (Some "-"%char) s with
  | Some (y, s1) =>
  match field 2 (Some "-"%char) s1 with
  | Some (mo, s2) =>
  match field 2 (Some "T"%char) s2 with
  | Some (d, s3) =>
  match field 2 (Some ":"%char) s3 with
  | Some (h, s4) =>
  match field 2 (Some ":"%char) s4 with
  | Some (mi, s5) =>
  match field 2 None s5 with
  | Some (sec, _) =>
      if in_range 1 9999 y && in_range 1 12 mo && in_range 1 31 d
         && in_range 0 23 h && in_range 0 59 mi && in_range 0 59 sec
      then Some (mk_datetime y mo d h mi sec 0)
      else None
  | None => None end
  | None => None end
  | None => None end
  | None => None end
  | None => None end
  | None => None end.

Definition isoparse_naive (v : pyval) : result datetime :=
  match v with
  | PStr s =>
      match parse_timestamp s with
      | Some dt => inr dt
      | None => inl (ValueError "Invalid isoformat string")
      end
  | _ => inl (TypeError ("object of type '" ++ type_name v ++ "' has no len()"))
  end.

Definition config_path : string := "passkeys.json".
Definition creds_path : string := "zeta-environs-448616-m0-cb4f0707f662.json".

(** What [open] raises on a path that does not exist. *)
Definition no_such_file (path : string) : exn :=
  ExternalError "FileNotFoundError"
    ("[Errno 2] No such file or directory: '" ++ path ++ "'").

Definition is_some {A : Type} (x : option A) : bool :=
  match x with
  | Some _ => true
  | None => false
  end.

Definition env_of (sc : script) : Env :=
  {| World := remote;
     http_get := fun url params w =>
       (respond sc (served w) url params, mk_remote (sheet_of w) (S (served w)));
     values_get := fun _ range w => (SheetModel.get (sheet_of w) range, w);
     values_update := fun _ range _ body w =>
       let (r, s) := SheetModel.update (sheet_of w) range body in
       (r, mk_remote s (served w));
     path_exists := fun path _ =>
       if String.eqb path config_path then is_some (config_file sc)
       else if String.eqb path creds_path then is_some (credentials sc)
       else false;
     json_load := fun path _ =>
       match config_file sc with
       | Some r => if String.eqb path config_path then r
                   else inl (no_such_file path)
       | None => inl (no_such_file path)
       end;
     build_sheets := fun _ w =>
       (match credentials sc with
        | Some r => r
        | None => inl (no_such_file creds_path)
        end, w);
     py_repr := repr;
     float_of_str := float_of_decimal;
     isoparse := isoparse_naive;
     future_address := fun _ => "0x7f5d3c2b1a90";
     YESTERDAY_DATE := yesterday sc;
     CONFIG_FILE := config_path;
     SPREADSHEET_ID := "1Pl24edGAhoovXPtHTTugsb3QM4YbcBsMjg6lBk9BXOs" |}.

Definition start (sc : script) (s : SheetModel.sheet) : state (env_of sc) :=
  mk_state (env := env_of sc) (mk_remote s 0) [].

End Scripted.

(* ===================================================================== *)
(** * Vocabulary of the statements *)
(* ===================================================================== *)

Section Vocabulary.

Variable env : Env.

(** The two functions that carry the [@retry] decorator, each with the
    function body it wraps. *)
Inductive decorated_operation : forall A : Type, M env A -> M env A -> Prop :=
| lookup_operation (ad_id access_token : pyval) :
    decorated_operation (option datetime)
      (fetch_ad_creation_time_body env ad_id access_token)
      (fetch_ad_creation_time env ad_id access_token)
| listing_operation (fuel : nat) (config : pyval) :
    decorated_operation (list pyval)
      (fetch_api_data_body env fuel config)
      (fetch_api_data env fuel config).

(** What the caller of a decorated function gets when the last attempt
    ended as [o]: a raised exception arrives wrapped in [RetryError]. *)
Definition after_last_attempt {A : Type} (o : outcome A) : outcome A :=
  match o with
  | Raise e => Raise (RetryError e)
  | other => other
  end.

(** All five stages of [sync_data] run and none raises. *)
Inductive stages_complete (fuel : nat) (st : state env) : state env -> Prop :=
| all_stages config sheets api_data daily_data st1 st2 st3 st4 :
    load_config env st = (Return config, st1) ->
    init_sheets_api env st1 = (Return sheets, st2) ->
    fetch_api_data env fuel config st2 = (Return api_data, st3) ->
    process_daily_data env api_data = inr daily_data ->
    write_to_sheets env sheets daily_data st3 = (Return tt, st4) ->
    stages_complete fuel st st4.

(** The stages before one run without raising, and that one raises [e]. *)
Inductive stage_raises (fuel : nat) (st : state env) : exn -> state env -> Prop :=
| load_config_raises e st1 :
    load_config env st = (Raise e, st1) ->
    stage_raises fuel st e st1
| init_sheets_api_raises config e st1 st2 :
    load_config env st = (Return config, st1) ->
    init_sheets_api env st1 = (Raise e, st2) ->
    stage_raises fuel st e st2
| fetch_api_data_raises config sheets e st1 st2 st3 :
    load_config env st = (Return config, st1) ->
    init_sheets_api env st1 = (Return sheets, st2) ->
    fetch_api_data env fuel config st2 = (Raise e, st3) ->
    stage_raises fuel st e st3
| process_daily_data_raises config sheets api_data e st1 st2 st3 :
    load_config env st = (Return config, st1) ->
    init_sheets_api env st1 = (Return sheets, st2) ->
    fetch_api_data env fuel config st2 = (Return api_data, st3) ->
    process_daily_data env api_data = inl e ->
    stage_raises fuel st e st3
| write_to_sheets_raises config sheets api_data daily_data e st1 st2 st3 st4 :
    load_config env st = (Return config, st1) ->
    init_sheets_api env st1 = (Return sheets, st2) ->
    fetch_api_data env fuel config st2 = (Return api_data, st3) ->
    process_daily_data env api_data = inr daily_data ->
    write_to_sheets env sheets daily_data st3 = (Raise e, st4) ->
    stage_raises fuel st e st4.

(** The row one input record becomes (lines 188 to 200). *)
Definition row_of_entry (entry : pyval) : result row_entry :=
  spend <- parse_spend env entry ;;
  campaign_name <- py_get entry "campaign_name" (PStr "Not Available") ;;
  ad_name <- py_get entry "ad_name" (PStr "Not Available") ;;
  ret (mk_row campaign_name ad_name spend (YESTERDAY_DATE env) (YESTERDAY_DATE env)).

(** [spend] as a number is zero: the integer [0] or a float zero. *)
Definition is_zero (v : pyval) : Prop :=
  v = PInt 0 \/ exists sign, v = PFloat (S754_zero sign).

(** The calls of a log that are page requests of the listing. *)
Definition is_listing_request (ev : event) : bool :=
  match ev with
  | EvGet AdsListing _ _ _ => true
  | _ => false
  end.


Definition is_lookup_request (ev : event) : Prop :=
  match ev with
  | EvGet AdLookup _ _ _ => True
  | _ => False
  end.

(** The service answers the request [url], [params] with the decoded body
    [body], whatever has happened before. *)
Definition serves (url : string) (params body : pyval) : Prop :=
  forall w, fst (http_get env url params w) = inr body.

Definition is_record (v : pyval) : Prop := exists d, v = PDict d.

(** [body] is a page of the listing: no error envelope, the records
    [items] under [data], and [next] under [paging.next] ([None] when the
    page has no such entry). *)
Definition listing_page (body : pyval) (items : list pyval) (next : pyval) : Prop :=
  py_contains "error" body = inr false /\
  (page_data <- py_get body "data" (PList []) ;; py_iter page_data) = inr items /\
  Forall is_record items /\
  (paging <- py_get body "paging" (PDict []) ;; py_get paging "next" PNone) = inr next.

(** A finite chain of pages that starts at the request [next_page],
    [params]: every page but the last names the next one, the last one
    names none.  The list holds the records of each page. *)
Inductive page_chain : pyval -> pyval -> list (list pyval) -> Prop :=
| last_page next_page params body items next :
    serves (py_str env next_page) params body ->
    listing_page body items next ->
    py_truthy next = false ->
    page_chain next_page params [items]
| more_pages next_page params body items next rest :
    serves (py_str env next_page) params body ->
    listing_page body items next ->
    py_truthy next = true ->
    page_chain next (PDict []) rest ->
    page_chain next_page params (items :: rest).

(** The record has an identifier, its lookup gave a timestamp, and that
    timestamp is not before the cutoff. *)
Definition accepted (created : pyval -> option datetime) (ad : pyval) : bool :=
  match py_get ad "ad_id" PNone with
  | inr ad_id =>
      py_truthy ad_id &&
      match created ad_id with
      | Some dt => datetime_ge dt CUTOFF_DATE
      | None => false
      end
  | inl _ => false
  end.

(** A page response of the log whose decoded body is a dict with the key
    [error]. *)
Definition error_envelope_received (log : list event) (err : pyval) : Prop :=
  exists url params d,
    In (EvGet AdsListing url params (inr (PDict d))) log /\
    dict_lookup "error" d = Some err.

End Vocabulary.

(** The identifiers the listing loop looks up among [records]. *)
Definition looked_up (records : list pyval) (ad_id : pyval) : Prop :=
  exists ad, In ad records /\ py_get ad "ad_id" PNone = inr ad_id
             /\ py_truthy ad_id = true.


(** The creation-time lookup for a record of [records] with identifier
    [ad_id] comes back with [created ad_id]. *)
Definition lookups_answer (env : Env) (access_token : pyval)
    (records : list pyval) (created : pyval -> option datetime) : Prop :=
  forall ad_id, looked_up records ad_id ->
  forall st, exists st',
    fetch_ad_creation_time env ad_id access_token st = (Return (created ad_id), st').

(** The ranges of the updates of a log. *)
Definition update_ranges (log : list event) : list a1_range :=
  flat_map (fun ev => match ev with
                      | EvValuesUpdate _ range _ _ _ => [range]
                      | _ => []
                      end) log.

(** The range of the read of column A. *)
Definition column_A : a1_range := A1 "Sheet1" "A" None "A" None.

(** The log of [st'] is the log of [st] with calls added in front, all of
    which satisfy [P]. *)
Definition extends_log {env : Env} (P : event -> Prop) (st st' : state env) : Prop :=
  exists new, calls st' = (new ++ calls st)%list /\ Forall P new.

(** Whatever way [c] ends, it has only added calls that satisfy [P]. *)
Definition emits {env : Env} {A : Type} (P : event -> Prop) (c : M env A) : Prop :=
  forall st o st', c st = (o, st') -> extends_log P st st'.

Definition any_call (ev : event) : Prop := True.

(** The request of [fetch_ad_creation_time], and the state after it. *)
Definition creation_time_url (env : Env) (ad_id : pyval) : string :=
  "https://graph.facebook.com/" ++ API_VERSION ++ "/" ++ py_str env ad_id.

Definition creation_time_params (access_token : pyval) : pyval :=
  PDict [("fields", PStr "created_time"); ("access_token", access_token)].

Definition after_lookup (env : Env) (ad_id access_token : pyval) (st : state env)
    : state env :=
  mk_state
    (snd (http_get env (creation_time_url env ad_id)
            (creation_time_params access_token) (world st)))
    (EvGet AdLookup (creation_time_url env ad_id) (creation_time_params access_token)
       (fst (http_get env (creation_time_url env ad_id)
               (creation_time_params access_token) (world st)))
     :: calls st).

(** ** Further vocabulary *)

(** The dict has the key. *)
Definition has_key (d : list (string * pyval)) (key : string) : bool :=
  match dict_lookup key d with
  | Some _ => true
  | None => false
  end.

(** The two keys [load_config] requires. *)
Definition required_keys : list string := ["accessToken"; "adAccountId"].

(** Whatever way [c] ends, the state is the one it started in. *)
Definition leaves_state {env : Env} {A : Type} (c : M env A) : Prop :=
  forall st o st', c st = (o, st') -> st' = st.

(** The call is an HTTP request. *)
Definition is_request (ev : event) : Prop :=
  match ev with
  | EvGet _ _ _ _ => True
  | _ => False
  end.

(** The request of a creation-time lookup, with its response. *)
Definition lookup_request (env : Env) (ad_id access_token : pyval)
    (response : result pyval) : event :=
  EvGet AdLookup (creation_time_url env ad_id) (creation_time_params access_token)
        response.

(** The calls of a log that went to the spreadsheet service. *)
Definition is_sheet_call (ev : event) : bool :=
  match ev with
  | EvGet _ _ _ _ => false
  | _ => true
  end.

Definition sheet_calls (log : list event) : list event := filter is_sheet_call log.

(** ** What a pass of the fetch went through *)

(** One record of a page as a pass met it: the record and, if it has a
    non-empty [ad_id], what the creation-time lookup made for it returned
    ([None] when no lookup was made). *)
Definition visit : Type := (pyval * option (option datetime))%type.

(** [a] is not before [b], comparing field by field from the left. *)
Fixpoint at_or_after (a b : list Z) : bool :=
  match a, b with
  | x :: a', y :: b' => (y <? x) || ((x =? y) && at_or_after a' b')
  | _, _ => true
  end.

(** The lookup of the visit returned a timestamp, and that timestamp is
    2024-09-01 00:00:00 or a later one. *)
Definition created_since_cutoff (v : visit) : bool :=
  match snd v with
  | Some (Some dt) =>
      at_or_after [year dt; month dt; day dt; hour dt; minute dt; second dt;
                   microsecond dt]
                  [2024; 9; 1; 0; 0; 0; 0]
  | _ => false
  end.

(** The records a pass keeps of those it visited. *)
Definition kept_records (visits : list visit) : list pyval :=
  map fst (filter created_since_cutoff visits).

Section Visits.

Variable env : Env.
Variable access_token : pyval.

(** The item loop went through [items] from the state [st] to the state
    [st'] and made the visits [visits]: for each record in turn, a record
    without a non-empty [ad_id] costs nothing, and for a record with one the
    creation-time lookup was made in the state the loop had reached, and
    returned. *)
Inductive items_visited
    : state env -> list pyval -> list visit -> state env -> Prop :=
| no_more_items st :
    items_visited st [] [] st
| item_without_id st st' ad ad_id items visits :
    py_get ad "ad_id" PNone = inr ad_id ->
    py_truthy ad_id = false ->
    items_visited st items visits st' ->
    items_visited st (ad :: items) ((ad, None) :: visits) st'
| item_looked_up st st1 st' ad ad_id created items visits :
    py_get ad "ad_id" PNone = inr ad_id ->
    py_truthy ad_id = true ->
    fetch_ad_creation_time env ad_id access_token st = (Return created, st1) ->
    items_visited st1 items visits st' ->
    items_visited st (ad :: items) ((ad, Some created) :: visits) st'.

(** The page loop went from the request [next_page], [params] in the state
    [st] to the state [st'], where no further page was named: each page
    request in turn was answered with a listing page without an error
    envelope, whose records the item loop went through. *)
Inductive pages_visited
    : pyval -> pyval -> state env -> list visit -> state env -> Prop :=
| no_more_pages next_page params st :
    py_truthy next_page = false ->
    pages_visited next_page params st [] st
| page_visited next_page params st st1 st2 st' body items next visits more :
    py_truthy next_page = true ->
    requests_get env AdsListing (py_str env next_page) params st = (Return body, st1) ->
    listing_page body items next ->
    items_visited st1 items visits st2 ->
    pages_visited next (if py_truthy next then PDict [] else params) st2 more st' ->
    pages_visited next_page params st (visits ++ more)%list st'.

End Visits.

(** The [params] of the page requests of a log, most recent first. *)
Definition listing_params_sent (log : list event) : list pyval :=
  flat_map (fun ev => match ev with
                      | EvGet AdsListing _ params _ => [params]
                      | _ => []
                      end) log.

(** The read of column A that [write_to_sheets] makes, with its answer. *)
Definition column_A_read (env : Env) (response : result pyval) : event :=
  EvValuesGet (SPREADSHEET_ID env) column_A response.

(** The update [write_to_sheets] sends when the next empty row is [k]. *)
Definition rows_update (env : Env) (data : list (string * list row_entry)) (k : Z)
    (response : result pyval) : event :=
  EvValuesUpdate (SPREADSHEET_ID env)
    (A1 "Sheet1" "A" (Some k) "F" (Some (k + Z.of_nat (List.length (build_rows data)))))
    "RAW" (PDict [("values", PList (map PList (build_rows data)))]) response.

(** The cells of the row written for a record: the date, the two names,
    the spend, and the date twice more. *)
Definition row_cells (env : Env) (entry : pyval) (row : list pyval) : Prop :=
  exists spend campaign_name ad_name,
    parse_spend env entry = inr spend /\
    py_get entry "campaign_name" (PStr "Not Available") = inr campaign_name /\
    py_get entry "ad_name" (PStr "Not Available") = inr ad_name /\
    row = [PStr (YESTERDAY_DATE env); campaign_name; ad_name; spend;
           PStr (YESTERDAY_DATE env); PStr (YESTERDAY_DATE env)].

(** The record has a non-empty [ad_id], so the item loop looks it up. *)
Definition has_ad_id (ad : pyval) : bool :=
  match py_get ad "ad_id" PNone with
  | inr ad_id => py_truthy ad_id
  | inl _ => false
  end.

(** The page requests of a log that carry query parameters. *)
Definition first_page_requests (log : list event) : nat :=
  List.length (filter py_truthy (listing_params_sent log)).

(* ===================================================================== *)
(** * Concrete runs *)
(* ===================================================================== *)

Module Examples.

Import Scripted.

Definition config_T : pyval :=
  PDict [("accessToken", PStr "T"); ("adAccountId", PStr "123")].

Definition insights_url : string :=
  "https://graph.facebook.com/v17.0/act_123/insights".

Definition second_page_url : string :=
  "https://graph.facebook.com/v17.0/act_123/insights?after=MQZDZD".

Definition ad_url (ad_id : string) : string :=
  "https://graph.facebook.com/v17.0/" ++ ad_id.

Definition ad (ad_id campaign name spent : string) : pyval :=
  PDict [("campaign_name", PStr campaign); ("ad_name", PStr name);
         ("spend", PStr spent); ("ad_id", PStr ad_id)].

Definition created_at (ad_id stamp : string) : pyval :=
  PDict [("created_time", PStr stamp); ("id", PStr ad_id)].

Definition script_of (respond : nat -> string -> pyval -> result pyval) : script :=
  mk_script respond (Some (inr config_T)) (Some (inr tt)) "2024-11-02".

Definition connection_error : exn :=
  ExternalError "ConnectionError" "Max retries exceeded with url".

(** The scenario of one page with one ad, created after the cutoff. *)
Definition ad_A1 : pyval := ad "A1" "C" "N" "12.5".

Definition one_page (n : nat) (url : string) (params : pyval) : result pyval :=
  if String.eqb url insights_url then inr (PDict [("data", PList [ad_A1])])
  else if String.eqb url (ad_url "A1") then
    inr (created_at "A1" "2024-10-05T08:00:00+0000")
  else inl connection_error.

(** The same listing, but the ad was created before the cutoff. *)
Definition one_old_ad (n : nat) (url : string) (params : pyval) : result pyval :=
  if String.eqb url insights_url then inr (PDict [("data", PList [ad_A1])])
  else if String.eqb url (ad_url "A1") then
    inr (created_at "A1" "2024-08-31T23:59:59+0000")
  else inl connection_error.

(** Two pages.  A1 is recent, A2 is old, the lookup of A3 answers with an
    error envelope, A4 was created at the cutoff itself, the fifth record
    has no identifier, the lookup of A6 has no [created_time]. *)
Definition ad_A2 : pyval := ad "A2" "C" "old" "3".
Definition ad_A3 : pyval := ad "A3" "C" "gone" "1".
Definition ad_A4 : pyval := ad "A4" "D" "edge" "0.1".
Definition ad_without_id : pyval :=
  PDict [("campaign_name", PStr "D"); ("spend", PStr "7")].
Definition ad_A6 : pyval := ad "A6" "D" "bare" "2".

Definition first_page : pyval :=
  PDict [("data", PList [ad_A1; ad_A2; ad_A3]);
         ("paging", PDict [("cursors", PDict [("after", PStr "MQZDZD")]);
                           ("next", PStr second_page_url)])].

Definition second_page : pyval :=
  PDict [("data", PList [ad_A4; ad_without_id; ad_A6]);
         ("paging", PDict [("cursors", PDict [("after", PStr "MgZDZD")])])].

Definition answer_lookup (url : string) : result pyval :=
  if String.eqb url (ad_url "A1") then
    inr (created_at "A1" "2024-10-05T08:00:00+0000")
  else if String.eqb url (ad_url "A2") then
    inr (created_at "A2" "2024-08-31T23:59:59+0000")
  else if String.eqb url (ad_url "A3") then
    inr (PDict [("error", PDict [("message", PStr "Unsupported get request");
                                 ("code", PInt 100)])])
  else if String.eqb url (ad_url "A4") then
    inr (created_at "A4" "2024-09-01T00:00:00+0000")
  else if String.eqb url (ad_url "A6") then
    inr (PDict [("id", PStr "A6")])
  else inl connection_error.

Definition two_pages (n : nat) (url : string) (params : pyval) : result pyval :=
  if String.eqb url insights_url then inr first_page
  else if String.eqb url second_page_url then inr second_page
  else answer_lookup url.


(** The second page is an error envelope. *)
Definition oauth_error : pyval :=
  PDict [("message", PStr "Invalid OAuth access token"); ("code", PInt 190)].

Definition error_on_second_page (n : nat) (url : string) (params : pyval)
    : result pyval :=
  if String.eqb url insights_url then inr first_page
  else if String.eqb url second_page_url then inr (PDict [("error", oauth_error)])
  else answer_lookup url.

(** The network is down: every request raises. *)
Definition down (n : nat) (url : string) (params : pyval) : result pyval :=
  inl connection_error.

(** The first two requests raise, the later ones are answered. *)
Definition flaky (n : nat) (url : string) (params : pyval) : result pyval :=
  if (n <? 2)%nat then inl connection_error else one_page n url params.

(** A record whose spend is an integer no double can hold. *)
Definition ad_huge_spend : pyval :=
  PDict [("campaign_name", PStr "C"); ("ad_name", PStr "N");
         ("spend", PInt (2 ^ 1024)); ("ad_id", PStr "A1")].

(** Column A holds a header in row 1, nothing in row 2, a date in row 3. *)
Definition sheet_with_gap : SheetModel.sheet :=
  SheetModel.of_rows [[Some (PStr "date"); Some (PStr "campaign")];
                      [None; Some (PStr "note")];
                      [Some (PStr "2024-11-01"); Some (PStr "C")]].

Definition one_row : list (string * list row_entry) :=
  [("2024-11-02", [mk_row (PStr "C") (PStr "N")
                          (PFloat (S754_finite false 7036874417766400 (-49)))
                          "2024-11-02" "2024-11-02"])].

(** Environments and start states of the runs. *)
Definition flaky_env : Env := env_of (script_of flaky).
Definition flaky_start : state flaky_env := start (script_of flaky) SheetModel.blank.
Definition flaky_body : M flaky_env (option datetime) :=
  fetch_ad_creation_time_body flaky_env (PStr "A1") (PStr "T").
Definition flaky_st1 : state flaky_env := snd (flaky_body flaky_start).
Definition flaky_st2 : state flaky_env := snd (flaky_body flaky_st1).
Definition flaky_st3 : state flaky_env := snd (flaky_body flaky_st2).

Definition down_env : Env := env_of (script_of down).
Definition down_start : state down_env := start (script_of down) SheetModel.blank.

Definition one_page_env : Env := env_of (script_of one_page).
Definition one_page_start (s : SheetModel.sheet) : state one_page_env :=
  start (script_of one_page) s.

Definition one_old_ad_env : Env := env_of (script_of one_old_ad).
Definition one_old_ad_start : state one_old_ad_env :=
  start (script_of one_old_ad) SheetModel.blank.

Definition two_pages_env : Env := env_of (script_of two_pages).
Definition two_pages_start : state two_pages_env :=
  start (script_of two_pages) SheetModel.blank.

Definition error_page_env : Env := env_of (script_of error_on_second_page).
Definition error_page_start : state error_page_env :=
  start (script_of error_on_second_page) SheetModel.blank.

(** The sheet of a state of a scripted run. *)
Definition sheet_in {sc : script} (st : state (env_of sc)) : SheetModel.sheet :=
  sheet_of (world st).


(** The state after one row is written to the sheet with the gap. *)
Definition gap_after_write : state one_page_env :=
  snd (write_to_sheets one_page_env Spreadsheets one_row
         (one_page_start sheet_with_gap)).

(** One pass over the listing whose second page is an error envelope. *)
Definition error_page_run : outcome (list pyval) * state error_page_env :=
  fetch_api_data_body error_page_env 5 config_T error_page_start.




(** Further scenarios. *)
(** The configuration file holds an object without [adAccountId]. *)
Definition partial_config : pyval := PDict [("accessToken", PStr "T")].
Definition partial_config_env : Env :=
  env_of (mk_script one_page (Some (inr partial_config)) (Some (inr tt)) "2024-11-02").
Definition partial_config_start : state partial_config_env :=
  start (mk_script one_page (Some (inr partial_config)) (Some (inr tt)) "2024-11-02")
        SheetModel.blank.

(** The configuration file holds an array of the two key names. *)
Definition array_config : list pyval := [PStr "accessToken"; PStr "adAccountId"].
Definition array_config_env : Env :=
  env_of (mk_script one_page (Some (inr (PList array_config))) (Some (inr tt))
                    "2024-11-02").
Definition array_config_start : state array_config_env :=
  start (mk_script one_page (Some (inr (PList array_config))) (Some (inr tt))
                   "2024-11-02") SheetModel.blank.

(** The configuration file holds a number. *)
Definition number_config_env : Env :=
  env_of (mk_script one_page (Some (inr (PInt 5))) (Some (inr tt)) "2024-11-02").
Definition number_config_start : state number_config_env :=
  start (mk_script one_page (Some (inr (PInt 5))) (Some (inr tt)) "2024-11-02")
        SheetModel.blank.

(** There is no configuration file. *)
Definition no_config_env : Env :=
  env_of (mk_script one_page None (Some (inr tt)) "2024-11-02").
Definition no_config_start : state no_config_env :=
  start (mk_script one_page None (Some (inr tt)) "2024-11-02") SheetModel.blank.

(** There is no credentials file. *)
Definition no_credentials_env : Env :=
  env_of (mk_script one_page (Some (inr config_T)) None "2024-11-02").
Definition no_credentials_start : state no_credentials_env :=
  start (mk_script one_page (Some (inr config_T)) None "2024-11-02") SheetModel.blank.

(** Every request is answered with a [created_time] that is no timestamp. *)
Definition bad_stamp (n : nat) (url : string) (params : pyval) : result pyval :=
  inr (PDict [("created_time", PStr "yesterday")]).

Definition bad_stamp_env : Env := env_of (script_of bad_stamp).
Definition bad_stamp_start : state bad_stamp_env :=
  start (script_of bad_stamp) SheetModel.blank.

Definition down_lookup : (outcome (option datetime) * nat) * state down_env :=
  retry_statistics down_env MAX_RETRIES
    (fetch_ad_creation_time_body down_env (PStr "A1") (PStr "T")) down_start.

(** The scenario of one recent ad, with a spreadsheet service that refuses
    every read. *)
Definition sheets_down_env : Env :=
  {| World := World one_page_env;
     http_get := http_get one_page_env;
     values_get := fun _ _ w => (inl SheetModel.http_error, w);
     values_update := values_update one_page_env;
     path_exists := path_exists one_page_env;
     json_load := json_load one_page_env;
     build_sheets := build_sheets one_page_env;
     py_repr := py_repr one_page_env;
     float_of_str := float_of_str one_page_env;
     isoparse := isoparse one_page_env;
     future_address := future_address one_page_env;
     YESTERDAY_DATE := YESTERDAY_DATE one_page_env;
     CONFIG_FILE := CONFIG_FILE one_page_env;
     SPREADSHEET_ID := SPREADSHEET_ID one_page_env |}.

Definition sheets_down_start : state sheets_down_env :=
  mk_state (env := sheets_down_env) (mk_remote SheetModel.blank 0) [].

Definition gap_read : outcome Z * state one_page_env :=
  get_next_empty_row one_page_env Spreadsheets (SPREADSHEET_ID one_page_env) "Sheet1"
    (one_page_start sheet_with_gap).

Definition gap_write : outcome unit * state one_page_env :=
  write_to_sheets one_page_env Spreadsheets one_row (one_page_start sheet_with_gap).

Definition down_sync : outcome http_response * state down_env :=
  sync_data down_env 5 down_start.

Definition one_page_sync : outcome http_response * state one_page_env :=
  sync_data one_page_env 5 (one_page_start SheetModel.blank).

Definition second_page_items : outcome (list pyval) * state two_pages_env :=
  for_each_ad two_pages_env (PStr "T") [] [ad_A4; ad_without_id; ad_A6] two_pages_start.

(** The first request of the run is answered with an error envelope, the
    later ones as in the scenario of one recent ad. *)
Definition envelope_first (n : nat) (url : string) (params : pyval) : result pyval :=
  if Nat.eqb n 0 then inr (PDict [("error", oauth_error)]) else one_page n url params.

Definition envelope_first_env : Env := env_of (script_of envelope_first).
Definition envelope_first_start : state envelope_first_env :=
  start (script_of envelope_first) SheetModel.blank.
Definition envelope_first_run : outcome (list pyval) * state envelope_first_env :=
  fetch_api_data envelope_first_env 5 config_T envelope_first_start.

(** The listing of two pages; the lookup of A1 is answered, every other
    lookup is refused. *)
Definition only_A1_answers (n : nat) (url : string) (params : pyval) : result pyval :=
  if String.eqb url insights_url then inr first_page
  else if String.eqb url second_page_url then inr second_page
  else if String.eqb url (ad_url "A1") then
    inr (created_at "A1" "2024-10-05T08:00:00+0000")
  else inl connection_error.

Definition only_A1_answers_env : Env := env_of (script_of only_A1_answers).
Definition only_A1_answers_run : outcome (list pyval) * state only_A1_answers_env :=
  fetch_api_data only_A1_answers_env 5 config_T
    (start (script_of only_A1_answers) SheetModel.blank).

(** Calls of the decorated fetch. *)
Definition two_pages_call : outcome (list pyval) * state two_pages_env :=
  fetch_api_data two_pages_env 5 config_T two_pages_start.
Definition error_page_call : outcome (list pyval) * state error_page_env :=
  fetch_api_data error_page_env 5 config_T error_page_start.
Definition flaky_call : outcome (list pyval) * state flaky_env :=
  fetch_api_data flaky_env 5 config_T flaky_start.

(** What a pass over the two pages sees of each record: the record and
    what its lookup returned, if one was made. *)
Definition two_pages_visits : list visit :=
  [(ad_A1, Some (Some (mk_datetime 2024 10 5 8 0 0 0)));
   (ad_A2, Some (Some (mk_datetime 2024 8 31 23 59 59 0)));
   (ad_A3, Some None);
   (ad_A4, Some (Some (mk_datetime 2024 9 1 0 0 0 0)));
   (ad_without_id, None);
   (ad_A6, Some None)].

Definition down_fetch : (outcome (list pyval) * nat) * state down_env :=
  retry_statistics down_env MAX_RETRIES (fetch_api_data_body down_env 5 config_T)
    down_start.

End Examples.

(* ===================================================================== *)
(** * Running computations *)
(* ===================================================================== *)

Section MonadFacts.

Variable env : Env.

(** How a sequence of two computations can end. *)
Lemma bind_inv (A B : Type) (c : M env A) (k : A -> M env B) st o st' :
  bind c k st = (o, st') ->
  (exists a st1, c st = (Return a, st1) /\ k a st1 = (o, st')) \/
  (exists e, c st = (Raise e, st') /\ o = Raise e) \/
  (c st = (OutOfFuel, st') /\ o = OutOfFuel).
Proof.
  cbn. destruct (c st) as [[a | e |] st1]; intros H.
  - left. eauto.
  - inversion H; subst. right; left. eauto.
  - inversion H; subst. right; right. eauto.
Qed.

Lemma bind_return (A B : Type) (c : M env A) (k : A -> M env B) st a st1 :
  c st = (Return a, st1) -> bind c k st = k a st1.
Proof. intros H. cbn. rewrite H. reflexivity. Qed.

Lemma bind_raise (A B : Type) (c : M env A) (k : A -> M env B) st e st1 :
  c st = (Raise e, st1) -> bind c k st = (Raise e, st1).
Proof. intros H. cbn. rewrite H. reflexivity. Qed.

Lemma bind_out_of_fuel (A B : Type) (c : M env A) (k : A -> M env B) st st1 :
  c st = (OutOfFuel, st1) -> bind c k st = (OutOfFuel, st1).
Proof. intros H. cbn. rewrite H. reflexivity. Qed.

Lemma lift_run (A : Type) (r : result A) (st : state env) :
  lift env r st = (outcome_of r, st).
Proof. reflexivity. Qed.

(** The decorated call forgets the attempt counter. *)
Lemma retry_run (A : Type) (n : nat) (fn : M env A) st o k st' :
  retry_statistics env n fn st = ((o, k), st') -> retry env n fn st = (o, st').
Proof. intros H. unfold retry. rewrite H. reflexivity. Qed.

(** A decorated function that returns got its value from one run of the
    function it wraps, started in a state whose log extends the log of the
    call. *)
Lemma retry_loop_return (A : Type) (fn : M env A) :
  forall left attempt st a k st',
    retry_loop env left attempt fn st = ((Return a, k), st') ->
    (forall s o s', fn s = (o, s') -> exists new, calls s' = (new ++ calls s)%list) ->
    exists st1 before,
      fn st1 = (Return a, st') /\ calls st1 = (before ++ calls st)%list.
Proof.
  induction left as [| left IH]; intros attempt st a k st' H Hext; simpl in H.
  - destruct (fn st) as [[x | e |] s] eqn:E; inversion H; subst.
    exists st, []. split; [exact E | reflexivity].
  - destruct (fn st) as [[x | e |] s] eqn:E.
    + inversion H; subst. exists st, []. split; [exact E | reflexivity].
    + destruct (IH _ _ _ _ _ H Hext) as (st1 & before & H1 & H2).
      destruct (Hext _ _ _ E) as [new Hnew].
      exists st1, (before ++ new)%list. split; [exact H1 |].
      rewrite H2, Hnew, app_assoc. reflexivity.
    + inversion H.
Qed.

End MonadFacts.

(* ===================================================================== *)
(** * The retry bound *)
(* ===================================================================== *)

(** C7, as amended.  For both decorated functions: when the wrapped body
    raises on its first two runs, the third run is the last one, and the
    attempt counter stands at 3.  If the third run returns a value the call
    returns it; if it raises, the call raises tenacity's [RetryError], which
    holds the exception of the third run (the exception itself is not what
    the caller catches). *)
Theorem retry_three_attempts :
  forall (env : Env) (A : Type) (body call : M env A),
    decorated_operation env A body call ->
    forall (st0 st1 st2 st3 : state env) (e1 e2 : exn) (o : outcome A),
      body st0 = (Raise e1, st1) ->
      body st1 = (Raise e2, st2) ->
      body st2 = (o, st3) ->
      call st0 = (after_last_attempt o, st3) /\
      retry_statistics env MAX_RETRIES body st0 = ((after_last_attempt o, 3%nat), st3).
Proof.
  intros env A body call Hop st0 st1 st2 st3 e1 e2 o H0 H1 H2.
  assert (Hstat : retry_statistics env MAX_RETRIES body st0
                  = ((after_last_attempt o, 3%nat), st3)).
  { unfold retry_statistics, MAX_RETRIES. simpl.
    rewrite H0, H1, H2. destruct o; reflexivity. }
  split; [| exact Hstat].
  destruct Hop; [unfold fetch_ad_creation_time | unfold fetch_api_data];
    apply (retry_run _ _ _ _ _ _ _ _ Hstat).
Qed.

(** A body that returns at once is called once. *)
Lemma retry_first_attempt (env : Env) (A : Type) (fn : M env A) st a st' :
  fn st = (Return a, st') -> retry env MAX_RETRIES fn st = (Return a, st').
Proof.
  intros H. apply (retry_run _ _ _ _ _ _ 1%nat).
  unfold retry_statistics, MAX_RETRIES. simpl. rewrite H. reflexivity.
Qed.

(** Two connection errors, then an answer: the third attempt returns. *)
Lemma retry_three_attempts_witness :
  fetch_ad_creation_time Examples.flaky_env (PStr "A1") (PStr "T") Examples.flaky_start
  = (after_last_attempt (Return (Some (mk_datetime 2024 10 5 8 0 0 0))),
     Examples.flaky_st3) /\
  retry_statistics Examples.flaky_env MAX_RETRIES
    (fetch_ad_creation_time_body Examples.flaky_env (PStr "A1") (PStr "T"))
    Examples.flaky_start
  = ((after_last_attempt (Return (Some (mk_datetime 2024 10 5 8 0 0 0))), 3%nat),
     Examples.flaky_st3).
Proof.
  refine (retry_three_attempts Examples.flaky_env _ _ _
            (lookup_operation Examples.flaky_env (PStr "A1") (PStr "T"))
            Examples.flaky_start Examples.flaky_st1 Examples.flaky_st2
            Examples.flaky_st3
            Examples.connection_error Examples.connection_error
            (Return (Some (mk_datetime 2024 10 5 8 0 0 0))) _ _ _);
    reflexivity.
Defined.

(** C7, as stated, fails: with the network down every run of the body
    raises the connection error, the body runs 3 times, and what the caller
    of the decorated function catches is not that exception but a
    [RetryError] around it. *)
Lemma retry_surfaces_wrapper_not_final_exception :
  fst (fetch_ad_creation_time_body Examples.down_env (PStr "A1") (PStr "T")
         Examples.down_start)
  = Raise Examples.connection_error /\
  fst (retry_statistics Examples.down_env MAX_RETRIES
         (fetch_ad_creation_time_body Examples.down_env (PStr "A1") (PStr "T"))
         Examples.down_start)
  = (Raise (RetryError Examples.connection_error), 3%nat) /\
  fst (fetch_ad_creation_time Examples.down_env (PStr "A1") (PStr "T")
         Examples.down_start)
  <> Raise Examples.connection_error.
Proof.
  repeat split; try (vm_compute; reflexivity).
  vm_compute. discriminate.
Qed.

(* ===================================================================== *)
(** * The /sync boundary *)
(* ===================================================================== *)

(** The stages run in sequence. *)
Lemma pipeline_complete (env : Env) (fuel : nat) (st st' : state env) :
  stages_complete env fuel st st' -> pipeline env fuel st = (Return tt, st').
Proof.
  intros [config sheets api_data daily_data st1 st2 st3 st4 H1 H2 H3 H4 H5].
  unfold pipeline.
  rewrite (bind_return _ _ _ _ _ _ _ _ H1), (bind_return _ _ _ _ _ _ _ _ H2),
          (bind_return _ _ _ _ _ _ _ _ H3).
  cbn. unfold lift. rewrite H4. cbn. exact H5.
Qed.

Lemma pipeline_raises (env : Env) (fuel : nat) (st st' : state env) (e : exn) :
  stage_raises env fuel st e st' -> pipeline env fuel st = (Raise e, st').
Proof.
  intros H. unfold pipeline.
  destruct H as [e st1 H1
                | config e st1 st2 H1 H2
                | config sheets e st1 st2 st3 H1 H2 H3
                | config sheets api_data e st1 st2 st3 H1 H2 H3 H4
                | config sheets api_data daily_data e st1 st2 st3 st4 H1 H2 H3 H4 H5].
  - apply bind_raise, H1.
  - rewrite (bind_return _ _ _ _ _ _ _ _ H1). apply bind_raise, H2.
  - rewrite (bind_return _ _ _ _ _ _ _ _ H1), (bind_return _ _ _ _ _ _ _ _ H2).
    apply bind_raise, H3.
  - rewrite (bind_return _ _ _ _ _ _ _ _ H1), (bind_return _ _ _ _ _ _ _ _ H2),
            (bind_return _ _ _ _ _ _ _ _ H3).
    cbn. unfold lift. rewrite H4. reflexivity.
  - rewrite (bind_return _ _ _ _ _ _ _ _ H1), (bind_return _ _ _ _ _ _ _ _ H2),
            (bind_return _ _ _ _ _ _ _ _ H3).
    cbn. unfold lift. rewrite H4. cbn. exact H5.
Qed.

(** What [sync_data] makes of the way the stages end. *)
Lemma sync_data_run (env : Env) (fuel : nat) (st : state env) :
  sync_data env fuel st
  = (match fst (pipeline env fuel st) with
     | Return _ => Return success_response
     | Raise e =>
         Return (error_response
                   (future_address env (world (snd (pipeline env fuel st)))) e)
     | OutOfFuel => OutOfFuel
     end, snd (pipeline env fuel st)).
Proof.
  unfold sync_data, try_except.
  destruct (pipeline env fuel st) as [[[] | e |] s] eqn:E.
  - rewrite (bind_return _ _ _ _ _ _ _ _ E). reflexivity.
  - rewrite (bind_raise _ _ _ _ _ _ _ _ E). reflexivity.
  - rewrite (bind_out_of_fuel _ _ _ _ _ _ _ E). reflexivity.
Qed.

(** C3.  If the five stages of [sync_data] run without an exception the
    response is HTTP 200 with the body
    [{"status": "success", "message": "Data sync completed"}]; if one of
    them raises [e] the response is HTTP 500 with the body
    [{"status": "error", "message": str(e)}]; and [sync_data] itself never
    ends with an exception. *)
Theorem sync_data_boundary :
  forall (env : Env) (fuel : nat) (st : state env),
    (forall st', stages_complete env fuel st st' ->
       sync_data env fuel st
       = (Return (mk_response
                    (PDict [("status", PStr "success");
                            ("message", PStr "Data sync completed")]) 200),
          st')) /\
    (forall e st', stage_raises env fuel st e st' ->
       sync_data env fuel st
       = (Return (mk_response
                    (PDict [("status", PStr "error");
                            ("message",
                             PStr (exn_str (future_address env (world st')) e))])
                    500),
          st')) /\
    (forall e st', sync_data env fuel st <> (Raise e, st')).
Proof.
  intros env fuel st. repeat split.
  - intros st' H. apply pipeline_complete in H.
    rewrite sync_data_run, H. reflexivity.
  - intros e st' H. apply pipeline_raises in H.
    rewrite sync_data_run, H. reflexivity.
  - intros e st'. rewrite sync_data_run.
    destruct (fst (pipeline env fuel st)); discriminate.
Qed.

(** The scenario of one recent ad on a blank sheet ends with the 200
    response; with the network down the fetch stage raises, and the caller
    of /sync gets the 500 response with the text of the [RetryError], which
    names the class of the connection error and not its text. *)
Lemma sync_data_boundary_witness :
  (let env := Examples.one_page_env in
   let st0 := Examples.one_page_start SheetModel.blank in
   let st1 := snd (load_config env st0) in
   let st2 := snd (init_sheets_api env st1) in
   let st3 := snd (fetch_api_data env 5 Examples.config_T st2) in
   let st4 := snd (write_to_sheets env Spreadsheets Examples.one_row st3) in
   sync_data env 5 st0
   = (Return (mk_response
                (PDict [("status", PStr "success");
                        ("message", PStr "Data sync completed")]) 200),
      st4)) /\
  (let env := Examples.down_env in
   let st0 := Examples.down_start in
   let st3 := snd (fetch_api_data env 5 Examples.config_T st0) in
   sync_data env 5 st0
   = (Return (mk_response
                (PDict [("status", PStr "error");
                        ("message",
                         PStr "RetryError[<Future at 0x7f5d3c2b1a90 state=finished raised ConnectionError>]")])
                500),
      st3)).
Proof.
  split.
  - intros env st0 st1 st2 st3 st4.
    apply (proj1 (sync_data_boundary env 5 st0) st4).
    apply (all_stages env 5 st0 Examples.config_T Spreadsheets [Examples.ad_A1]
             Examples.one_row st1 st2 st3 st4);
      reflexivity.
  - intros env st0 st3.
    apply (proj1 (proj2 (sync_data_boundary env 5 st0))
             (RetryError Examples.connection_error) st3).
    apply (fetch_api_data_raises env 5 st0 Examples.config_T Spreadsheets
             (RetryError Examples.connection_error) st0 st0 st3);
      reflexivity.
Defined.

(** A configuration file that holds a number: the [in] test of
    [load_config] raises, and the message of the 500 response is the text
    of that [TypeError]. *)
Example sync_data_config_is_a_number :
  fst (sync_data Examples.number_config_env 5 Examples.number_config_start)
  = Return (mk_response
              (PDict [("status", PStr "error");
                      ("message", PStr "argument of type 'int' is not iterable")])
              500).
Proof. vm_compute. reflexivity. Qed.

(** Every run of [sync_data] that ends, ends with one of the two
    responses. *)
Lemma sync_data_responses (env : Env) (fuel : nat) (st st' : state env) o :
  sync_data env fuel st = (o, st') ->
  o = Return success_response \/
  (exists e, o = Return (error_response (future_address env (world st')) e)) \/
  o = OutOfFuel.
Proof.
  rewrite sync_data_run. intros H. inversion H; subst.
  destruct (fst (pipeline env fuel st)); eauto.
Qed.

(* ===================================================================== *)
(** * The Sheet Writer with nothing to write *)
(* ===================================================================== *)

(** C9.  When the processed data yields no rows, [write_to_sheets] returns
    at once: the state after the call is the state before it, so the
    spreadsheet is untouched and neither the read of column A nor the
    update has been issued. *)
Theorem write_to_sheets_no_rows :
  forall (env : Env) (sheets : sheets_resource)
         (data : list (string * list row_entry)) (st : state env),
    build_rows data = [] ->
    write_to_sheets env sheets data st = (Return tt, st).
Proof.
  intros env sheets data st H. unfold write_to_sheets. rewrite H. reflexivity.
Qed.

(** A date that maps to no entries gives no rows. *)
Lemma write_to_sheets_no_rows_witness :
  write_to_sheets Examples.one_page_env Spreadsheets [("2024-11-02", [])]
    (Examples.one_page_start Examples.sheet_with_gap)
  = (Return tt, Examples.one_page_start Examples.sheet_with_gap).
Proof.
  apply (write_to_sheets_no_rows Examples.one_page_env Spreadsheets
           [("2024-11-02", [])] (Examples.one_page_start Examples.sheet_with_gap)).
  reflexivity.
Defined.

(** The scenario of an ad created before the cutoff: the sync succeeds and
    the only remote calls are the page request and the lookup. *)
Example sync_data_old_ad :
  fst (sync_data Examples.one_old_ad_env 5 Examples.one_old_ad_start)
  = Return success_response /\
  map is_listing_request
      (calls (snd (sync_data Examples.one_old_ad_env 5 Examples.one_old_ad_start)))
  = [false; true].
Proof. split; vm_compute; reflexivity. Qed.

(* ===================================================================== *)
(** * The Processor *)
(* ===================================================================== *)

Section Processor.

Variable env : Env.

Let date : string := YESTERDAY_DATE env.

Lemma dict_lookup_same (V : Type) (k : string) (v : V) (rest : list (string * V)) :
  dict_lookup k ((k, v) :: rest) = Some v.
Proof. simpl. rewrite String.eqb_refl. reflexivity. Qed.

Lemma dict_set_same (V : Type) (k : string) (v w : V) (rest : list (string * V)) :
  dict_set k w ((k, v) :: rest) = (k, w) :: rest.
Proof. simpl. rewrite String.eqb_refl. reflexivity. Qed.

(** On the empty mapping an entry creates the key with its row. *)
Lemma process_entry_first (entry : pyval) :
  process_entry env [] entry
  = (row <- row_of_entry env entry ;; ret [(date, [row])]).
Proof.
  unfold process_entry, row_of_entry. fold date. cbn.
  rewrite !String.eqb_refl.
  destruct (parse_spend env entry) as [e | s]; [reflexivity |].
  destruct (py_get entry "campaign_name" (PStr "Not Available")) as [e | c];
    [reflexivity |].
  destruct (py_get entry "ad_name" (PStr "Not Available")) as [e | a];
    reflexivity.
Qed.

(** On a mapping that has rows under the date an entry adds its row last. *)
Lemma process_entry_next (first : row_entry) (rows : list row_entry) (entry : pyval) :
  process_entry env [(date, first :: rows)] entry
  = (row <- row_of_entry env entry ;; ret [(date, (first :: rows) ++ [row])%list]).
Proof.
  unfold process_entry, row_of_entry. fold date. cbn.
  rewrite !String.eqb_refl. cbn. rewrite !String.eqb_refl.
  destruct (parse_spend env entry) as [e | s]; [reflexivity |].
  destruct (py_get entry "campaign_name" (PStr "Not Available")) as [e | c];
    [reflexivity |].
  destruct (py_get entry "ad_name" (PStr "Not Available")) as [e | a];
    reflexivity.
Qed.

Lemma process_entries_cons (daily_data : list (string * list row_entry))
    (entry : pyval) (rest : list pyval) :
  process_entries env daily_data (entry :: rest)
  = (daily_data' <- process_entry env daily_data entry ;;
     process_entries env daily_data' rest).
Proof. reflexivity. Qed.

(** Once the date has rows, every further record adds one, in order. *)
Lemma process_entries_rows (api_data : list pyval) :
  forall (first : row_entry) (rows : list row_entry) daily_data,
    process_entries env [(date, first :: rows)] api_data = inr daily_data ->
    exists more,
      daily_data = [(date, (first :: rows) ++ more)%list] /\
      Forall2 (fun entry row => row_of_entry env entry = inr row) api_data more.
Proof.
  induction api_data as [| entry rest IH]; intros first rows daily_data H.
  - simpl in H. inversion H; subst. exists []. rewrite app_nil_r. split; constructor.
  - rewrite process_entries_cons, process_entry_next in H.
    destruct (row_of_entry env entry) as [e | row] eqn:Hrow; cbn in H;
      [discriminate |].
    destruct (IH _ _ _ H) as (more & Hd & Hmore).
    exists (row :: more). split.
    + rewrite Hd. simpl. rewrite <- app_assoc. reflexivity.
    + constructor; assumption.
Qed.

End Processor.

(** C10.  When the Processor returns, an empty input gives the empty
    mapping, and a non-empty input gives a mapping with the target date as
    its only key, under which there is exactly one row per input record, in
    the order of the input. *)
Theorem process_daily_data_one_row_per_record :
  forall (env : Env) (api_data : list pyval)
         (daily_data : list (string * list row_entry)),
    process_daily_data env api_data = inr daily_data ->
    (api_data = [] -> daily_data = []) /\
    (api_data <> [] ->
     exists rows,
       daily_data = [(YESTERDAY_DATE env, rows)] /\
       Forall2 (fun entry row => row_of_entry env entry = inr row) api_data rows).
Proof.
  intros env api_data daily_data H. unfold process_daily_data in H. split.
  - intros ->. simpl in H. inversion H. reflexivity.
  - intros Hne. destruct api_data as [| entry rest]; [congruence |].
    rewrite process_entries_cons, process_entry_first in H.
    destruct (row_of_entry env entry) as [e | row] eqn:Hrow; cbn in H;
      [discriminate |].
    destruct (process_entries_rows env rest row [] daily_data H) as (more & Hd & Hmore).
    exists (row :: more). split; [exact Hd | constructor; assumption].
Qed.

(** Two records, the second with an unparseable spend. *)
Lemma process_daily_data_one_row_per_record_witness :
  exists rows,
    [(YESTERDAY_DATE Examples.one_page_env,
      [mk_row (PStr "C") (PStr "N")
              (PFloat (S754_finite false 7036874417766400 (-49)))
              "2024-11-02" "2024-11-02";
       mk_row (PStr "Not Available") (PStr "Not Available") (PInt 0)
              "2024-11-02" "2024-11-02"])]
    = [(YESTERDAY_DATE Examples.one_page_env, rows)] /\
    Forall2 (fun entry row => row_of_entry Examples.one_page_env entry = inr row)
            [Examples.ad_A1; PDict [("spend", PStr "N/A")]] rows.
Proof.
  apply (process_daily_data_one_row_per_record Examples.one_page_env
           [Examples.ad_A1; PDict [("spend", PStr "N/A")]]).
  - vm_compute. reflexivity.
  - discriminate.
Defined.

(** ** The spend field *)

Section Spend.

Variable env : Env.

(** The conversion of an integer can only raise [OverflowError]. *)
Lemma float_of_int_raises (n : Z) (e : exn) :
  float_of_int n = inl e -> e = OverflowError "int too large to convert to float".
Proof.
  unfold float_of_int.
  destruct (binary_normalize 53 1024 n 0 false); intros H; inversion H; reflexivity.
Qed.

Lemma float_of_int_zero : float_of_int 0 = inr (S754_zero false).
Proof. reflexivity. Qed.

Lemma float_of_int_one : float_of_int 1 = inr (S754_finite false 4503599627370496 (-52)).
Proof. vm_compute. reflexivity. Qed.

(** The spend of a record that has a raw value under the key (or the
    default). *)
Lemma parse_spend_run (entry raw : pyval) :
  py_get entry "spend" (PInt 0) = inr raw ->
  parse_spend env entry
  = match py_float env raw with
    | inr x => inr (PFloat x)
    | inl (TypeError _) => inr (PInt 0)
    | inl (ValueError _) => inr (PInt 0)
    | inl e => inl e
    end.
Proof. intros H. unfold parse_spend. cbn. rewrite H. reflexivity. Qed.

(** A record without the key gets the default 0, which [float] converts. *)
Lemma parse_spend_missing (d : list (string * pyval)) :
  dict_lookup "spend" d = None ->
  parse_spend env (PDict d) = inr (PFloat (S754_zero false)).
Proof.
  intros H. rewrite (parse_spend_run _ (PInt 0)) by (unfold py_get; rewrite H; reflexivity).
  unfold py_float. rewrite float_of_int_zero. reflexivity.
Qed.

(** On a record, the only exception the spend field can let through is the
    [OverflowError] of an integer too large for a double. *)
Lemma parse_spend_raises (d : list (string * pyval)) (e : exn) :
  parse_spend env (PDict d) = inl e ->
  e = OverflowError "int too large to convert to float" /\
  exists n, dict_lookup "spend" d = Some (PInt n) /\
            float_of_int n = inl (OverflowError "int too large to convert to float").
Proof.
  destruct (dict_lookup "spend" d) as [raw |] eqn:Hraw.
  - rewrite (parse_spend_run _ raw) by (unfold py_get; rewrite Hraw; reflexivity).
    destruct raw as [| b | n | x | s | l | d']; unfold py_float.
    + discriminate.
    + destruct b; [rewrite float_of_int_one | rewrite float_of_int_zero]; discriminate.
    + destruct (float_of_int n) as [e' | x] eqn:Hn; [| discriminate].
      pose proof (float_of_int_raises _ _ Hn) as ->.
      intros H. inversion H; subst. split; [reflexivity |].
      exists n. split; [reflexivity | exact Hn].
    + discriminate.
    + destruct (float_of_str env s); discriminate.
    + discriminate.
    + discriminate.
  - rewrite parse_spend_missing by exact Hraw. discriminate.
Qed.

(** A spend value that [float] converts becomes that number. *)
Lemma parse_spend_number (entry raw : pyval) (x : spec_float) :
  py_get entry "spend" (PInt 0) = inr raw ->
  py_float env raw = inr x ->
  parse_spend env entry = inr (PFloat x).
Proof.
  intros Hget Hfloat. rewrite (parse_spend_run _ _ Hget), Hfloat. reflexivity.
Qed.

(** A spend value on which [float] raises [TypeError] or [ValueError]
    becomes the integer 0. *)
Lemma parse_spend_invalid (entry raw : pyval) :
  py_get entry "spend" (PInt 0) = inr raw ->
  ((exists msg, py_float env raw = inl (TypeError msg)) \/
   exists msg, py_float env raw = inl (ValueError msg)) ->
  parse_spend env entry = inr (PInt 0).
Proof.
  intros Hget [[msg Hfloat] | [msg Hfloat]]; rewrite (parse_spend_run _ _ Hget), Hfloat;
    reflexivity.
Qed.

End Spend.

(** C6 at the failing input: a record whose spend is the JSON integer
    2^1024.  [float] raises [OverflowError], the handler of lines 190 to 192
    names only [TypeError] and [ValueError], and the Processor raises. *)
Theorem spend_overflow_is_not_caught :
  forall env : Env,
    process_daily_data env [Examples.ad_huge_spend]
    = inl (OverflowError "int too large to convert to float").
Proof. intros env. vm_compute. reflexivity. Qed.

(* ===================================================================== *)
(** * The range of the update *)
(* ===================================================================== *)

(** What [write_to_sheets] does when there are rows and the read of column
    A reports [k] rows: one read, then one update whose range starts at row
    [k + 1] and ends at row [k + 1 + n] for [n] rows of values.  A1 ranges
    include their last row, so the range spans [n + 1] rows. *)
Lemma write_to_sheets_calls (env : Env) (sheets : sheets_resource)
    (data : list (string * list row_entry)) (st : state env)
    (answer values : pyval) (w1 : World env) (k : Z) :
  build_rows data <> [] ->
  values_get env (SPREADSHEET_ID env) (A1 "Sheet1" "A" None "A" None) (world st)
  = (inr answer, w1) ->
  py_get answer "values" (PList []) = inr values ->
  py_len values = inr k ->
  let rows := build_rows data in
  let n := Z.of_nat (List.length rows) in
  let range := A1 "Sheet1" "A" (Some (k + 1)) "F" (Some (k + 1 + n)) in
  let body := PDict [("values", PList (map PList rows))] in
  let log := EvValuesGet (SPREADSHEET_ID env) (A1 "Sheet1" "A" None "A" None)
                         (inr answer) :: calls st in
  rows_spanned range = Some (n + 1) /\
  write_to_sheets env sheets data st
  = (match fst (values_update env (SPREADSHEET_ID env) range "RAW" body w1) with
     | inl e => Raise e
     | inr _ => Return tt
     end,
     mk_state (snd (values_update env (SPREADSHEET_ID env) range "RAW" body w1))
              (EvValuesUpdate (SPREADSHEET_ID env) range "RAW" body
                 (fst (values_update env (SPREADSHEET_ID env) range "RAW" body w1))
               :: log)).
Proof.
  intros Hrows Hget Hvalues Hlen rows n range body log. split.
  - unfold rows_spanned, range. simpl. f_equal. lia.
  - unfold write_to_sheets. subst log body range n rows.
    destruct (build_rows data) as [| first more] eqn:Erows; [congruence |].
    unfold get_next_empty_row, sheets_values_get, sheets_values_update. cbn.
    rewrite Hget. cbn. unfold lift. rewrite Hvalues. cbn. rewrite Hlen. cbn.
    destruct (values_update env (SPREADSHEET_ID env) _ "RAW" _ w1) as [[e | r] w2];
      reflexivity.
Qed.

(** C4 at the failing input: one row written to a blank sheet.  The single
    update is sent with the range [Sheet1!A1:F2], which spans 2 rows for 1
    row of values. *)
Theorem update_range_spans_one_row_too_many :
  let st' := snd (write_to_sheets Examples.one_page_env Spreadsheets Examples.one_row
                    (Examples.one_page_start SheetModel.blank)) in
  List.length (build_rows Examples.one_row) = 1%nat /\
  update_ranges (calls st') = [A1 "Sheet1" "A" (Some 1) "F" (Some 2)] /\
  map a1_notation (update_ranges (calls st')) = ["Sheet1!A1:F2"] /\
  map rows_spanned (update_ranges (calls st')) = [Some 2].
Proof. repeat split; vm_compute; reflexivity. Qed.

(* ===================================================================== *)
(** * Where the rows land *)
(* ===================================================================== *)

Section SheetFacts.

Import SheetModel.

(** What [trim_trailing] keeps is a prefix, what it drops is all empty,
    and what it keeps does not end with an empty element. *)
Lemma trim_trailing_split (A : Type) (empty : A -> bool) (l : list A) :
  exists rest,
    l = (trim_trailing empty l ++ rest)%list /\
    forallb empty rest = true /\
    (trim_trailing empty l = [] \/
     exists init x, trim_trailing empty l = (init ++ [x])%list /\ empty x = false).
Proof.
  induction l as [| x l IH].
  - exists []. repeat split. left. reflexivity.
  - destruct IH as (rest & Hl & Hrest & Hlast). simpl.
    destruct (trim_trailing empty l) as [| y kept] eqn:Et.
    + simpl in Hl. subst rest. destruct (empty x) eqn:Ex.
      * exists (x :: l). simpl. rewrite Ex, Hrest.
        repeat split. left. reflexivity.
      * exists l. repeat split; [exact Hrest |].
        right. exists [], x. split; [reflexivity | exact Ex].
    + exists rest. rewrite Hl at 1. repeat split; [exact Hrest |].
      right. destruct Hlast as [Hnil | (init & z & Hinit & Hz)]; [discriminate |].
      exists (x :: init), z. rewrite Hinit. split; [reflexivity | exact Hz].
Qed.

Lemma nth_error_Zseq (first : Z) (count i : nat) :
  (i < count)%nat -> nth_error (Zseq first count) i = Some (first + Z.of_nat i).
Proof.
  intros H. unfold Zseq.
  rewrite nth_error_map, nth_error_seq.
  destruct (Nat.ltb_spec i count); [reflexivity | lia].
Qed.

Lemma read_row_column_A (s : sheet) (r : Z) :
  is_nil (read_row s 1 1 r) = is_empty_cell (cell_at s r 1).
Proof.
  unfold read_row. simpl.
  destruct (cell_at s r 1); reflexivity.
Qed.

Lemma is_empty_cell_none (x : cell) : is_empty_cell x = true -> x = None.
Proof. destruct x; [discriminate | reflexivity]. Qed.

(** The number of rows a read of column A reports is the number of the
    last row whose cell in column A is filled: every cell of the column
    below it is empty, and the cell in that row is not. *)
Lemma rows_reported_spec (s : sheet) :
  let k := rows_reported_for_column_A s in
  0 <= k /\
  (forall r, k < r -> cell_at s r 1 = None) /\
  (0 < k -> cell_at s k 1 <> None).
Proof.
  intros k. subst k. unfold rows_reported_for_column_A, read_rows.
  replace (Z.min (height s) (height s) - 1 + 1) with (height s) by lia.
  set (n := Z.to_nat (height s)).
  set (L := map (read_row s 1 1) (Zseq 1 n)).
  destruct (trim_trailing_split _ is_nil L) as (rest & HL & Hrest & Hlast).
  assert (Hnth : forall i, (i < n)%nat ->
            nth_error L i = Some (read_row s 1 1 (1 + Z.of_nat i))).
  { intros i Hi. unfold L. rewrite nth_error_map, nth_error_Zseq by exact Hi.
    reflexivity. }
  remember (Z.of_nat (List.length (trim_trailing is_nil L))) as k eqn:Hk.
  assert (HlenL : List.length L = n).
  { unfold L, Zseq. rewrite !length_map, length_seq. reflexivity. }
  split; [lia |]. split.
  - intros r Hr.
    destruct (Z_lt_le_dec (height s) r) as [Hout | Hin].
    { unfold cell_at.
      replace (r <=? height s) with false by (symmetry; apply Z.leb_gt; lia).
      rewrite andb_false_r. reflexivity. }
    assert (Hi : (Z.to_nat (r - 1) < n)%nat) by (subst n; lia).
    specialize (Hnth (Z.to_nat (r - 1)) Hi).
    replace (1 + Z.of_nat (Z.to_nat (r - 1))) with r in Hnth by lia.
    rewrite HL in Hnth. rewrite nth_error_app2 in Hnth by lia.
    apply is_empty_cell_none. rewrite <- read_row_column_A.
    rewrite forallb_forall in Hrest. apply Hrest.
    eapply nth_error_In. exact Hnth.
  - intros Hpos. destruct Hlast as [Hnil | (init & x & Hinit & Hx)].
    { rewrite Hnil in Hk. simpl in Hk. lia. }
    assert (Hlen : k = Z.of_nat (List.length init) + 1).
    { rewrite Hk, Hinit, length_app. simpl. lia. }
    assert (Hkn : (List.length init < n)%nat).
    { rewrite HL, Hinit, !length_app in HlenL. simpl in HlenL. lia. }
    specialize (Hnth (List.length init) Hkn).
    rewrite HL, Hinit in Hnth.
    rewrite <- app_assoc in Hnth.
    rewrite nth_error_app2 in Hnth by lia.
    rewrite Nat.sub_diag in Hnth.
    change (nth_error ([x] ++ rest) 0) with (Some x) in Hnth.
    assert (Hxeq : x = read_row s 1 1 (1 + Z.of_nat (List.length init)))
      by congruence.
    rewrite Hxeq, read_row_column_A in Hx.
    replace (1 + Z.of_nat (List.length init)) with k in Hx by lia.
    intros Hnone. rewrite Hnone in Hx. discriminate.
Qed.

(** A filter keeps the length of a list exactly when it keeps every
    element. *)
Lemma filter_keeps_length (A : Type) (f : A -> bool) (l : list A) :
  List.length (filter f l) = List.length l <-> Forall (fun x => f x = true) l.
Proof.
  induction l as [| x l IH]; simpl.
  - split; [constructor | reflexivity].
  - pose proof (filter_length_le f l) as Hle.
    destruct (f x) eqn:Efx; simpl; split.
    + intros H. constructor; [exact Efx | apply IH; lia].
    + intros H. inversion H; subst. f_equal. apply IH. assumption.
    + intros H. lia.
    + intros H. inversion H; subst. congruence.
Qed.

Lemma filter_drops_all (A : Type) (f : A -> bool) (l : list A) :
  (forall x, In x l -> f x = false) -> filter f l = [].
Proof.
  induction l as [| x l IH]; intros H; [reflexivity |]. simpl.
  rewrite (H x (or_introl eq_refl)). apply IH. intros y Hy. apply H. right. exact Hy.
Qed.

Lemma map_seq_from (g : nat -> Z) (b : nat) :
  forall a, map g (seq a b) = map (fun i => g (a + i)%nat) (seq 0 b).
Proof.
  induction b as [| b IH]; intros a; [reflexivity |].
  cbn [seq map]. rewrite Nat.add_0_r. f_equal.
  rewrite (IH (S a)), <- (seq_shift b 0), map_map.
  apply map_ext. intros i. f_equal. lia.
Qed.

Lemma Zseq_app (first : Z) (a b : nat) :
  Zseq first (a + b) = (Zseq first a ++ Zseq (first + Z.of_nat a) b)%list.
Proof.
  unfold Zseq. rewrite seq_app, map_app. f_equal. cbn [Nat.add].
  rewrite map_seq_from. apply map_ext. intros i. lia.
Qed.

Lemma In_Zseq (first : Z) (count : nat) (r : Z) :
  In r (Zseq first count) <-> first <= r < first + Z.of_nat count.
Proof.
  unfold Zseq. rewrite in_map_iff. split.
  - intros (i & <- & Hi). apply in_seq in Hi. lia.
  - intros H. exists (Z.to_nat (r - first)). split; [lia |]. apply in_seq. lia.
Qed.

(** The filled cells of column A are at most as many as the rows a read
    reports, and as many exactly when no cell above the last filled one is
    blank. *)
Lemma filled_and_reported (s : sheet) :
  let k := rows_reported_for_column_A s in
  filled_in_column_A s <= k /\
  (filled_in_column_A s = k <-> forall r, 1 <= r <= k -> cell_at s r 1 <> None).
Proof.
  intros k. destruct (rows_reported_spec s) as (Hk0 & Habove & Hlast).
  fold k in Hk0, Habove, Hlast.
  set (f := fun r => negb (is_empty_cell (cell_at s r 1))).
  assert (Hf : forall r, f r = true <-> cell_at s r 1 <> None).
  { intros r. unfold f. destruct (cell_at s r 1); simpl; split; congruence. }
  assert (Hkh : (Z.to_nat k <= Z.to_nat (height s))%nat).
  { destruct (Z.eq_dec k 0) as [Hz | Hne]; [rewrite Hz; simpl; lia |].
    assert (Hcell : cell_at s k 1 <> None) by (apply Hlast; lia).
    unfold cell_at in Hcell.
    destruct (k <=? height s) eqn:Ekh.
    - apply Z.leb_le in Ekh. lia.
    - rewrite andb_false_r in Hcell. cbn [andb] in Hcell. congruence. }
  assert (Hsplit : filter f (Zseq 1 (Z.to_nat (height s)))
                   = filter f (Zseq 1 (Z.to_nat k))).
  { replace (Z.to_nat (height s))
      with (Z.to_nat k + (Z.to_nat (height s) - Z.to_nat k))%nat by lia.
    rewrite Zseq_app, filter_app, (filter_drops_all _ f (Zseq (1 + _) _)).
    - apply app_nil_r.
    - intros r Hr. apply In_Zseq in Hr.
      destruct (f r) eqn:Efr; [| reflexivity].
      apply Hf in Efr. destruct Efr. apply Habove. lia. }
  assert (Hlen : List.length (Zseq 1 (Z.to_nat k)) = Z.to_nat k).
  { unfold Zseq. rewrite length_map, length_seq. reflexivity. }
  assert (Hfilled : filled_in_column_A s
                    = Z.of_nat (List.length (filter f (Zseq 1 (Z.to_nat k))))).
  { unfold filled_in_column_A. fold f. rewrite Hsplit. reflexivity. }
  pose proof (filter_length_le f (Zseq 1 (Z.to_nat k))) as Hle.
  split; [lia |].
  rewrite Hfilled. split.
  - intros Heq r Hr.
    assert (Hall : Forall (fun x => f x = true) (Zseq 1 (Z.to_nat k))).
    { apply filter_keeps_length. lia. }
    rewrite Forall_forall in Hall. apply Hf. apply Hall. apply In_Zseq. lia.
  - intros Hall.
    assert (Hkeep : List.length (filter f (Zseq 1 (Z.to_nat k)))
                    = List.length (Zseq 1 (Z.to_nat k))).
    { apply filter_keeps_length. apply Forall_forall. intros r Hr.
      apply In_Zseq in Hr. apply Hf. apply Hall. lia. }
    lia.
Qed.

Lemma all_some_rows (rows rows' : list (list pyval)) :
  all_some (map row_values (map PList rows)) = Some rows' -> rows' = rows.
Proof.
  revert rows'. induction rows as [| row rows IH]; intros rows' H; simpl in H.
  - inversion H. reflexivity.
  - destruct (forallb storable row); [| discriminate].
    destruct (all_some (map row_values (map PList rows))) as [kept |] eqn:E;
      simpl in H; inversion H.
    f_equal. apply IH. reflexivity.
Qed.

(** A cell under the block receives its input value. *)
Lemma write_block_inside (s : sheet) (r1 c1 : Z) (rows : list (list pyval))
    (i j : nat) (row : list pyval) (v : pyval) :
  1 <= r1 -> 1 <= c1 ->
  nth_error rows i = Some row ->
  nth_error row j = Some v ->
  cell_at (write_block s r1 c1 rows) (r1 + Z.of_nat i) (c1 + Z.of_nat j)
  = stored v (cell_at s (r1 + Z.of_nat i) (c1 + Z.of_nat j)).
Proof.
  intros Hr Hc Hrow Hv.
  assert (Hi : (i < List.length rows)%nat) by (apply nth_error_Some; congruence).
  unfold cell_at at 1. unfold write_block. cbn [height cells].
  replace (1 <=? r1 + Z.of_nat i) with true by (symmetry; apply Z.leb_le; lia).
  replace (r1 + Z.of_nat i <=? Z.max (height s) (r1 + Z.of_nat (List.length rows) - 1))
    with true by (symmetry; apply Z.leb_le; lia).
  replace (1 <=? c1 + Z.of_nat j) with true by (symmetry; apply Z.leb_le; lia).
  replace (r1 <=? r1 + Z.of_nat i) with true by (symmetry; apply Z.leb_le; lia).
  replace (c1 <=? c1 + Z.of_nat j) with true by (symmetry; apply Z.leb_le; lia).
  cbn [andb].
  replace (Z.to_nat (r1 + Z.of_nat i - r1)) with i by lia.
  replace (Z.to_nat (c1 + Z.of_nat j - c1)) with j by lia.
  rewrite Hrow, Hv. reflexivity.
Qed.

Lemma cell_at_beyond_height (s : sheet) (r c : Z) :
  height s < r -> cell_at s r c = None.
Proof.
  intros H. unfold cell_at.
  replace (r <=? height s) with false by (symmetry; apply Z.leb_gt; lia).
  rewrite andb_false_r. reflexivity.
Qed.

Lemma cell_at_before_first (s : sheet) (r c : Z) :
  r < 1 \/ c < 1 -> cell_at s r c = None.
Proof.
  intros [H | H]; unfold cell_at.
  - replace (1 <=? r) with false by (symmetry; apply Z.leb_gt; lia). reflexivity.
  - replace (1 <=? c) with false by (symmetry; apply Z.leb_gt; lia).
    rewrite andb_false_r. reflexivity.
Qed.

(** A cell outside the block is not touched. *)
Lemma write_block_outside (s : sheet) (r1 c1 : Z) (rows : list (list pyval))
    (width : nat) (r c : Z) :
  Forall (fun row => List.length row = width) rows ->
  ~ (r1 <= r < r1 + Z.of_nat (List.length rows) /\
     c1 <= c < c1 + Z.of_nat width) ->
  cell_at (write_block s r1 c1 rows) r c = cell_at s r c.
Proof.
  intros Hwidth Hout.
  destruct (Z_lt_le_dec r 1) as [Hr | Hr].
  { rewrite !cell_at_before_first by (left; exact Hr). reflexivity. }
  destruct (Z_lt_le_dec c 1) as [Hc | Hc].
  { rewrite !cell_at_before_first by (right; exact Hc). reflexivity. }
  destruct (Z_lt_le_dec (Z.max (height s) (r1 + Z.of_nat (List.length rows) - 1)) r)
    as [Hhigh | Hlow].
  { rewrite (cell_at_beyond_height (write_block s r1 c1 rows)) by exact Hhigh.
    rewrite cell_at_beyond_height by lia. reflexivity. }
  unfold cell_at at 1. unfold write_block. cbn [height cells].
  replace (1 <=? r) with true by (symmetry; apply Z.leb_le; lia).
  replace (r <=? Z.max (height s) (r1 + Z.of_nat (List.length rows) - 1))
    with true by (symmetry; apply Z.leb_le; lia).
  replace (1 <=? c) with true by (symmetry; apply Z.leb_le; lia).
  cbn [andb].
  destruct (r1 <=? r) eqn:Er; [| reflexivity].
  destruct (c1 <=? c) eqn:Ec; [| reflexivity].
  cbn [andb]. apply Z.leb_le in Er, Ec.
  destruct (nth_error rows (Z.to_nat (r - r1))) as [row |] eqn:Hrow; [| reflexivity].
  destruct (nth_error row (Z.to_nat (c - c1))) as [v |] eqn:Hv; [| reflexivity].
  exfalso. apply Hout.
  assert (Hi : (Z.to_nat (r - r1) < List.length rows)%nat)
    by (apply nth_error_Some; congruence).
  assert (Hj : (Z.to_nat (c - c1) < List.length row)%nat)
    by (apply nth_error_Some; congruence).
  rewrite Forall_forall in Hwidth.
  rewrite (Hwidth row (nth_error_In _ _ Hrow)) in Hj. lia.
Qed.

(** Every row has the six values of columns A to F. *)
Lemma build_rows_width (data : list (string * list row_entry)) :
  Forall (fun row => List.length row = 6%nat) (build_rows data).
Proof.
  unfold build_rows. apply Forall_forall. intros row Hin.
  apply in_flat_map in Hin. destruct Hin as ([date entries] & _ & Hin).
  apply in_map_iff in Hin. destruct Hin as (entry & <- & _). reflexivity.
Qed.

End SheetFacts.


Section ScriptedSheet.

Import SheetModel.

(** A read of column A never fails, and what it reports under [values] has
    as many rows as [rows_reported_for_column_A] says. *)
Lemma get_column_A (s : sheet) :
  exists answer values,
    get s column_A = inr answer /\
    py_get answer "values" (PList []) = inr values /\
    py_len values = inr (rows_reported_for_column_A s).
Proof.
  unfold get, column_A, rows_reported_for_column_A.
  cbn [first_col last_col first_row last_row tab].
  change (col_index "A") with (Some 1).
  change ("Sheet1" =? "Sheet1")%string with true. cbv iota.
  destruct (read_rows s 1 1 1 (height s)) as [| row rows].
  - eexists. exists (PList []). repeat split.
  - eexists. exists (PList (map PList (row :: rows))). repeat split.
    unfold py_len. rewrite length_map. reflexivity.
Qed.

(** An update that is accepted lays out the values of the body from the
    first row of the range, in column A when the range starts there. *)
Lemma update_accepted (s s' : sheet) (k : Z) (last : option Z)
    (rows : list (list pyval)) (answer : pyval) :
  update s (A1 "Sheet1" "A" (Some k) "F" last)
         (PDict [("values", PList (map PList rows))]) = (inr answer, s') ->
  s' = write_block s k 1 rows /\ 1 <= k.
Proof.
  unfold update. cbn [first_col last_col first_row last_row tab].
  change (col_index "A") with (Some 1). change (col_index "F") with (Some 6).
  unfold body_values.
  change (dict_lookup "values" [("values", PList (map PList rows))])
    with (Some (PList (map PList rows))).
  cbv iota. 
  destruct (all_some (map row_values (map PList rows))) as [rows' |] eqn:E;
    [| discriminate].
  apply all_some_rows in E. subst rows'.
  destruct (1 <=? k) eqn:Ek.
  - destruct (_ && _); intros H; inversion H. split; [reflexivity |].
    apply Z.leb_le. exact Ek.
  - rewrite andb_false_r. cbn [andb]. discriminate.
Qed.

End ScriptedSheet.

(** C5, as amended.  Let [k] be the number of rows the read of column A
    reports for the sheet: the row of the last filled cell of the column
    (no cell of the column below row [k] is filled, and the one in row [k]
    is when [k > 0]).  The filled cells of column A are at most [k], and
    exactly [k] if and only if no cell of the column in rows 1 to [k] is
    blank.  A write of [n > 0] rows that the service accepts starts its
    range at row [k + 1]; the value of row [i] and column [j] of the input
    lands in row [k + 1 + i], column [1 + j]: any value other than a null
    and an empty string is stored as it is, an empty string leaves the cell
    empty, a null leaves the cell with what it held.  Every cell outside
    the rows [k + 1] to [k + n] of columns A to F is as it was. *)
Theorem rows_written_after_last_reported_row :
  forall (sc : Scripted.script) (sheets : sheets_resource)
         (data : list (string * list row_entry))
         (st st' : state (Scripted.env_of sc)),
    build_rows data <> [] ->
    write_to_sheets (Scripted.env_of sc) sheets data st = (Return tt, st') ->
    let rows := build_rows data in
    let before := Scripted.sheet_of (world st) in
    let after := Scripted.sheet_of (world st') in
    let k := SheetModel.rows_reported_for_column_A before in
    (0 <= k /\
     (forall r, k < r -> SheetModel.cell_at before r 1 = None) /\
     (0 < k -> SheetModel.cell_at before k 1 <> None)) /\
    (SheetModel.filled_in_column_A before <= k /\
     (SheetModel.filled_in_column_A before = k <->
      forall r, 1 <= r <= k -> SheetModel.cell_at before r 1 <> None)) /\
    (exists range,
        update_ranges (calls st') = range :: update_ranges (calls st) /\
        first_row range = Some (k + 1)) /\
    (forall i j row v,
        nth_error rows i = Some row ->
        nth_error row j = Some v ->
        SheetModel.cell_at after (k + 1 + Z.of_nat i) (1 + Z.of_nat j)
        = match v with
          | PNone => SheetModel.cell_at before (k + 1 + Z.of_nat i) (1 + Z.of_nat j)
          | PStr EmptyString => None
          | _ => Some v
          end) /\
    (forall r c,
        ~ (k + 1 <= r <= k + Z.of_nat (List.length rows) /\ 1 <= c <= 6) ->
        SheetModel.cell_at after r c = SheetModel.cell_at before r c).
Proof.
  intros sc sheets data st st' Hrows Hrun rows before after k.
  destruct (get_column_A before) as (answer & values & Hget & Hvalues & Hlen).
  destruct (write_to_sheets_calls (Scripted.env_of sc) sheets data st
              answer values (world st) k Hrows) as [_ Hcalls].
  { cbn. fold before. unfold column_A in Hget. rewrite Hget. reflexivity. }
  { exact Hvalues. }
  { exact Hlen. }
  rewrite Hrun in Hcalls. fold rows in Hcalls.
  cbn [values_update Scripted.env_of] in Hcalls.
  fold before in Hcalls.
  destruct (SheetModel.update before _ _) as [[e | r] s'] eqn:Hupd;
    cbn [fst snd] in Hcalls; [discriminate |].
  destruct (update_accepted _ _ _ _ _ _ Hupd) as [Hs' Hk].
  assert (Hafter : after = SheetModel.write_block before (k + 1) 1 rows).
  { unfold after. injection Hcalls as ->. cbn. exact Hs'. }
  split; [exact (rows_reported_spec before) |].
  split; [exact (filled_and_reported before) |].
  split; [| split].
  - eexists. split.
    + injection Hcalls as ->. cbn. reflexivity.
    + reflexivity.
  - intros i j row v Hrow Hv. rewrite Hafter.
    rewrite (write_block_inside _ _ _ _ _ _ row v) by (lia || assumption).
    reflexivity.
  - intros r0 c0 Hout. rewrite Hafter.
    apply (write_block_outside _ _ _ _ 6%nat); [apply build_rows_width |].
    fold rows. lia.
Qed.

(* ===================================================================== *)
(** * The calls a fetch makes *)
(* ===================================================================== *)

Section Logs.

Variable env : Env.

(** The log only grows, and [emits] follows the structure of a
    computation. *)
Lemma extends_log_refl (P : event -> Prop) (st : state env) : extends_log P st st.
Proof. exists []. split; [reflexivity | constructor]. Qed.

Lemma extends_log_trans (P : event -> Prop) (st1 st2 st3 : state env) :
  extends_log P st1 st2 -> extends_log P st2 st3 -> extends_log P st1 st3.
Proof.
  intros (n1 & H1 & F1) (n2 & H2 & F2). exists (n2 ++ n1)%list. split.
  - rewrite H2, H1, app_assoc. reflexivity.
  - apply Forall_app. split; assumption.
Qed.

Lemma extends_log_weaken (P Q : event -> Prop) (st st' : state env) :
  (forall ev, P ev -> Q ev) -> extends_log P st st' -> extends_log Q st st'.
Proof.
  intros HPQ (new & H & F). exists new. split; [exact H |].
  eapply Forall_impl; [exact HPQ | exact F].
Qed.

Lemma emits_ret (A : Type) (P : event -> Prop) (a : A) : emits P (ret a : M env A).
Proof. intros st o st' H. inversion H; subst. apply extends_log_refl. Qed.

Lemma emits_lift (A : Type) (P : event -> Prop) (r : result A) : emits P (lift env r).
Proof. intros st o st' H. inversion H; subst. apply extends_log_refl. Qed.

Lemma emits_raise (A : Type) (P : event -> Prop) (e : exn) :
  emits P (raise env e : M env A).
Proof. intros st o st' H. inversion H; subst. apply extends_log_refl. Qed.

Lemma emits_bind (A B : Type) (P : event -> Prop) (c : M env A) (k : A -> M env B) :
  emits P c -> (forall a, emits P (k a)) -> emits P (bind c k).
Proof.
  intros Hc Hk st o st' H.
  destruct (bind_inv env _ _ _ _ _ _ _ H)
    as [(a & st1 & H1 & H2) | [(e & H1 & _) | (H1 & _)]].
  - eapply extends_log_trans; [exact (Hc _ _ _ H1) | exact (Hk _ _ _ _ H2)].
  - exact (Hc _ _ _ H1).
  - exact (Hc _ _ _ H1).
Qed.

Lemma emits_requests_get (P : event -> Prop) (site : call_site) (url : string)
    (params : pyval) :
  (forall r, P (EvGet site url params r)) ->
  emits P (requests_get env site url params).
Proof.
  intros HP st o st' H. unfold requests_get in H.
  destruct (http_get env url params (world st)) as [r w]. inversion H; subst.
  exists [EvGet site url params r]. split; [reflexivity |].
  constructor; [apply HP | constructor].
Qed.

Lemma emits_retry_loop (A : Type) (P : event -> Prop) (fn : M env A) :
  emits P fn ->
  forall left attempt st o k st',
    retry_loop env left attempt fn st = ((o, k), st') -> extends_log P st st'.
Proof.
  intros Hfn. induction left as [| left IH]; intros attempt st o k st' H; simpl in H.
  - destruct (fn st) as [[a | e |] s] eqn:E; inversion H; subst; exact (Hfn _ _ _ E).
  - destruct (fn st) as [[a | e |] s] eqn:E.
    + inversion H; subst. exact (Hfn _ _ _ E).
    + eapply extends_log_trans; [exact (Hfn _ _ _ E) | exact (IH _ _ _ _ _ H)].
    + inversion H; subst. exact (Hfn _ _ _ E).
Qed.

Lemma emits_retry (A : Type) (P : event -> Prop) (n : nat) (fn : M env A) :
  emits P fn -> emits P (retry env n fn).
Proof.
  intros Hfn st o st' H. unfold retry in H.
  destruct (retry_statistics env n fn st) as [[o' k] s] eqn:E. simpl in H.
  inversion H; subst. exact (emits_retry_loop _ _ _ Hfn _ _ _ _ _ _ E).
Qed.

(** A creation-time lookup makes lookup requests only. *)
Lemma emits_lookup_body (ad_id access_token : pyval) :
  emits is_lookup_request (fetch_ad_creation_time_body env ad_id access_token).
Proof.
  unfold fetch_ad_creation_time_body.
  apply emits_bind; [apply emits_requests_get; intros r; exact I |]. intros data.
  apply emits_bind; [apply emits_lift |]. intros [|].
  - apply emits_bind; [apply emits_lift |]. intros _. apply emits_ret.
  - apply emits_bind; [apply emits_lift |]. intros created_str.
    destruct (negb (py_truthy created_str)); [apply emits_ret |].
    apply emits_bind; [apply emits_lift |]. intros dt. apply emits_ret.
Qed.

Lemma emits_lookup (ad_id access_token : pyval) :
  emits is_lookup_request (fetch_ad_creation_time env ad_id access_token).
Proof. apply emits_retry, emits_lookup_body. Qed.

Lemma emits_keep_ad (access_token : pyval) (all_data : list pyval) (ad : pyval) :
  emits is_lookup_request (keep_ad env access_token all_data ad).
Proof.
  unfold keep_ad.
  apply emits_bind; [apply emits_lift |]. intros ad_id.
  destruct (py_truthy ad_id); [| apply emits_ret].
  apply emits_bind; [apply emits_lookup |]. intros [dt |]; [| apply emits_ret].
  destruct (datetime_ge dt CUTOFF_DATE); apply emits_ret.
Qed.

(** The loop over the items of a page makes lookup requests only. *)
Lemma emits_for_each_ad (access_token : pyval) (page_data : list pyval) :
  forall all_data,
    emits is_lookup_request (for_each_ad env access_token all_data page_data).
Proof.
  induction page_data as [| ad rest IH]; intros all_data; simpl.
  - apply emits_ret.
  - apply emits_bind; [apply emits_keep_ad |]. intros all_data'. apply IH.
Qed.

(** The loop of [fetch_api_data], unfolded once. *)
Lemma fetch_pages_step (fuel : nat) (access_token next_page params : pyval)
    (all_data : list pyval) :
  py_truthy next_page = true ->
  fetch_pages env (S fuel) access_token next_page params all_data
  = (data <- requests_get env AdsListing (py_str env next_page) params ;;
     has_error <- lift env (py_contains "error" data) ;;
     if (has_error : bool) then
       err <- lift env (py_subscript data "error") ;;
       raise env (FacebookAdsError ("Facebook API error: " ++ py_str env err))
     else
       page_data <- lift env (py_get data "data" (PList [])) ;;
       _ <- lift env (py_len page_data) ;;
       items <- lift env (py_iter page_data) ;;
       all_data' <- for_each_ad env access_token all_data items ;;
       paging <- lift env (py_get data "paging" (PDict [])) ;;
       next_page' <- lift env (py_get paging "next" PNone) ;;
       fetch_pages env fuel access_token next_page'
                   (if py_truthy next_page' then PDict [] else params)
                   all_data').
Proof. intros H. simpl. rewrite H. reflexivity. Qed.

Lemma fetch_pages_done (fuel : nat) (access_token next_page params : pyval)
    (all_data : list pyval) (st : state env) :
  py_truthy next_page = false ->
  fetch_pages env fuel access_token next_page params all_data st
  = (Return all_data, st).
Proof. intros H. destruct fuel; simpl; rewrite H; reflexivity. Qed.

Lemma emits_fetch_pages (fuel : nat) (access_token : pyval) :
  forall next_page params all_data,
    emits any_call (fetch_pages env fuel access_token next_page params all_data).
Proof.
  induction fuel as [| fuel IH]; intros next_page params all_data.
  - simpl. destruct (py_truthy next_page).
    + intros st o st' H. inversion H; subst. apply extends_log_refl.
    + apply emits_ret.
  - destruct (py_truthy next_page) eqn:Hnext.
    + rewrite fetch_pages_step by exact Hnext.
      apply emits_bind; [apply emits_requests_get; intros r; exact I |]. intros data.
      apply emits_bind; [apply emits_lift |]. intros [|].
      * apply emits_bind; [apply emits_lift |]. intros err. apply emits_raise.
      * apply emits_bind; [apply emits_lift |]. intros page_data.
        apply emits_bind; [apply emits_lift |]. intros _.
        apply emits_bind; [apply emits_lift |]. intros items.
        apply emits_bind.
        { intros st o st' H. eapply extends_log_weaken;
            [| exact (emits_for_each_ad _ _ _ _ _ _ H)]. intros ev _. exact I. }
        intros all_data'.
        apply emits_bind; [apply emits_lift |]. intros paging.
        apply emits_bind; [apply emits_lift |]. intros next_page'.
        apply IH.
    + intros st o st' H. rewrite fetch_pages_done in H by exact Hnext.
      inversion H; subst. apply extends_log_refl.
Qed.

Lemma emits_fetch_api_data_body (fuel : nat) (config : pyval) :
  emits any_call (fetch_api_data_body env fuel config).
Proof.
  unfold fetch_api_data_body.
  apply emits_bind; [apply emits_lift |]. intros access_token.
  apply emits_bind; [apply emits_lift |]. intros ad_account_id.
  apply emits_fetch_pages.
Qed.

Lemma lift_inv (A : Type) (r : result A) (st st' : state env) (o : outcome A) :
  lift env r st = (o, st') -> st' = st /\ o = outcome_of r.
Proof. intros H. inversion H. split; reflexivity. Qed.

Lemma requests_get_run (site : call_site) (url : string) (params : pyval)
    (st : state env) :
  requests_get env site url params st
  = (outcome_of (fst (http_get env url params (world st))),
     mk_state (snd (http_get env url params (world st)))
              (EvGet site url params (fst (http_get env url params (world st)))
               :: calls st)).
Proof.
  unfold requests_get. destruct (http_get env url params (world st)); reflexivity.
Qed.

Lemma contains_error_key (d : list (string * pyval)) (err : pyval) :
  dict_lookup "error" d = Some err -> py_contains "error" (PDict d) = inr true.
Proof. intros H. unfold py_contains. rewrite H. reflexivity. Qed.

Lemma contains_no_error_key (d : list (string * pyval)) :
  py_contains "error" (PDict d) = inr false -> dict_lookup "error" d = None.
Proof.
  unfold py_contains. destruct (dict_lookup "error" d); [discriminate | reflexivity].
Qed.

(** One iteration of the loop of [fetch_api_data]: either the pass ends
    in it, having made lookups only after the page request, or the page
    carried no error envelope, its items were processed and the loop goes
    on with the next page. *)
Lemma fetch_pages_iteration (fuel : nat) (access_token next_page params : pyval)
    (all_data : list pyval) (st st' : state env) (o : outcome (list pyval)) :
  py_truthy next_page = true ->
  fetch_pages env (S fuel) access_token next_page params all_data st = (o, st') ->
  let url := py_str env next_page in
  let r := fst (http_get env url params (world st)) in
  let st1 := mk_state (snd (http_get env url params (world st)))
                      (EvGet AdsListing url params r :: calls st) in
  (extends_log is_lookup_request st1 st' /\
   (forall d err, r = inr (PDict d) -> dict_lookup "error" d = Some err ->
      o = Raise (FacebookAdsError ("Facebook API error: " ++ py_str env err))))
  \/
  (exists data items all_data' next_page' st2,
      r = inr data /\
      py_contains "error" data = inr false /\
      for_each_ad env access_token all_data items st1 = (Return all_data', st2) /\
      fetch_pages env fuel access_token next_page'
        (if py_truthy next_page' then PDict [] else params) all_data' st2 = (o, st')).
Proof.
  intros Hnext H url r st1.
  rewrite fetch_pages_step in H by exact Hnext.
  apply bind_inv in H. fold url in H. rewrite requests_get_run in H.
  fold r in H. fold st1 in H.
  destruct r as [e | data] eqn:Er; cbn [outcome_of] in H.
  { left. destruct H as [(a & s & H1 & _) | [(e' & H1 & ->) | (H1 & _)]];
      inversion H1; subst.
    split; [apply extends_log_refl | intros d err Hd; discriminate]. }
  destruct H as [(a & s & H1 & H) | [(e' & H1 & _) | (H1 & _)]];
    [| discriminate | discriminate].
  inversion H1; subst a s. clear H1.
  apply bind_inv in H.
  destruct H as [(has_error & s & H1 & H) | [(e' & H1 & ->) | (H1 & _)]].
  - apply lift_inv in H1. destruct H1 as [-> H1].
    destruct (py_contains "error" data) as [e0 | b] eqn:Hc; [discriminate |].
    inversion H1; subst has_error. destruct b.
    + left. apply bind_inv in H.
      destruct H as [(err & s & H1' & H) | [(e' & H1' & ->) | (H1' & _)]].
      * apply lift_inv in H1'. destruct H1' as [-> H1'].
        inversion H; subst. split; [apply extends_log_refl |].
        intros d err' Hd Herr. inversion Hd; subst data.
        unfold py_subscript in H1'. rewrite Herr in H1'.
        inversion H1'; subst. reflexivity.
      * apply lift_inv in H1'. destruct H1' as [-> H1'].
        split; [apply extends_log_refl |].
        intros d err' Hd Herr. inversion Hd; subst data.
        unfold py_subscript in H1'. rewrite Herr in H1'. discriminate.
      * apply lift_inv in H1'. destruct H1' as [_ H1'].
        destruct (py_subscript data "error"); discriminate.
    + assert (Hnoerr : forall d err, data = PDict d ->
                dict_lookup "error" d = Some err -> False).
      { intros d err Hd Herr. subst data.
        rewrite (contains_error_key _ _ Herr) in Hc. discriminate. }
      apply bind_inv in H.
      destruct H as [(page_data & s & H1' & H) | [(e' & H1' & ->) | (H1' & _)]];
        apply lift_inv in H1'; destruct H1' as [-> H1'];
        [| left; split; [apply extends_log_refl |
                         intros d err Hd Herr; inversion Hd as [Hd'];
                         destruct (Hnoerr d err Hd' Herr)]
         | destruct (py_get data "data" (PList [])); discriminate].
      apply bind_inv in H.
      destruct H as [(size & s & H2 & H) | [(e' & H2 & ->) | (H2 & _)]];
        apply lift_inv in H2; destruct H2 as [-> H2];
        [| left; split; [apply extends_log_refl |
                         intros d err Hd Herr; inversion Hd as [Hd'];
                         destruct (Hnoerr d err Hd' Herr)]
         | destruct (py_len page_data); discriminate].
      clear H2 size.
      apply bind_inv in H.
      destruct H as [(items & s & H2 & H) | [(e' & H2 & ->) | (H2 & _)]];
        apply lift_inv in H2; destruct H2 as [-> H2];
        [| left; split; [apply extends_log_refl |
                         intros d err Hd Herr; inversion Hd as [Hd'];
                         destruct (Hnoerr d err Hd' Herr)]
         | destruct (py_iter page_data); discriminate].
      apply bind_inv in H.
      destruct H as [(all_data' & st2 & H3 & H) | [(e' & H3 & ->) | (H3 & ->)]];
        [| left; split; [exact (emits_for_each_ad _ _ _ _ _ _ H3) |
                         intros d err Hd Herr; inversion Hd as [Hd'];
                         destruct (Hnoerr d err Hd' Herr)]
         | left; split; [exact (emits_for_each_ad _ _ _ _ _ _ H3) |
                         intros d err Hd Herr; inversion Hd as [Hd'];
                         destruct (Hnoerr d err Hd' Herr)]].
      pose proof (emits_for_each_ad _ _ _ _ _ _ H3) as Hlog.
      apply bind_inv in H.
      destruct H as [(paging & s & H4 & H) | [(e' & H4 & ->) | (H4 & _)]];
        apply lift_inv in H4; destruct H4 as [-> H4];
        [| left; split; [exact Hlog |
                         intros d err Hd Herr; inversion Hd as [Hd'];
                         destruct (Hnoerr d err Hd' Herr)]
         | destruct (py_get data "paging" (PDict [])); discriminate].
      apply bind_inv in H.
      destruct H as [(next_page' & s & H5 & H) | [(e' & H5 & ->) | (H5 & _)]];
        apply lift_inv in H5; destruct H5 as [-> H5];
        [| left; split; [exact Hlog |
                         intros d err Hd Herr; inversion Hd as [Hd'];
                         destruct (Hnoerr d err Hd' Herr)]
         | destruct (py_get paging "next" PNone); discriminate].
      right. exists data, items, all_data', next_page', st2.
      split; [reflexivity |]. split; [exact Hc |]. split; [exact H3 | exact H].
  - apply lift_inv in H1. destruct H1 as [-> H1]. left.
    split; [apply extends_log_refl |].
    intros d err Hd Herr. inversion Hd; subst data.
    rewrite (contains_error_key _ _ Herr) in H1. discriminate.
  - apply lift_inv in H1. destruct H1 as [_ H1].
    destruct (py_contains "error" data); discriminate.
Qed.

Lemma app_self_nil (A : Type) (new l : list A) : l = (new ++ l)%list -> new = [].
Proof.
  intros H. apply (app_inv_tail l). simpl. symmetry. exact H.
Qed.

Lemma no_envelope_in_lookups (new : list event) (err : pyval) :
  Forall is_lookup_request new -> ~ error_envelope_received new err.
Proof.
  intros Hnew (url & params & d & Hin & _).
  rewrite Forall_forall in Hnew. exact (Hnew _ Hin).
Qed.

(** A loop that received an error envelope raised the API error built
    from it. *)
Lemma fetch_pages_error_envelope (fuel : nat) (access_token : pyval) :
  forall next_page params all_data (st st' : state env) o new err,
    fetch_pages env fuel access_token next_page params all_data st = (o, st') ->
    calls st' = (new ++ calls st)%list ->
    error_envelope_received new err ->
    o = Raise (FacebookAdsError ("Facebook API error: " ++ py_str env err)).
Proof.
  assert (Hstay : forall (st : state env) new err,
             calls st = (new ++ calls st)%list ->
             error_envelope_received new err -> False).
  { intros st new err Hnew (url & params & d & Hin & _).
    apply app_self_nil in Hnew. subst new. destruct Hin. }
  induction fuel as [| fuel IH];
    intros next_page params all_data st st' o new err Hrun Hnew Henv.
  - simpl in Hrun. destruct (py_truthy next_page); inversion Hrun; subst;
      destruct (Hstay _ _ _ Hnew Henv).
  - destruct (py_truthy next_page) eqn:Hnext.
    2:{ rewrite fetch_pages_done in Hrun by exact Hnext. inversion Hrun; subst.
        destruct (Hstay _ _ _ Hnew Henv). }
    destruct (fetch_pages_iteration _ _ _ _ _ _ _ _ Hnext Hrun)
      as [[(n1 & Hn1 & Flook) Herr]
         | (data & items & all_data' & next_page' & st2 & Hr & Hc & Hfor & Hrec)].
    + cbn [calls] in Hn1. rewrite Hn1 in Hnew.
      assert (Hsplit : new = (n1 ++ [EvGet AdsListing (py_str env next_page) params
                 (fst (http_get env (py_str env next_page) params (world st)))])%list).
      { apply (app_inv_tail (calls st)). rewrite <- app_assoc. symmetry. exact Hnew. }
      destruct Henv as (url & p & d & Hin & Hd). subst new.
      apply in_app_or in Hin. destruct Hin as [Hin | [Hin | []]].
      * rewrite Forall_forall in Flook. destruct (Flook _ Hin).
      * injection Hin as Hu Hp Hresp.
        exact (Herr d err Hresp Hd).
    + destruct (emits_for_each_ad _ _ _ _ _ _ Hfor) as (n1 & Hn1 & Flook).
      destruct (emits_fetch_pages _ _ _ _ _ _ _ _ Hrec) as (n2 & Hn2 & _).
      cbn [calls] in Hn1. rewrite Hn2, Hn1 in Hnew.
      assert (Hsplit : new = (n2 ++ n1 ++ [EvGet AdsListing (py_str env next_page) params
                 (fst (http_get env (py_str env next_page) params (world st)))])%list).
      { apply (app_inv_tail (calls st)). rewrite <- !app_assoc. symmetry. exact Hnew. }
      destruct Henv as (url & p & d & Hin & Hd). subst new.
      apply in_app_or in Hin. destruct Hin as [Hin | Hin].
      * apply (IH _ _ _ _ _ _ n2 err Hrec Hn2). exists url, p, d. split; assumption.
      * apply in_app_or in Hin. destruct Hin as [Hin | [Hin | []]].
        -- rewrite Forall_forall in Flook. destruct (Flook _ Hin).
        -- injection Hin as Hu Hp Hresp. rewrite Hr in Hresp.
           injection Hresp as Hdata. subst data.
           rewrite (contains_error_key _ _ Hd) in Hc. discriminate.
Qed.

End Logs.

Section Chains.

Variable env : Env.




(** What can be iterated has a length. *)
Lemma py_iter_len (v : pyval) (items : list pyval) :
  py_iter v = inr items -> exists n, py_len v = inr n.
Proof. destruct v; simpl; intros H; try discriminate; eexists; reflexivity. Qed.

(** A page that is served and well formed takes the loop to the next
    iteration, once its items have been processed. *)
Lemma fetch_pages_page (fuel : nat) (access_token next_page params body next : pyval)
    (items all_data all_data' : list pyval) (st st2 : state env) :
  py_truthy next_page = true ->
  serves env (py_str env next_page) params body ->
  listing_page body items next ->
  for_each_ad env access_token all_data items
    (mk_state (snd (http_get env (py_str env next_page) params (world st)))
              (EvGet AdsListing (py_str env next_page) params (inr body) :: calls st))
  = (Return all_data', st2) ->
  fetch_pages env (S fuel) access_token next_page params all_data st
  = fetch_pages env fuel access_token next
      (if py_truthy next then PDict [] else params) all_data' st2.
Proof.
  intros Hnext Hserves (Hnoerr & Hitems & _ & Hpaging) Hfor.
  rewrite fetch_pages_step by exact Hnext.
  rewrite (bind_return env _ _ _ _ _ body
             (mk_state (snd (http_get env (py_str env next_page) params (world st)))
                (EvGet AdsListing (py_str env next_page) params (inr body) :: calls st))).
  2:{ rewrite requests_get_run, (Hserves (world st)). reflexivity. }
  cbn [bind Monad_M]. unfold lift at 1. rewrite Hnoerr. cbn [outcome_of].
  cbn in Hitems. cbn in Hpaging.
  destruct (py_get body "data" (PList [])) as [e | page_data]; [discriminate |].
  destruct (py_iter_len _ _ Hitems) as [size Hsize].
  unfold lift at 1. cbn [outcome_of]. unfold lift at 1. rewrite Hsize. cbn [outcome_of].
  unfold lift at 1. rewrite Hitems. cbn [outcome_of].
  rewrite Hfor.
  destruct (py_get body "paging" (PDict [])) as [e | paging]; [discriminate |].
  unfold lift at 1. cbn [outcome_of]. unfold lift at 1. rewrite Hpaging. cbn [outcome_of].
  reflexivity.
Qed.

Lemma looked_up_here (ad : pyval) (rest : list pyval) (ad_id : pyval) :
  py_get ad "ad_id" PNone = inr ad_id -> py_truthy ad_id = true ->
  looked_up (ad :: rest) ad_id.
Proof. intros Hget Htrue. exists ad. split; [left; reflexivity | split; assumption]. Qed.

Lemma looked_up_later (ad : pyval) (rest : list pyval) (ad_id : pyval) :
  looked_up rest ad_id -> looked_up (ad :: rest) ad_id.
Proof. intros (x & Hin & H). exists x. split; [right; exact Hin | exact H]. Qed.

Lemma looked_up_app_l (l1 l2 : list pyval) (ad_id : pyval) :
  looked_up l1 ad_id -> looked_up (l1 ++ l2) ad_id.
Proof.
  intros (x & Hin & H). exists x. split; [apply in_or_app; left; exact Hin | exact H].
Qed.

Lemma looked_up_app_r (l1 l2 : list pyval) (ad_id : pyval) :
  looked_up l2 ad_id -> looked_up (l1 ++ l2) ad_id.
Proof.
  intros (x & Hin & H). exists x. split; [apply in_or_app; right; exact Hin | exact H].
Qed.

(** With lookups that answer by [created], the loop over a page keeps
    exactly the accepted records, in order. *)
Lemma for_each_ad_filter (access_token : pyval) (created : pyval -> option datetime)
    (items : list pyval) :
  Forall is_record items ->
  lookups_answer env access_token items created ->
  forall all_data st, exists st',
    for_each_ad env access_token all_data items st
    = (Return (all_data ++ filter (accepted created) items)%list, st').
Proof.
  induction items as [| ad rest IH]; intros Hrec Hans all_data st.
  - exists st. simpl. rewrite app_nil_r. reflexivity.
  - inversion Hrec as [| ? ? [d Hd] Hrest]; subst.
    assert (Hans' : lookups_answer env access_token rest created).
    { intros ad_id Hlook. apply Hans. apply looked_up_later. exact Hlook. }
    cbn [for_each_ad]. unfold keep_ad at 1. cbn [filter]. unfold accepted at 1.
    destruct (py_get (PDict d) "ad_id" PNone) as [e | ad_id] eqn:Hget;
      [discriminate |].
    cbn [bind Monad_M]. unfold lift at 1. cbn [outcome_of].
    destruct (py_truthy ad_id) eqn:Htrue; cbn [andb].
    + destruct (Hans ad_id (looked_up_here _ _ _ Hget Htrue) st) as [st1 Hlookup].
      rewrite Hlookup.
      destruct (created ad_id) as [dt |].
      * destruct (datetime_ge dt CUTOFF_DATE).
        -- destruct (IH Hrest Hans' (all_data ++ [PDict d])%list st1) as [st' H].
           exists st'. cbn. rewrite H, <- app_assoc. reflexivity.
        -- destruct (IH Hrest Hans' all_data st1) as [st' H].
           exists st'. cbn. exact H.
      * destruct (IH Hrest Hans' all_data st1) as [st' H].
        exists st'. cbn. exact H.
    + destruct (IH Hrest Hans' all_data st) as [st' H].
      exists st'. cbn. exact H.
Qed.


End Chains.

Section ChainTheorems.

Variable env : Env.


(** Over a chain of pages the loop collects the accepted records. *)
Lemma fetch_pages_chain_filter (access_token : pyval)
    (created : pyval -> option datetime) :
  forall next_page params pages,
    page_chain env next_page params pages ->
    py_truthy next_page = true ->
    lookups_answer env access_token (List.concat pages) created ->
    forall fuel all_data st,
      (List.length pages <= fuel)%nat ->
      exists st',
        fetch_pages env fuel access_token next_page params all_data st
        = (Return (all_data ++ filter (accepted created) (List.concat pages))%list, st').
Proof.
  intros next_page params pages Hchain.
  induction Hchain as [next_page params body items next Hserves Hpage Hlast
                      | next_page params body items next rest Hserves Hpage Hmore Hchain IH];
    intros Hnext Hans fuel all_data st Hfuel.
  - destruct fuel as [| fuel]; [simpl in Hfuel; lia |].
    assert (Hrec : Forall is_record items) by (destruct Hpage as (_ & _ & H & _); exact H).
    destruct (for_each_ad_filter env access_token created items Hrec) with
      (all_data := all_data)
      (st := mk_state (snd (http_get env (py_str env next_page) params (world st)))
               (EvGet AdsListing (py_str env next_page) params (inr body) :: calls st))
      as (st2 & Hfor).
    { intros ad_id Hlook. apply Hans. simpl. rewrite app_nil_r. exact Hlook. }
    exists st2.
    rewrite (fetch_pages_page env _ _ _ _ _ _ _ _ _ _ _ Hnext Hserves Hpage Hfor).
    rewrite fetch_pages_done by exact Hlast. simpl. rewrite app_nil_r. reflexivity.
  - destruct fuel as [| fuel]; [simpl in Hfuel; lia |].
    assert (Hrec : Forall is_record items) by (destruct Hpage as (_ & _ & H & _); exact H).
    destruct (for_each_ad_filter env access_token created items Hrec) with
      (all_data := all_data)
      (st := mk_state (snd (http_get env (py_str env next_page) params (world st)))
               (EvGet AdsListing (py_str env next_page) params (inr body) :: calls st))
      as (st2 & Hfor).
    { intros ad_id Hlook. apply Hans. simpl. apply looked_up_app_l. exact Hlook. }
    rewrite (fetch_pages_page env _ _ _ _ _ _ _ _ _ _ _ Hnext Hserves Hpage Hfor).
    rewrite Hmore.
    destruct (IH Hmore) with (fuel := fuel)
      (all_data := (all_data ++ filter (accepted created) items)%list) (st := st2)
      as (st' & Hrun).
    { intros ad_id Hlook. apply Hans. simpl. apply looked_up_app_r. exact Hlook. }
    { simpl in Hfuel. lia. }
    exists st'. rewrite Hrun. simpl. rewrite filter_app, app_assoc. reflexivity.
Qed.

Lemma api_url_truthy (ad_account_id : pyval) :
  py_truthy (PStr (api_url env ad_account_id)) = true.
Proof. reflexivity. Qed.

(** With both keys in the configuration the pass is the loop started at
    the insights URL. *)
Lemma fetch_api_data_body_run (fuel : nat) (config access_token ad_account_id : pyval)
    (st : state env) :
  py_subscript config "accessToken" = inr access_token ->
  py_subscript config "adAccountId" = inr ad_account_id ->
  fetch_api_data_body env fuel config st
  = fetch_pages env fuel access_token (PStr (api_url env ad_account_id))
      (listing_params env access_token) [] st.
Proof.
  intros Htok Hacct. unfold fetch_api_data_body. cbn [bind Monad_M].
  unfold lift at 1. rewrite Htok. cbn [outcome_of].
  unfold lift at 1. rewrite Hacct. reflexivity.
Qed.

End ChainTheorems.


(* ===================================================================== *)
(** * What a creation-time lookup returns *)
(* ===================================================================== *)

Section Lookup.

Variable env : Env.

(** The body of the lookup after its request was answered with [data]. *)
Lemma lookup_body_run (ad_id access_token : pyval) (st : state env) (data : pyval) :
  fst (http_get env (creation_time_url env ad_id)
         (creation_time_params access_token) (world st)) = inr data ->
  fetch_ad_creation_time_body env ad_id access_token st
  = (has_error <- lift env (py_contains "error" data) ;;
     if (has_error : bool) then
       _ <- lift env (py_subscript data "error") ;;
       ret None
     else
       created_str <- lift env (py_get data "created_time" PNone) ;;
       if negb (py_truthy created_str) then ret None
       else
         dt <- lift env (isoparse env created_str) ;;
         ret (Some dt)) (after_lookup env ad_id access_token st).
Proof.
  intros H. unfold fetch_ad_creation_time_body.
  fold (creation_time_url env ad_id). fold (creation_time_params access_token).
  rewrite (bind_return env _ _ _ _ _ data (after_lookup env ad_id access_token st));
    [reflexivity |].
  rewrite requests_get_run. unfold after_lookup. rewrite H. reflexivity.
Qed.

(** A lookup answered with an error envelope returns "absent". *)
Lemma creation_time_absent_on_error_envelope (ad_id access_token : pyval)
    (st : state env) (d : list (string * pyval)) (err : pyval) :
  fst (http_get env (creation_time_url env ad_id)
         (creation_time_params access_token) (world st)) = inr (PDict d) ->
  dict_lookup "error" d = Some err ->
  fetch_ad_creation_time env ad_id access_token st
  = (Return None, after_lookup env ad_id access_token st).
Proof.
  intros Hget Herr. apply retry_first_attempt.
  rewrite (lookup_body_run _ _ _ _ Hget). cbn [bind Monad_M].
  unfold lift at 1. rewrite (contains_error_key _ _ Herr). cbn [outcome_of].
  unfold lift at 1. unfold py_subscript. rewrite Herr. reflexivity.
Qed.

(** A lookup answered without a [created_time] returns "absent". *)
Lemma creation_time_absent_without_field (ad_id access_token : pyval)
    (st : state env) (d : list (string * pyval)) :
  fst (http_get env (creation_time_url env ad_id)
         (creation_time_params access_token) (world st)) = inr (PDict d) ->
  dict_lookup "error" d = None ->
  dict_lookup "created_time" d = None ->
  fetch_ad_creation_time env ad_id access_token st
  = (Return None, after_lookup env ad_id access_token st).
Proof.
  intros Hget Hnoerr Hnone. apply retry_first_attempt.
  rewrite (lookup_body_run _ _ _ _ Hget). cbn [bind Monad_M].
  unfold lift at 1. unfold py_contains. rewrite Hnoerr. cbn [outcome_of].
  unfold lift at 1. unfold py_get. rewrite Hnone. reflexivity.
Qed.

(** A lookup answered with a timestamp returns it parsed. *)
Lemma creation_time_present (ad_id access_token : pyval)
    (st : state env) (d : list (string * pyval)) (stamp : pyval) (dt : datetime) :
  fst (http_get env (creation_time_url env ad_id)
         (creation_time_params access_token) (world st)) = inr (PDict d) ->
  dict_lookup "error" d = None ->
  dict_lookup "created_time" d = Some stamp ->
  py_truthy stamp = true ->
  isoparse env stamp = inr dt ->
  fetch_ad_creation_time env ad_id access_token st
  = (Return (Some dt), after_lookup env ad_id access_token st).
Proof.
  intros Hget Hnoerr Hstamp Htrue Hparse. apply retry_first_attempt.
  rewrite (lookup_body_run _ _ _ _ Hget). cbn [bind Monad_M].
  unfold lift at 1. unfold py_contains. rewrite Hnoerr. cbn [outcome_of].
  unfold lift at 1. unfold py_get. rewrite Hstamp. cbn [outcome_of].
  rewrite Htrue. cbn [negb]. unfold lift at 1. rewrite Hparse. reflexivity.
Qed.

End Lookup.

(** The cutoff is the first instant of 1 September 2024. *)
Example cutoff_boundary :
  datetime_ge (mk_datetime 2024 9 1 0 0 0 0) CUTOFF_DATE = true /\
  datetime_ge (mk_datetime 2024 8 31 23 59 59 999999) CUTOFF_DATE = false.
Proof. split; reflexivity. Qed.

(* ===================================================================== *)
(** * The statements on concrete runs *)
(* ===================================================================== *)





(** The two pages of the example: of the six records, the recent one and
    the one created at the cutoff itself are kept. *)
Example two_pages_kept :
  fst (fetch_api_data Examples.two_pages_env 5 Examples.config_T
         Examples.two_pages_start)
  = Return [Examples.ad_A1; Examples.ad_A4].
Proof. vm_compute. reflexivity. Qed.

(** One row written to the sheet with the gap: the read reports 3 rows
    where 2 cells of column A are filled, and the date of the new row is in
    row 4. *)
Lemma rows_written_after_last_reported_row_witness :
  SheetModel.rows_reported_for_column_A Examples.sheet_with_gap = 3 /\
  SheetModel.filled_in_column_A Examples.sheet_with_gap <= 3 /\
  SheetModel.cell_at (Scripted.sheet_of (world Examples.gap_after_write)) (3 + 1 + 0) (1 + 0)
  = Some (PStr "2024-11-02").
Proof.
  split; [reflexivity |].
  destruct (rows_written_after_last_reported_row (Examples.script_of Examples.one_page)
              Spreadsheets Examples.one_row
              (Examples.one_page_start Examples.sheet_with_gap) Examples.gap_after_write)
    as (_ & (Hcount & _) & _ & Hin & _).
  - discriminate.
  - reflexivity.
  - split; [exact Hcount |].
    exact (Hin 0%nat 0%nat _ (PStr "2024-11-02") eq_refl eq_refl).
Defined.

(** C5, as stated, fails: column A of the sheet has 2 filled cells (rows 1
    and 3), so the claim places a written row in row 3; the code reads 3
    rows, writes to row 4 and leaves row 3 as it was. *)
Lemma rows_not_placed_after_count_of_filled_cells :
  SheetModel.filled_in_column_A Examples.sheet_with_gap = 2 /\
  List.length (build_rows Examples.one_row) = 1%nat /\
  SheetModel.cell_at (Scripted.sheet_of (world Examples.gap_after_write)) (2 + 1) 1
  = Some (PStr "2024-11-01") /\
  SheetModel.cell_at (Scripted.sheet_of (world Examples.gap_after_write)) (2 + 1) 1
  <> Some (PStr "2024-11-02") /\
  SheetModel.cell_at (Scripted.sheet_of (world Examples.gap_after_write)) 4 1
  = Some (PStr "2024-11-02").
Proof.
  repeat split; try (vm_compute; reflexivity).
  vm_compute. discriminate.
Qed.


(* ===================================================================== *)
(** * Loading the configuration *)
(* ===================================================================== *)

Section Config.

Variable env : Env.

(** The comprehension over the two required keys, spelled out. *)
Lemma missing_keys_required (config : pyval) :
  missing_keys required_keys config
  = match py_contains "accessToken" config, py_contains "adAccountId" config with
    | inr a, inr b =>
        inr ((if a then [] else ["accessToken"])
             ++ (if b then [] else ["adAccountId"]))%list
    | inl e, _ => inl e
    | inr _, inl e => inl e
    end.
Proof.
  unfold required_keys. cbn.
  destruct (py_contains "accessToken" config) as [e | a]; [reflexivity |].
  destruct (py_contains "adAccountId" config) as [e | b]; [reflexivity |].
  destruct a, b; reflexivity.
Qed.

(** [load_config] when the file exists. *)
Lemma load_config_run (st : state env) :
  path_exists env (CONFIG_FILE env) (world st) = true ->
  load_config env st
  = (config <- lift env (json_load env (CONFIG_FILE env) (world st)) ;;
     missing <- lift env (missing_keys required_keys config) ;;
     match missing with
     | _ :: _ =>
         raise env (ValueError ("Missing required config keys: "
                                ++ String.concat ", " missing))
     | [] => ret config
     end) st.
Proof.
  intros H. unfold load_config, get_world. cbn [bind Monad_M].
  rewrite H. reflexivity.
Qed.

(** What a returned configuration went through. *)
Lemma load_config_return_inv (st st' : state env) (config : pyval) :
  load_config env st = (Return config, st') ->
  path_exists env (CONFIG_FILE env) (world st) = true /\
  json_load env (CONFIG_FILE env) (world st) = inr config /\
  missing_keys required_keys config = inr [] /\
  st' = st.
Proof.
  intros H.
  destruct (path_exists env (CONFIG_FILE env) (world st)) eqn:Hfile.
  2:{ unfold load_config, get_world in H. cbn [bind Monad_M] in H.
      rewrite Hfile in H. discriminate. }
  rewrite (load_config_run st Hfile) in H. cbn [bind Monad_M] in H.
  unfold lift at 1 in H.
  destruct (json_load env (CONFIG_FILE env) (world st)) as [e | loaded];
    cbn [outcome_of] in H; [discriminate |].
  unfold lift at 1 in H.
  destruct (missing_keys required_keys loaded) as [e | [| key missing]] eqn:Hmissing;
    cbn [outcome_of] in H; try discriminate.
  inversion H; subst. repeat split. exact Hmissing.
Qed.

End Config.

(** X1.  A configuration that [load_config] returns is what the file holds,
    the file exists, both required keys pass the [in] test, and nothing
    has changed: no remote call, the same world. *)
Theorem load_config_returns_validated :
  forall (env : Env) (st st' : state env) (config : pyval),
    load_config env st = (Return config, st') ->
    st' = st /\
    path_exists env (CONFIG_FILE env) (world st) = true /\
    json_load env (CONFIG_FILE env) (world st) = inr config /\
    py_contains "accessToken" config = inr true /\
    py_contains "adAccountId" config = inr true.
Proof.
  intros env st st' config H.
  destruct (load_config_return_inv env st st' config H)
    as (Hfile & Hload & Hmissing & Hst).
  rewrite missing_keys_required in Hmissing.
  destruct (py_contains "accessToken" config) as [e | a]; [discriminate |].
  destruct (py_contains "adAccountId" config) as [e | b]; [discriminate |].
  destruct a, b; try discriminate.
  repeat split; assumption.
Qed.

Lemma load_config_returns_validated_witness :
  snd (load_config Examples.one_page_env (Examples.one_page_start SheetModel.blank))
  = Examples.one_page_start SheetModel.blank /\
  path_exists Examples.one_page_env (CONFIG_FILE Examples.one_page_env)
    (world (Examples.one_page_start SheetModel.blank)) = true /\
  json_load Examples.one_page_env (CONFIG_FILE Examples.one_page_env)
    (world (Examples.one_page_start SheetModel.blank)) = inr Examples.config_T /\
  py_contains "accessToken" Examples.config_T = inr true /\
  py_contains "adAccountId" Examples.config_T = inr true.
Proof.
  apply (load_config_returns_validated Examples.one_page_env
           (Examples.one_page_start SheetModel.blank)
           (snd (load_config Examples.one_page_env
                   (Examples.one_page_start SheetModel.blank)))
           Examples.config_T).
  reflexivity.
Defined.

(** X2.  When the file holds a JSON object that lacks required keys,
    [load_config] raises [ValueError] whose message lists the missing keys,
    in the order [accessToken], [adAccountId], joined by a comma and a
    space; nothing else happens. *)
Theorem load_config_names_missing_keys :
  forall (env : Env) (st : state env) (d : list (string * pyval)),
    path_exists env (CONFIG_FILE env) (world st) = true ->
    json_load env (CONFIG_FILE env) (world st) = inr (PDict d) ->
    filter (fun key => negb (has_key d key)) required_keys <> [] ->
    load_config env st
    = (Raise (ValueError
                ("Missing required config keys: "
                 ++ String.concat ", "
                      (filter (fun key => negb (has_key d key)) required_keys))),
       st).
Proof.
  intros env st d Hfile Hload Hmissing.
  rewrite (load_config_run env st Hfile). cbn [bind Monad_M].
  unfold lift at 1. rewrite Hload. cbn [outcome_of].
  unfold lift at 1. rewrite missing_keys_required.
  unfold py_contains. revert Hmissing. unfold required_keys, has_key. cbn [filter].
  destruct (dict_lookup "accessToken" d), (dict_lookup "adAccountId" d);
    cbn; intros Hmissing; try reflexivity.
  congruence.
Qed.

Lemma load_config_names_missing_keys_witness :
  load_config Examples.partial_config_env Examples.partial_config_start
  = (Raise (ValueError
              ("Missing required config keys: "
               ++ String.concat ", "
                    (filter (fun key => negb (has_key [("accessToken", PStr "T")] key))
                            required_keys))),
     Examples.partial_config_start).
Proof.
  apply (load_config_names_missing_keys Examples.partial_config_env
           Examples.partial_config_start [("accessToken", PStr "T")]).
  - reflexivity.
  - reflexivity.
  - discriminate.
Defined.

Example missing_account_message :
  fst (load_config Examples.partial_config_env Examples.partial_config_start)
  = Raise (ValueError "Missing required config keys: adAccountId").
Proof. vm_compute. reflexivity. Qed.

(** X3.  A JSON object that [load_config] has returned has both entries
    [fetch_api_data] reads, so a pass of the fetch goes straight to the
    loop, started at the insights URL of the account with the listing
    parameters. *)
Theorem loaded_object_feeds_the_fetch :
  forall (env : Env) (st st' : state env) (d : list (string * pyval)),
    load_config env st = (Return (PDict d), st') ->
    exists access_token ad_account_id,
      dict_lookup "accessToken" d = Some access_token /\
      dict_lookup "adAccountId" d = Some ad_account_id /\
      forall fuel st2,
        fetch_api_data_body env fuel (PDict d) st2
        = fetch_pages env fuel access_token (PStr (api_url env ad_account_id))
            (listing_params env access_token) [] st2.
Proof.
  intros env st st' d H.
  destruct (load_config_return_inv env st st' (PDict d) H) as (_ & _ & Hmissing & _).
  rewrite missing_keys_required in Hmissing. unfold py_contains in Hmissing.
  destruct (dict_lookup "accessToken" d) as [tok |] eqn:Htok; [| discriminate].
  destruct (dict_lookup "adAccountId" d) as [acct |] eqn:Hacct; [| discriminate].
  exists tok, acct. repeat split.
  intros fuel st2. apply fetch_api_data_body_run;
    unfold py_subscript; [rewrite Htok | rewrite Hacct]; reflexivity.
Qed.

Lemma loaded_object_feeds_the_fetch_witness :
  exists access_token ad_account_id,
    dict_lookup "accessToken"
      [("accessToken", PStr "T"); ("adAccountId", PStr "123")] = Some access_token /\
    dict_lookup "adAccountId"
      [("accessToken", PStr "T"); ("adAccountId", PStr "123")] = Some ad_account_id /\
    forall fuel st2,
      fetch_api_data_body Examples.one_page_env fuel Examples.config_T st2
      = fetch_pages Examples.one_page_env fuel access_token
          (PStr (api_url Examples.one_page_env ad_account_id))
          (listing_params Examples.one_page_env access_token) [] st2.
Proof.
  apply (loaded_object_feeds_the_fetch Examples.one_page_env
           (Examples.one_page_start SheetModel.blank)
           (Examples.one_page_start SheetModel.blank)).
  reflexivity.
Defined.

Lemma is_str_in (key : string) (l : list pyval) :
  In (PStr key) l -> existsb (is_str key) l = true.
Proof.
  intros H. apply existsb_exists. exists (PStr key). split; [exact H |].
  simpl. apply String.eqb_refl.
Qed.

(** X4.  The validation of [load_config] is the [in] test, which a JSON
    array also answers: an array that has both key names among its elements
    is returned as the configuration.  [fetch_api_data] then fails on
    [config["accessToken"]] with [TypeError] on each of its three attempts,
    without a single request. *)
Theorem array_config_passes_validation :
  forall (env : Env) (st : state env) (l : list pyval),
    path_exists env (CONFIG_FILE env) (world st) = true ->
    json_load env (CONFIG_FILE env) (world st) = inr (PList l) ->
    In (PStr "accessToken") l ->
    In (PStr "adAccountId") l ->
    load_config env st = (Return (PList l), st) /\
    forall fuel st2,
      fetch_api_data env fuel (PList l) st2
      = (Raise (RetryError
                  (TypeError "list indices must be integers or slices, not str")),
         st2).
Proof.
  intros env st l Hfile Hload Htok Hacct. split.
  - rewrite (load_config_run env st Hfile). cbn [bind Monad_M].
    unfold lift at 1. rewrite Hload. cbn [outcome_of].
    unfold lift at 1. rewrite missing_keys_required. unfold py_contains.
    rewrite (is_str_in _ _ Htok), (is_str_in _ _ Hacct). reflexivity.
  - intros fuel st2. reflexivity.
Qed.

Lemma array_config_passes_validation_witness :
  load_config Examples.array_config_env Examples.array_config_start
  = (Return (PList Examples.array_config), Examples.array_config_start) /\
  forall fuel st2,
    fetch_api_data Examples.array_config_env fuel (PList Examples.array_config) st2
    = (Raise (RetryError
                (TypeError "list indices must be integers or slices, not str")),
       st2).
Proof.
  apply (array_config_passes_validation Examples.array_config_env Examples.array_config_start
           Examples.array_config).
  - reflexivity.
  - reflexivity.
  - left. reflexivity.
  - right. left. reflexivity.
Defined.

(** X5.  Without the configuration file /sync answers HTTP 500 with the
    body [{"status": "error", "message": "Config file <CONFIG_FILE> not
    found"}], and has done nothing: no request, no read, no write. *)
Theorem sync_data_without_config_file :
  forall (env : Env) (fuel : nat) (st : state env),
    path_exists env (CONFIG_FILE env) (world st) = false ->
    sync_data env fuel st
    = (Return (mk_response
                 (PDict [("status", PStr "error");
                         ("message",
                          PStr ("Config file " ++ CONFIG_FILE env ++ " not found"))])
                 500),
       st).
Proof.
  intros env fuel st Hfile. rewrite sync_data_run.
  rewrite (pipeline_raises env fuel st st
             (FileNotFoundError ("Config file " ++ CONFIG_FILE env ++ " not found"))).
  - reflexivity.
  - apply load_config_raises.
    unfold load_config, get_world. cbn [bind Monad_M]. rewrite Hfile. reflexivity.
Qed.

Lemma sync_data_without_config_file_witness :
  sync_data Examples.no_config_env 5 Examples.no_config_start
  = (Return (mk_response
               (PDict [("status", PStr "error");
                       ("message", PStr "Config file passkeys.json not found")])
               500),
     Examples.no_config_start).
Proof.
  apply (sync_data_without_config_file Examples.no_config_env 5 Examples.no_config_start).
  reflexivity.
Defined.

(** X6.  With a configuration but without the credentials file /sync
    answers HTTP 500 with the body [{"status": "error", "message": "Google
    Sheets credentials file zeta-environs-448616-m0-cb4f0707f662.json not
    found"}]; the service is not built and nothing is fetched. *)
Theorem sync_data_without_credentials_file :
  forall (env : Env) (fuel : nat) (st st1 : state env) (config : pyval),
    load_config env st = (Return config, st1) ->
    path_exists env "zeta-environs-448616-m0-cb4f0707f662.json" (world st) = false ->
    sync_data env fuel st
    = (Return (mk_response
                 (PDict [("status", PStr "error");
                         ("message",
                          PStr "Google Sheets credentials file zeta-environs-448616-m0-cb4f0707f662.json not found")])
                 500),
       st).
Proof.
  intros env fuel st st1 config Hload Hfile.
  destruct (load_config_return_inv env st st1 config Hload) as (_ & _ & _ & ->).
  rewrite sync_data_run.
  rewrite (pipeline_raises env fuel st st
             (FileNotFoundError
                ("Google Sheets credentials file " ++ creds_file ++ " not found"))).
  - reflexivity.
  - apply (init_sheets_api_raises env fuel st config _ st st).
    + exact Hload.
    + unfold init_sheets_api, get_world. cbn [bind Monad_M].
      change creds_file with "zeta-environs-448616-m0-cb4f0707f662.json".
      rewrite Hfile. reflexivity.
Qed.

Lemma sync_data_without_credentials_file_witness :
  sync_data Examples.no_credentials_env 5 Examples.no_credentials_start
  = (Return (mk_response
               (PDict [("status", PStr "error");
                       ("message",
                        PStr "Google Sheets credentials file zeta-environs-448616-m0-cb4f0707f662.json not found")])
               500),
     Examples.no_credentials_start).
Proof.
  apply (sync_data_without_credentials_file Examples.no_credentials_env 5
           Examples.no_credentials_start Examples.no_credentials_start Examples.config_T).
  - reflexivity.
  - reflexivity.
Defined.

(* ===================================================================== *)
(** * What the retries let through *)
(* ===================================================================== *)

Section RetryFacts.

Variable env : Env.

Lemma leaves_state_ret (A : Type) (a : A) : leaves_state (ret a : M env A).
Proof. intros st o st' H. inversion H. reflexivity. Qed.

Lemma leaves_state_lift (A : Type) (r : result A) : leaves_state (lift env r).
Proof. intros st o st' H. inversion H. reflexivity. Qed.

Lemma leaves_state_raise (A : Type) (e : exn) : leaves_state (raise env e : M env A).
Proof. intros st o st' H. inversion H. reflexivity. Qed.

Lemma leaves_state_bind (A B : Type) (c : M env A) (k : A -> M env B) :
  leaves_state c -> (forall a, leaves_state (k a)) -> leaves_state (bind c k).
Proof.
  intros Hc Hk st o st' H.
  destruct (bind_inv env _ _ _ _ _ _ _ H)
    as [(a & st1 & H1 & H2) | [(e & H1 & _) | (H1 & _)]].
  - rewrite (Hk _ _ _ _ H2). exact (Hc _ _ _ H1).
  - exact (Hc _ _ _ H1).
  - exact (Hc _ _ _ H1).
Qed.

(** Where the loop of the decorator stops: the attempt counter has moved
    by at most the retries left, the outcome is that of the last run of the
    function, wrapped if it is an exception, and an exception only comes
    out when no retry is left. *)
Lemma retry_loop_bounds (A : Type) (fn : M env A) :
  forall left attempt st o k st',
    retry_loop env left attempt fn st = ((o, k), st') ->
    (attempt <= k <= attempt + left)%nat /\
    exists st1 o1,
      fn st1 = (o1, st') /\ o = after_last_attempt o1 /\
      (forall e, o1 = Raise e -> k = (attempt + left)%nat).
Proof.
  induction left as [| left IH]; intros attempt st o k st' H; simpl in H.
  - destruct (fn st) as [[a | e |] s] eqn:E; inversion H; subst;
      (split; [lia |]); eexists; eexists; (split; [exact E |]);
      (split; [reflexivity |]); intros; lia.
  - destruct (fn st) as [[a | e |] s] eqn:E.
    + inversion H; subst. split; [lia |]. eexists; eexists. split; [exact E |].
      split; [reflexivity | discriminate].
    + destruct (IH _ _ _ _ _ H) as (Hk & st1 & o1 & Hfn & Ho & Hlast).
      split; [lia |]. exists st1, o1. split; [exact Hfn |]. split; [exact Ho |].
      intros e' He'. rewrite (Hlast e' He'). lia.
    + inversion H; subst. split; [lia |]. eexists; eexists. split; [exact E |].
      split; [reflexivity | discriminate].
Qed.

(** When every run of the function logs one call, the loop logs one call
    per attempt. *)
Lemma retry_loop_log (A R : Type) (fn : M env A) (ev : R -> event) :
  (forall s o s', fn s = (o, s') -> exists r, calls s' = ev r :: calls s) ->
  forall left attempt st o k st',
    retry_loop env left attempt fn st = ((o, k), st') ->
    exists responses,
      calls st' = (map ev responses ++ calls st)%list /\
      (attempt + List.length responses = S k)%nat.
Proof.
  intros Hfn. induction left as [| left IH]; intros attempt st o k st' H; simpl in H.
  - destruct (fn st) as [[a | e |] s] eqn:E; inversion H; subst;
      destruct (Hfn _ _ _ E) as [r Hr]; exists [r]; (split; [exact Hr | simpl; lia]).
  - destruct (fn st) as [[a | e |] s] eqn:E.
    + inversion H; subst. destruct (Hfn _ _ _ E) as [r Hr]. exists [r].
      split; [exact Hr | simpl; lia].
    + destruct (Hfn _ _ _ E) as [r Hr].
      destruct (IH _ _ _ _ _ H) as (responses & Hlog & Hlen).
      exists (responses ++ [r])%list. split.
      * rewrite Hlog, Hr, map_app, <- app_assoc. reflexivity.
      * rewrite length_app. simpl. lia.
    + inversion H; subst. destruct (Hfn _ _ _ E) as [r Hr]. exists [r].
      split; [exact Hr | simpl; lia].
Qed.

Lemma retry_loop_raise_step (A : Type) (fn : M env A) left attempt st e st1 :
  fn st = (Raise e, st1) ->
  retry_loop env (S left) attempt fn st = retry_loop env left (S attempt) fn st1.
Proof. intros H. simpl. rewrite H. reflexivity. Qed.

Lemma retry_loop_raise_last (A : Type) (fn : M env A) attempt st e st1 :
  fn st = (Raise e, st1) ->
  retry_loop env 0 attempt fn st = ((Raise (RetryError e), attempt), st1).
Proof. intros H. simpl. rewrite H. reflexivity. Qed.

(** A function whose every run raises is run three times. *)
Lemma retry_always_raising (A : Type) (fn : M env A) (next : state env -> state env)
    (e : exn) :
  (forall st, fn st = (Raise e, next st)) ->
  forall st, retry env MAX_RETRIES fn st = (Raise (RetryError e), next (next (next st))).
Proof.
  intros H st. apply (retry_run _ _ _ _ _ _ 3%nat).
  unfold retry_statistics, MAX_RETRIES. cbn [Nat.sub].
  rewrite (retry_loop_raise_step _ _ _ _ _ _ _ (H st)).
  rewrite (retry_loop_raise_step _ _ _ _ _ _ _ (H (next st))).
  apply retry_loop_raise_last, H.
Qed.

(** One run of the lookup is one request, and nothing else touches the
    state. *)
Lemma lookup_body_state (ad_id access_token : pyval) (st st' : state env)
    (o : outcome (option datetime)) :
  fetch_ad_creation_time_body env ad_id access_token st = (o, st') ->
  st' = after_lookup env ad_id access_token st.
Proof.
  intros H. unfold fetch_ad_creation_time_body in H.
  fold (creation_time_url env ad_id) in H.
  fold (creation_time_params access_token) in H.
  apply bind_inv in H. rewrite requests_get_run in H.
  destruct H as [(data & s1 & H1 & H) | [(e & H1 & _) | (H1 & _)]].
  - assert (Hs1 : s1 = after_lookup env ad_id access_token st)
      by (inversion H1; reflexivity).
    subst s1. revert H. generalize (after_lookup env ad_id access_token st). intros s H.
    revert s o st' H.
    change (leaves_state
              (has_error <- lift env (py_contains "error" data) ;;
               if (has_error : bool) then
                 _ <- lift env (py_subscript data "error") ;;
                 ret None
               else
                 created_str <- lift env (py_get data "created_time" PNone) ;;
                 if negb (py_truthy created_str) then ret None
                 else
                   dt <- lift env (isoparse env created_str) ;;
                   ret (Some dt))).
    apply leaves_state_bind; [apply leaves_state_lift |]. intros [|].
    + apply leaves_state_bind; [apply leaves_state_lift |]. intros _.
      apply leaves_state_ret.
    + apply leaves_state_bind; [apply leaves_state_lift |]. intros created_str.
      destruct (negb (py_truthy created_str)); [apply leaves_state_ret |].
      apply leaves_state_bind; [apply leaves_state_lift |]. intros dt.
      apply leaves_state_ret.
  - inversion H1. reflexivity.
  - inversion H1. reflexivity.
Qed.

Lemma lookup_body_log (ad_id access_token : pyval) (st st' : state env)
    (o : outcome (option datetime)) :
  fetch_ad_creation_time_body env ad_id access_token st = (o, st') ->
  exists r, calls st' = lookup_request env ad_id access_token r :: calls st.
Proof.
  intros H. rewrite (lookup_body_state _ _ _ _ _ H). eexists. reflexivity.
Qed.

(** The log of a decorated call whose every run logs one call: one call
    per attempt, at least one and at most three. *)
Lemma retry_log (A R : Type) (fn : M env A) (ev : R -> event) :
  (forall s o s', fn s = (o, s') -> exists r, calls s' = ev r :: calls s) ->
  forall st o st',
    retry env MAX_RETRIES fn st = (o, st') ->
    exists responses,
      calls st' = (map ev responses ++ calls st)%list /\
      (1 <= List.length responses <= 3)%nat.
Proof.
  intros Hfn st o st' H. unfold retry in H.
  destruct (retry_statistics env MAX_RETRIES fn st) as [[o' k] s] eqn:Hstat.
  cbn [fst snd] in H. inversion H; subst o' s. clear H.
  unfold retry_statistics, MAX_RETRIES in Hstat. cbn [Nat.sub] in Hstat.
  destruct (retry_loop_bounds _ _ _ _ _ _ _ _ Hstat) as (Hk & _).
  destruct (retry_loop_log _ _ _ ev Hfn _ _ _ _ _ _ Hstat) as (responses & Hlog & Hlen).
  exists responses. split; [exact Hlog | lia].
Qed.

End RetryFacts.

(** X7.  What the caller of a decorated function can see of the retries:
    the attempt counter ends between 1 and 3, and when the call raises, it
    raises on the third attempt, and the exception is a [RetryError] around
    the exception of a run of the wrapped function. *)
Theorem decorated_call_raises_only_retry_error :
  forall (env : Env) (A : Type) (body call : M env A),
    decorated_operation env A body call ->
    forall (st st' : state env) (o : outcome A) (k : nat),
      retry_statistics env MAX_RETRIES body st = ((o, k), st') ->
      call st = (o, st') /\
      (1 <= k <= 3)%nat /\
      forall e, o = Raise e ->
        k = 3%nat /\
        exists last st1, e = RetryError last /\ body st1 = (Raise last, st').
Proof.
  intros env A body call Hop st st' o k Hstat.
  split.
  { destruct Hop; [unfold fetch_ad_creation_time | unfold fetch_api_data];
      apply (retry_run _ _ _ _ _ _ _ _ Hstat). }
  unfold retry_statistics, MAX_RETRIES in Hstat. cbn [Nat.sub] in Hstat.
  destruct (retry_loop_bounds env A body _ _ _ _ _ _ Hstat)
    as (Hk & st1 & o1 & Hrun & Ho & Hlast).
  split; [lia |].
  intros e He. subst o. destruct o1 as [a | last |]; try discriminate.
  inversion He; subst e. split; [apply (Hlast last eq_refl) |].
  exists last, st1. split; [reflexivity | exact Hrun].
Qed.

Lemma decorated_call_raises_only_retry_error_witness :
  fetch_ad_creation_time Examples.down_env (PStr "A1") (PStr "T") Examples.down_start
  = (Raise (RetryError Examples.connection_error), snd Examples.down_lookup) /\
  (1 <= 3 <= 3)%nat /\
  forall e, @Raise (option datetime) (RetryError Examples.connection_error) = Raise e ->
    3%nat = 3%nat /\
    exists last st1,
      e = RetryError last /\
      fetch_ad_creation_time_body Examples.down_env (PStr "A1") (PStr "T") st1
      = (Raise last, snd Examples.down_lookup).
Proof.
  apply (decorated_call_raises_only_retry_error Examples.down_env _ _ _
           (lookup_operation Examples.down_env (PStr "A1") (PStr "T"))
           Examples.down_start (snd Examples.down_lookup)
           (Raise (RetryError Examples.connection_error)) 3%nat).
  reflexivity.
Defined.

(** X8.  A creation-time lookup costs at least one and at most three
    requests, whatever it ends with, and all of them are the same request:
    the URL of the ad with the fields [created_time] and the access token. *)
Theorem lookup_costs_one_to_three_requests :
  forall (env : Env) (ad_id access_token : pyval) (st st' : state env)
         (o : outcome (option datetime)),
    fetch_ad_creation_time env ad_id access_token st = (o, st') ->
    exists responses,
      calls st' = (map (lookup_request env ad_id access_token) responses ++ calls st)%list /\
      (1 <= List.length responses <= 3)%nat.
Proof.
  intros env ad_id access_token st st' o H.
  unfold fetch_ad_creation_time in H.
  exact (retry_log env _ _ _ (lookup_request env ad_id access_token)
           (fun s o1 s' => lookup_body_log env ad_id access_token s s' o1)
           st o st' H).
Qed.

Lemma lookup_costs_one_to_three_requests_witness :
  exists responses,
    calls Examples.flaky_st3
    = (map (lookup_request Examples.flaky_env (PStr "A1") (PStr "T")) responses
       ++ calls Examples.flaky_start)%list /\
    (1 <= List.length responses <= 3)%nat.
Proof.
  apply (lookup_costs_one_to_three_requests Examples.flaky_env (PStr "A1") (PStr "T")
           Examples.flaky_start Examples.flaky_st3
           (Return (Some (mk_datetime 2024 10 5 8 0 0 0)))).
  reflexivity.
Defined.

(** X9.  A [created_time] that the parser refuses is not reported as
    absent: the exception leaves the function body, so the decorator asks
    again, and after three identical requests the caller gets the
    [RetryError] around the parser's exception. *)
Theorem unparseable_creation_time_exhausts_the_retries :
  forall (env : Env) (ad_id access_token : pyval) (d : list (string * pyval))
         (stamp : pyval) (e : exn),
    serves env (creation_time_url env ad_id) (creation_time_params access_token)
           (PDict d) ->
    dict_lookup "error" d = None ->
    dict_lookup "created_time" d = Some stamp ->
    py_truthy stamp = true ->
    isoparse env stamp = inl e ->
    forall st : state env,
      fetch_ad_creation_time env ad_id access_token st
      = (Raise (RetryError e),
         after_lookup env ad_id access_token
           (after_lookup env ad_id access_token
              (after_lookup env ad_id access_token st))).
Proof.
  intros env ad_id access_token d stamp e Hserves Hnoerr Hstamp Htrue Hparse.
  apply (retry_always_raising env _ _ (after_lookup env ad_id access_token) e).
  intros st. rewrite (lookup_body_run env _ _ _ _ (Hserves (world st))).
  cbn [bind Monad_M]. unfold lift at 1. unfold py_contains. rewrite Hnoerr.
  cbn [outcome_of]. unfold lift at 1. unfold py_get. rewrite Hstamp. cbn [outcome_of].
  rewrite Htrue. cbn [negb]. unfold lift at 1. rewrite Hparse. reflexivity.
Qed.

Lemma unparseable_creation_time_exhausts_the_retries_witness :
  fetch_ad_creation_time Examples.bad_stamp_env (PStr "A1") (PStr "T") Examples.bad_stamp_start
  = (Raise (RetryError (ValueError "Invalid isoformat string")),
     after_lookup Examples.bad_stamp_env (PStr "A1") (PStr "T")
       (after_lookup Examples.bad_stamp_env (PStr "A1") (PStr "T")
          (after_lookup Examples.bad_stamp_env (PStr "A1") (PStr "T") Examples.bad_stamp_start))).
Proof.
  apply (unparseable_creation_time_exhausts_the_retries Examples.bad_stamp_env
           (PStr "A1") (PStr "T") [("created_time", PStr "yesterday")]
           (PStr "yesterday") (ValueError "Invalid isoformat string")).
  - intros w. reflexivity.
  - reflexivity.
  - reflexivity.
  - reflexivity.
  - reflexivity.
Defined.

(* ===================================================================== *)
(** * What a fetch returns and what it sends *)
(* ===================================================================== *)

(** X10.  What a creation-time lookup returns is read off the answer to
    its last request, which is a JSON object: "absent" when the object has
    the key [error], or has no [created_time], or an empty one; otherwise
    the timestamp the parser makes of [created_time]. *)
Theorem creation_time_read_off_the_answer :
  forall (env : Env) (ad_id access_token : pyval) (st st' : state env)
         (r : option datetime),
    fetch_ad_creation_time env ad_id access_token st = (Return r, st') ->
    exists st1 d,
      st' = after_lookup env ad_id access_token st1 /\
      fst (http_get env (creation_time_url env ad_id)
             (creation_time_params access_token) (world st1)) = inr (PDict d) /\
      match dict_lookup "error" d with
      | Some _ => r = None
      | None =>
          match dict_lookup "created_time" d with
          | None => r = None
          | Some stamp =>
              if py_truthy stamp
              then exists dt, r = Some dt /\ isoparse env stamp = inr dt
              else r = None
          end
      end.
Proof.
  intros env ad_id access_token st st' r H.
  unfold fetch_ad_creation_time, retry in H.
  destruct (retry_statistics env MAX_RETRIES
              (fetch_ad_creation_time_body env ad_id access_token) st)
    as [[o k] s] eqn:Hstat.
  cbn [fst snd] in H. inversion H; subst o s. clear H.
  destruct (retry_loop_return env _ _ _ _ _ _ _ _ Hstat) as (st1 & before & Hbody & _).
  { intros s o s' Hs. destruct (lookup_body_log env _ _ _ _ _ Hs) as [x Hx].
    exists [lookup_request env ad_id access_token x]. exact Hx. }
  exists st1.
  pose proof (lookup_body_state env _ _ _ _ _ Hbody) as Hst'.
  destruct (fst (http_get env (creation_time_url env ad_id)
                   (creation_time_params access_token) (world st1)))
    as [e | data] eqn:Hresp.
  { exfalso. unfold fetch_ad_creation_time_body in Hbody.
    fold (creation_time_url env ad_id) in Hbody.
    fold (creation_time_params access_token) in Hbody.
    rewrite (bind_raise env _ _ _ _ _ e (after_lookup env ad_id access_token st1))
      in Hbody; [discriminate |].
    rewrite requests_get_run. unfold after_lookup. rewrite Hresp. reflexivity. }
  rewrite (lookup_body_run env _ _ _ _ Hresp) in Hbody.
  cbn [bind Monad_M] in Hbody. unfold lift in Hbody.
  destruct data as [| b | n | x | s | l | d]; cbn [py_contains outcome_of] in Hbody;
    try discriminate.
  - destruct (is_infix "error" s); cbn in Hbody; discriminate.
  - destruct (existsb (is_str "error") l); cbn in Hbody; discriminate.
  - exists d. split; [exact Hst' |]. split; [reflexivity |].
    unfold py_subscript, py_get in Hbody.
    destruct (dict_lookup "error" d) as [err |]; cbn [outcome_of] in Hbody.
    + inversion Hbody. reflexivity.
    + destruct (dict_lookup "created_time" d) as [stamp |]; cbn [outcome_of] in Hbody.
      * destruct (py_truthy stamp); cbn [negb] in Hbody.
        -- destruct (isoparse env stamp) as [e | dt]; cbn [outcome_of] in Hbody;
             [discriminate |].
           inversion Hbody. exists dt. split; reflexivity.
        -- inversion Hbody. reflexivity.
      * cbn in Hbody. inversion Hbody. reflexivity.
Qed.

Lemma creation_time_read_off_the_answer_witness :
  exists st1 d,
    Examples.flaky_st3
    = after_lookup Examples.flaky_env (PStr "A1") (PStr "T") st1 /\
    fst (http_get Examples.flaky_env (creation_time_url Examples.flaky_env (PStr "A1"))
           (creation_time_params (PStr "T")) (world st1)) = inr (PDict d) /\
    match dict_lookup "error" d with
    | Some _ => Some (mk_datetime 2024 10 5 8 0 0 0) = None
    | None =>
        match dict_lookup "created_time" d with
        | None => Some (mk_datetime 2024 10 5 8 0 0 0) = None
        | Some stamp =>
            if py_truthy stamp
            then exists dt, Some (mk_datetime 2024 10 5 8 0 0 0) = Some dt
                            /\ isoparse Examples.flaky_env stamp = inr dt
            else Some (mk_datetime 2024 10 5 8 0 0 0) = None
        end
    end.
Proof.
  apply (creation_time_read_off_the_answer Examples.flaky_env (PStr "A1") (PStr "T")
           Examples.flaky_start Examples.flaky_st3).
  reflexivity.
Defined.

Section FetchFacts.

Variable env : Env.

Lemma lookup_is_request (ev : event) : is_lookup_request ev -> is_request ev.
Proof. destruct ev as [[|] url params r | |]; simpl; auto. Qed.

Lemma emits_requests_for_each_ad (access_token : pyval) (all_data items : list pyval) :
  emits is_request (for_each_ad env access_token all_data items).
Proof.
  intros st o st' H. eapply extends_log_weaken; [exact lookup_is_request |].
  exact (emits_for_each_ad env _ _ _ _ _ _ H).
Qed.

(** The loop of [fetch_api_data] talks to the Graph API only. *)
Lemma emits_requests_fetch_pages (fuel : nat) (access_token : pyval) :
  forall next_page params all_data,
    emits is_request (fetch_pages env fuel access_token next_page params all_data).
Proof.
  induction fuel as [| fuel IH]; intros next_page params all_data.
  - simpl. destruct (py_truthy next_page).
    + intros st o st' H. inversion H; subst. apply extends_log_refl.
    + apply emits_ret.
  - destruct (py_truthy next_page) eqn:Hnext.
    + rewrite fetch_pages_step by exact Hnext.
      apply emits_bind; [apply emits_requests_get; intros r; exact I |]. intros data.
      apply emits_bind; [apply emits_lift |]. intros [|].
      * apply emits_bind; [apply emits_lift |]. intros err. apply emits_raise.
      * apply emits_bind; [apply emits_lift |]. intros page_data.
        apply emits_bind; [apply emits_lift |]. intros _.
        apply emits_bind; [apply emits_lift |]. intros items.
        apply emits_bind; [apply emits_requests_for_each_ad |].
        intros all_data'.
        apply emits_bind; [apply emits_lift |]. intros paging.
        apply emits_bind; [apply emits_lift |]. intros next_page'.
        apply IH.
    + intros st o st' H. rewrite fetch_pages_done in H by exact Hnext.
      inversion H; subst. apply extends_log_refl.
Qed.

Lemma emits_requests_fetch_api_data (fuel : nat) (config : pyval) :
  emits is_request (fetch_api_data env fuel config).
Proof.
  unfold fetch_api_data. apply emits_retry. unfold fetch_api_data_body.
  apply emits_bind; [apply emits_lift |]. intros access_token.
  apply emits_bind; [apply emits_lift |]. intros ad_account_id.
  apply emits_requests_fetch_pages.
Qed.

Lemma sheet_calls_requests (new old : list event) :
  Forall is_request new -> sheet_calls (new ++ old) = sheet_calls old.
Proof.
  induction 1 as [| ev new Hev _ IH]; [reflexivity |].
  destruct ev; try destruct Hev. simpl. exact IH.
Qed.

Lemma sheet_calls_unchanged (st st' : state env) :
  extends_log is_request st st' -> sheet_calls (calls st') = sheet_calls (calls st).
Proof. intros (new & Hnew & Hreq). rewrite Hnew. apply sheet_calls_requests, Hreq. Qed.

(** The comparison of the source against the cutoff, field by field. *)
Lemma at_or_after_lex_compare (a b : list Z) :
  List.length a = List.length b ->
  match lex_compare a b with
  | Lt => false
  | _ => true
  end = at_or_after a b.
Proof.
  revert b. induction a as [| x a IH]; intros [| y b] Hlen; try discriminate;
    [reflexivity |].
  cbn [lex_compare at_or_after].
  destruct (Z.compare_spec x y) as [Heq | Hlt | Hgt].
  - subst y. rewrite Z.ltb_irrefl, Z.eqb_refl. cbn [orb andb].
    apply IH. simpl in Hlen. lia.
  - replace (y <? x) with false by (symmetry; apply Z.ltb_ge; lia).
    replace (x =? y) with false by (symmetry; apply Z.eqb_neq; lia).
    reflexivity.
  - replace (y <? x) with true by (symmetry; apply Z.ltb_lt; lia).
    reflexivity.
Qed.

Lemma datetime_ge_cutoff (ad : pyval) (dt : datetime) :
  datetime_ge dt CUTOFF_DATE = created_since_cutoff (ad, Some (Some dt)).
Proof.
  unfold datetime_ge, created_since_cutoff, datetime_fields, CUTOFF_DATE.
  cbn [snd year month day hour minute second microsecond].
  apply at_or_after_lex_compare. reflexivity.
Qed.

Lemma kept_records_cons (v : visit) (visits : list visit) :
  kept_records (v :: visits)
  = ((if created_since_cutoff v then [fst v] else []) ++ kept_records visits)%list.
Proof.
  unfold kept_records. cbn [filter]. destruct (created_since_cutoff v); reflexivity.
Qed.

Lemma kept_records_app (visits more : list visit) :
  kept_records (visits ++ more) = (kept_records visits ++ kept_records more)%list.
Proof. unfold kept_records. rewrite filter_app, map_app. reflexivity. Qed.

(** What the item loop does with one record. *)
Lemma keep_ad_visit (access_token : pyval) (all_data kept : list pyval)
    (ad : pyval) (st st' : state env) :
  keep_ad env access_token all_data ad st = (Return kept, st') ->
  exists ad_id,
    py_get ad "ad_id" PNone = inr ad_id /\
    ((py_truthy ad_id = false /\ st' = st /\ kept = all_data) \/
     (py_truthy ad_id = true /\
      exists created,
        fetch_ad_creation_time env ad_id access_token st = (Return created, st') /\
        kept = (all_data
                ++ if created_since_cutoff (ad, Some created) then [ad] else [])%list)).
Proof.
  intros H. unfold keep_ad in H. apply bind_inv in H.
  destruct H as [(ad_id & s & H1 & H) | [(e & _ & He) | (_ & He)]];
    [| discriminate | discriminate].
  apply lift_inv in H1. destruct H1 as [-> H1].
  destruct (py_get ad "ad_id" PNone) as [e | v]; [discriminate |].
  inversion H1; subst v. exists ad_id. split; [reflexivity |].
  destruct (py_truthy ad_id).
  2:{ left. inversion H; subst. repeat split. }
  right. split; [reflexivity |].
  apply bind_inv in H.
  destruct H as [(created & s & H2 & H) | [(e & _ & He) | (_ & He)]];
    [| discriminate | discriminate].
  exists created.
  destruct created as [dt |].
  - rewrite <- (datetime_ge_cutoff ad dt).
    destruct (datetime_ge dt CUTOFF_DATE); inversion H; subst;
      (split; [exact H2 |]); [reflexivity | rewrite app_nil_r; reflexivity].
  - inversion H; subst. split; [exact H2 |]. cbn. rewrite app_nil_r. reflexivity.
Qed.

(** A loop over the records of a page that returns has visited them all,
    and has added the records it keeps. *)
Lemma for_each_ad_visits (access_token : pyval) (items : list pyval) :
  forall all_data records (st st' : state env),
    for_each_ad env access_token all_data items st = (Return records, st') ->
    exists visits,
      items_visited env access_token st items visits st' /\
      records = (all_data ++ kept_records visits)%list.
Proof.
  induction items as [| ad rest IH]; intros all_data records st st' H.
  - inversion H; subst. exists []. split; [constructor |].
    cbn. rewrite app_nil_r. reflexivity.
  - cbn [for_each_ad] in H. apply bind_inv in H.
    destruct H as [(kept & s & H1 & H) | [(e & _ & He) | (_ & He)]];
      [| discriminate | discriminate].
    destruct (IH _ _ _ _ H) as (visits & Hvisits & Hrecords).
    destruct (keep_ad_visit _ _ _ _ _ _ H1)
      as (ad_id & Hid & [(Hfalse & -> & ->) | (Htrue & created & Hlookup & ->)]).
    + exists ((ad, None) :: visits). split.
      * exact (item_without_id env access_token _ _ _ _ _ _ Hid Hfalse Hvisits).
      * rewrite kept_records_cons. exact Hrecords.
    + exists ((ad, Some created) :: visits). split.
      * exact (item_looked_up env access_token _ _ _ _ _ _ _ _
                 Hid Htrue Hlookup Hvisits).
      * rewrite kept_records_cons, Hrecords, <- app_assoc. reflexivity.
Qed.

(** The records a loop went through are JSON objects. *)
Lemma items_visited_records (access_token : pyval) (st st' : state env)
    (items : list pyval) (visits : list visit) :
  items_visited env access_token st items visits st' -> Forall is_record items.
Proof.
  induction 1 as [st
                 | st st' ad ad_id items visits Hid _ _ IH
                 | st st1 st' ad ad_id created items visits Hid _ _ _ IH].
  - constructor.
  - constructor; [| exact IH].
    destruct ad; try discriminate. eexists. reflexivity.
  - constructor; [| exact IH].
    destruct ad; try discriminate. eexists. reflexivity.
Qed.

(** The visits are those of the records, in order. *)
Lemma items_visited_map (access_token : pyval) (st st' : state env)
    (items : list pyval) (visits : list visit) :
  items_visited env access_token st items visits st' -> map fst visits = items.
Proof.
  induction 1 as [st
                 | st st' ad ad_id items visits _ _ _ IH
                 | st st1 st' ad ad_id created items visits _ _ _ _ IH];
    [reflexivity | |]; cbn [map fst]; rewrite IH; reflexivity.
Qed.

(** An iteration of the page loop after which the pass returns. *)
Lemma fetch_pages_return_step (fuel : nat) (access_token next_page params : pyval)
    (all_data records : list pyval) (st st' : state env) :
  py_truthy next_page = true ->
  fetch_pages env (S fuel) access_token next_page params all_data st
  = (Return records, st') ->
  exists body items all_data' next st1 st2,
    requests_get env AdsListing (py_str env next_page) params st = (Return body, st1) /\
    py_contains "error" body = inr false /\
    (page_data <- py_get body "data" (PList []) ;; py_iter page_data) = inr items /\
    (paging <- py_get body "paging" (PDict []) ;; py_get paging "next" PNone)
    = inr next /\
    for_each_ad env access_token all_data items st1 = (Return all_data', st2) /\
    fetch_pages env fuel access_token next
      (if py_truthy next then PDict [] else params) all_data' st2
    = (Return records, st').
Proof.
  intros Hnext H. rewrite fetch_pages_step in H by exact Hnext.
  apply bind_inv in H.
  destruct H as [(body & st1 & Hget & H) | [(e & _ & He) | (_ & He)]];
    [| discriminate | discriminate].
  apply bind_inv in H.
  destruct H as [(has_error & s & H1 & H) | [(e & _ & He) | (_ & He)]];
    [| discriminate | discriminate].
  apply lift_inv in H1. destruct H1 as [-> Herror].
  destruct (py_contains "error" body) as [e | b] eqn:Hcontains; [discriminate |].
  inversion Herror; subst has_error. clear Herror.
  destruct b.
  { apply bind_inv in H.
    destruct H as [(err & s & _ & H) | [(e & _ & He) | (_ & He)]];
      discriminate. }
  apply bind_inv in H.
  destruct H as [(page_data & s & H1 & H) | [(e & _ & He) | (_ & He)]];
    [| discriminate | discriminate].
  apply lift_inv in H1. destruct H1 as [-> Hdata].
  apply bind_inv in H.
  destruct H as [(size & s & H1 & H) | [(e & _ & He) | (_ & He)]];
    [| discriminate | discriminate].
  apply lift_inv in H1. destruct H1 as [-> _].
  apply bind_inv in H.
  destruct H as [(items & s & H1 & H) | [(e & _ & He) | (_ & He)]];
    [| discriminate | discriminate].
  apply lift_inv in H1. destruct H1 as [-> Hitems].
  apply bind_inv in H.
  destruct H as [(all_data' & st2 & Hfor & H) | [(e & _ & He) | (_ & He)]];
    [| discriminate | discriminate].
  apply bind_inv in H.
  destruct H as [(paging & s & H1 & H) | [(e & _ & He) | (_ & He)]];
    [| discriminate | discriminate].
  apply lift_inv in H1. destruct H1 as [-> Hpaging].
  apply bind_inv in H.
  destruct H as [(next & s & H1 & H) | [(e & _ & He) | (_ & He)]];
    [| discriminate | discriminate].
  apply lift_inv in H1. destruct H1 as [-> Hnext'].
  exists body, items, all_data', next, st1, st2.
  split; [exact Hget |]. split; [exact Hcontains |].
  split.
  { cbn [bind Monad_result].
    destruct (py_get body "data" (PList [])) as [e | v]; [discriminate |].
    inversion Hdata; subst v.
    destruct (py_iter page_data) as [e | l]; [discriminate |].
    inversion Hitems; reflexivity. }
  split.
  { cbn [bind Monad_result].
    destruct (py_get body "paging" (PDict [])) as [e | v]; [discriminate |].
    inversion Hpaging; subst v.
    destruct (py_get paging "next" PNone) as [e | v]; [discriminate |].
    inversion Hnext'; reflexivity. }
  split; [exact Hfor | exact H].
Qed.

(** A page loop that returns has visited its pages, and has added the
    records it keeps. *)
Lemma fetch_pages_visits (fuel : nat) (access_token : pyval) :
  forall next_page params all_data records (st st' : state env),
    fetch_pages env fuel access_token next_page params all_data st
    = (Return records, st') ->
    exists visits,
      pages_visited env access_token next_page params st visits st' /\
      records = (all_data ++ kept_records visits)%list.
Proof.
  induction fuel as [| fuel IH]; intros next_page params all_data records st st' H.
  - simpl in H. destruct (py_truthy next_page) eqn:Hnext; inversion H; subst.
    exists []. split; [constructor; exact Hnext |].
    cbn. rewrite app_nil_r. reflexivity.
  - destruct (py_truthy next_page) eqn:Hnext.
    + destruct (fetch_pages_return_step _ _ _ _ _ _ _ _ Hnext H)
        as (body & items & all_data' & next & st1 & st2
            & Hget & Hnoerr & Hitems & Hpaging & Hfor & Hrec).
      destruct (for_each_ad_visits _ _ _ _ _ _ Hfor) as (visits & Hvisits & ->).
      destruct (IH _ _ _ _ _ _ Hrec) as (more & Hmore & ->).
      exists (visits ++ more)%list. split.
      * apply (page_visited env access_token _ _ _ st1 st2 _ body items next);
          try assumption.
        repeat split; try assumption.
        exact (items_visited_records _ _ _ _ _ Hvisits).
      * rewrite kept_records_app, app_assoc. reflexivity.
    + rewrite fetch_pages_done in H by exact Hnext. inversion H; subst.
      exists []. split; [constructor; exact Hnext |].
      cbn. rewrite app_nil_r. reflexivity.
Qed.

(** The records of the pages a loop went through are JSON objects. *)
Lemma pages_visited_records (access_token next_page params : pyval)
    (st st' : state env) (visits : list visit) :
  pages_visited env access_token next_page params st visits st' ->
  Forall is_record (map fst visits).
Proof.
  induction 1 as [next_page params st _
                 | next_page params st st1 st2 st' body items next visits more
                     _ _ _ Hitems _ IH].
  - constructor.
  - rewrite map_app. apply Forall_app. split; [| exact IH].
    pose proof (items_visited_records _ _ _ _ _ Hitems) as Hrecords.
    rewrite <- (items_visited_map _ _ _ _ _ Hitems) in Hrecords. exact Hrecords.
Qed.

(** What [fetch_api_data] returns is what one pass of the page loop
    returned, started after the attempts that failed. *)
Lemma fetch_api_data_return_pass (fuel : nat) (config : pyval) (st st' : state env)
    (records : list pyval) :
  fetch_api_data env fuel config st = (Return records, st') ->
  exists access_token ad_account_id st1,
    py_subscript config "accessToken" = inr access_token /\
    py_subscript config "adAccountId" = inr ad_account_id /\
    extends_log any_call st st1 /\
    fetch_pages env fuel access_token (PStr (api_url env ad_account_id))
      (listing_params env access_token) [] st1
    = (Return records, st').
Proof.
  intros H. unfold fetch_api_data, retry in H.
  destruct (retry_statistics env MAX_RETRIES (fetch_api_data_body env fuel config) st)
    as [[o k] s] eqn:Hstat.
  cbn [fst snd] in H. inversion H; subst o s. clear H.
  destruct (retry_loop_return env _ _ _ _ _ _ _ _ Hstat) as (st1 & before & Hbody & Hlog).
  { intros s o s' Hs.
    destruct (emits_fetch_api_data_body env _ _ _ _ _ Hs) as (new & Hnew & _).
    exists new. exact Hnew. }
  unfold fetch_api_data_body in Hbody.
  apply bind_inv in Hbody.
  destruct Hbody as [(access_token & s & H1 & Hbody) | [(e & _ & He) | (_ & He)]];
    [| discriminate | discriminate].
  apply lift_inv in H1. destruct H1 as [-> H1].
  apply bind_inv in Hbody.
  destruct Hbody as [(ad_account_id & s & H2 & Hbody) | [(e & _ & He) | (_ & He)]];
    [| discriminate | discriminate].
  apply lift_inv in H2. destruct H2 as [-> H2].
  exists access_token, ad_account_id, st1.
  split; [destruct (py_subscript config "accessToken"); inversion H1; reflexivity |].
  split; [destruct (py_subscript config "adAccountId"); inversion H2; reflexivity |].
  split; [| exact Hbody].
  exists before. split; [exact Hlog |]. apply Forall_forall. intros ev _. exact I.
Qed.

Lemma listing_params_sent_app (new old : list event) :
  listing_params_sent (new ++ old)
  = (listing_params_sent new ++ listing_params_sent old)%list.
Proof. unfold listing_params_sent. apply flat_map_app. Qed.

Lemma listing_params_sent_lookups (new : list event) :
  Forall is_lookup_request new -> listing_params_sent new = [].
Proof.
  induction 1 as [| ev new Hev _ IH]; [reflexivity |].
  destruct ev as [[|] url params r | |]; simpl in *; try exact IH; destruct Hev.
Qed.

Lemma listing_params_sent_unchanged (st st' : state env) :
  extends_log is_lookup_request st st' ->
  listing_params_sent (calls st') = listing_params_sent (calls st).
Proof.
  intros (new & Hnew & Flook).
  rewrite Hnew, listing_params_sent_app, (listing_params_sent_lookups _ Flook).
  reflexivity.
Qed.

(** The page requests of a loop started with [params]: none, or one with
    [params] followed by requests with no parameters. *)
Lemma fetch_pages_params (fuel : nat) (access_token : pyval) :
  forall next_page params all_data (st st' : state env) o,
    fetch_pages env fuel access_token next_page params all_data st = (o, st') ->
    listing_params_sent (calls st') = listing_params_sent (calls st) \/
    exists n,
      listing_params_sent (calls st')
      = (repeat (PDict []) n ++ params :: listing_params_sent (calls st))%list.
Proof.
  induction fuel as [| fuel IH]; intros next_page params all_data st st' o H.
  - left. simpl in H. destruct (py_truthy next_page); inversion H; reflexivity.
  - destruct (py_truthy next_page) eqn:Hnext.
    2:{ left. rewrite fetch_pages_done in H by exact Hnext. inversion H; reflexivity. }
    right.
    destruct (fetch_pages_iteration env _ _ _ _ _ _ _ _ Hnext H)
      as [[Hlog _]
         | (data & items & all_data' & next_page' & st2 & _ & _ & Hfor & Hrec)].
    + exists 0%nat. rewrite (listing_params_sent_unchanged _ _ Hlog). reflexivity.
    + pose proof (listing_params_sent_unchanged _ _
                    (emits_for_each_ad env _ _ _ _ _ _ Hfor)) as Hitems.
      cbn [calls] in Hitems.
      destruct (py_truthy next_page') eqn:Hnext'.
      * destruct (IH _ _ _ _ _ _ Hrec) as [Hsame | [n Hn]].
        -- exists 0%nat. rewrite Hsame, Hitems. reflexivity.
        -- exists (S n). rewrite Hn, Hitems.
           change (PDict [] :: listing_params_sent
                     (EvGet AdsListing (py_str env next_page) params
                        (fst (http_get env (py_str env next_page) params (world st)))
                      :: calls st))
             with ([PDict []] ++ params :: listing_params_sent (calls st))%list.
           rewrite app_assoc, <- repeat_cons. reflexivity.
      * rewrite fetch_pages_done in Hrec by exact Hnext'. inversion Hrec; subst.
        exists 0%nat. rewrite Hitems. reflexivity.
Qed.

Lemma listing_params_sent_listing (url : string) (params : pyval) (r : result pyval)
    (log : list event) :
  listing_params_sent (EvGet AdsListing url params r :: log)
  = params :: listing_params_sent log.
Proof. reflexivity. Qed.

(** A loop that makes a request sends [params] with the first one only. *)
Lemma fetch_pages_params_first (fuel : nat) (access_token next_page params : pyval)
    (all_data : list pyval) (st st' : state env) (o : outcome (list pyval)) :
  py_truthy next_page = true ->
  fetch_pages env (S fuel) access_token next_page params all_data st = (o, st') ->
  exists n,
    listing_params_sent (calls st')
    = (repeat (PDict []) n ++ params :: listing_params_sent (calls st))%list.
Proof.
  intros Hnext H.
  destruct (fetch_pages_params _ _ _ _ _ _ _ _ H) as [Hsame | Hsent]; [| exact Hsent].
  exfalso.
  destruct (fetch_pages_iteration env _ _ _ _ _ _ _ _ Hnext H)
    as [[Hlog _]
       | (data & items & all_data' & next_page' & st2 & _ & _ & Hfor & Hrec)].
  - rewrite (listing_params_sent_unchanged _ _ Hlog) in Hsame.
    cbn [calls] in Hsame. rewrite listing_params_sent_listing in Hsame.
    apply (f_equal (@List.length pyval)) in Hsame. cbn [List.length] in Hsame. lia.
  - pose proof (listing_params_sent_unchanged _ _
                  (emits_for_each_ad env _ _ _ _ _ _ Hfor)) as Hitems.
    cbn [calls] in Hitems.
    destruct (fetch_pages_params _ _ _ _ _ _ _ _ Hrec) as [Hrest | [n Hn]].
    + rewrite Hrest, Hitems, listing_params_sent_listing in Hsame.
      apply (f_equal (@List.length pyval)) in Hsame. cbn [List.length] in Hsame. lia.
    + rewrite Hn, Hitems, listing_params_sent_listing in Hsame.
      apply (f_equal (@List.length pyval)) in Hsame.
      rewrite length_app in Hsame. cbn [List.length] in Hsame. lia.
Qed.

(** A visit with a lookup is that of a JSON object with a non-empty
    [ad_id]. *)
Lemma items_visited_lookup (access_token : pyval) (st st' : state env)
    (items : list pyval) (visits : list visit) (ad : pyval)
    (created : option datetime) :
  items_visited env access_token st items visits st' ->
  In (ad, Some created) visits ->
  exists d ad_id,
    ad = PDict d /\ dict_lookup "ad_id" d = Some ad_id /\ py_truthy ad_id = true.
Proof.
  induction 1 as [st
                 | st st' x ad_id items visits Hid Hfalse _ IH
                 | st st1 st' x ad_id r items visits Hid Htrue _ _ IH];
    intros Hin.
  - destruct Hin.
  - destruct Hin as [Heq | Hin]; [discriminate | exact (IH Hin)].
  - destruct Hin as [Heq | Hin]; [| exact (IH Hin)].
    inversion Heq; subst x r. destruct ad; try discriminate.
    unfold py_get in Hid.
    destruct (dict_lookup "ad_id" entries) as [v |] eqn:Hv;
      inversion Hid; subst ad_id; [| discriminate].
    eexists; eexists. repeat split; [exact Hv | exact Htrue].
Qed.

Lemma pages_visited_lookup (access_token next_page params : pyval)
    (st st' : state env) (visits : list visit) (ad : pyval)
    (created : option datetime) :
  pages_visited env access_token next_page params st visits st' ->
  In (ad, Some created) visits ->
  exists d ad_id,
    ad = PDict d /\ dict_lookup "ad_id" d = Some ad_id /\ py_truthy ad_id = true.
Proof.
  induction 1 as [next_page params st _
                 | next_page params st st1 st2 st' body items next visits more
                     _ _ _ Hitems _ IH];
    intros Hin.
  - destruct Hin.
  - apply in_app_or in Hin. destruct Hin as [Hin | Hin]; [| exact (IH Hin)].
    exact (items_visited_lookup _ _ _ _ _ _ _ Hitems Hin).
Qed.

(** The records [fetch_api_data] returns are JSON objects. *)
Lemma fetch_api_data_records (fuel : nat) (config : pyval) (st st' : state env)
    (records : list pyval) :
  fetch_api_data env fuel config st = (Return records, st') ->
  Forall is_record records.
Proof.
  intros H.
  destruct (fetch_api_data_return_pass _ _ _ _ _ H)
    as (access_token & ad_account_id & st1 & _ & _ & _ & Hpass).
  destruct (fetch_pages_visits _ _ _ _ _ _ _ _ Hpass) as (visits & Hvisits & ->).
  pose proof (pages_visited_records _ _ _ _ _ _ Hvisits) as Hall.
  cbn [app]. unfold kept_records. rewrite Forall_forall in *. intros ad Hin.
  apply in_map_iff in Hin. destruct Hin as (v & <- & Hin).
  apply filter_In in Hin. destruct Hin as [Hin _].
  apply Hall. apply in_map. exact Hin.
Qed.

(** A pass that received an error envelope raised the API error built
    from it. *)
Lemma fetch_body_error_envelope (fuel : nat) (config : pyval) (st st' : state env)
    (o : outcome (list pyval)) (new : list event) (err : pyval) :
  fetch_api_data_body env fuel config st = (o, st') ->
  calls st' = (new ++ calls st)%list ->
  error_envelope_received new err ->
  o = Raise (FacebookAdsError ("Facebook API error: " ++ py_str env err)).
Proof.
  intros Hrun Hnew Henv. unfold fetch_api_data_body in Hrun.
  apply bind_inv in Hrun.
  destruct Hrun as [(tok & s1 & H1 & Hrun) | [(e & H1 & ->) | (H1 & ->)]];
    apply lift_inv in H1; destruct H1 as [-> H1].
  2, 3: destruct Henv as (url & p & d & Hin & _);
        apply app_self_nil in Hnew; subst new; destruct Hin.
  apply bind_inv in Hrun.
  destruct Hrun as [(acct & s1 & H2 & Hrun) | [(e & H2 & ->) | (H2 & ->)]];
    apply lift_inv in H2; destruct H2 as [-> H2].
  2, 3: destruct Henv as (url & p & d & Hin & _);
        apply app_self_nil in Hnew; subst new; destruct Hin.
  exact (fetch_pages_error_envelope env _ _ _ _ _ _ _ _ _ _ Hrun Hnew Henv).
Qed.

End FetchFacts.

(** X11.  [fetch_api_data] talks to the Graph API only: whatever way it
    ends, the calls it has added to the log are HTTP requests, and the
    calls to the spreadsheet service are those made before. *)
Theorem fetch_issues_requests_only :
  forall (env : Env) (fuel : nat) (config : pyval) (st st' : state env)
         (o : outcome (list pyval)),
    fetch_api_data env fuel config st = (o, st') ->
    extends_log is_request st st' /\
    sheet_calls (calls st') = sheet_calls (calls st).
Proof.
  intros env fuel config st st' o H.
  pose proof (emits_requests_fetch_api_data env fuel config _ _ _ H) as Hlog.
  split; [exact Hlog | exact (sheet_calls_unchanged env _ _ Hlog)].
Qed.

Lemma fetch_issues_requests_only_witness :
  let run := fetch_api_data Examples.two_pages_env 5 Examples.config_T
               Examples.two_pages_start in
  extends_log is_request Examples.two_pages_start (snd run) /\
  sheet_calls (calls (snd run)) = sheet_calls (calls Examples.two_pages_start).
Proof.
  intros run.
  apply (fetch_issues_requests_only Examples.two_pages_env 5 Examples.config_T
           Examples.two_pages_start (snd run) (fst run)).
  reflexivity.
Defined.

Section PassRuns.

Variable env : Env.
Variable access_token : pyval.

(** The item loop, run on records whose visits are given, returns the
    records it had with those it keeps. *)
Lemma items_visited_run :
  forall (st st' : state env) (items : list pyval) (visits : list visit),
    items_visited env access_token st items visits st' ->
    forall all_data,
      for_each_ad env access_token all_data items st
      = (Return (all_data ++ kept_records visits)%list, st').
Proof.
  induction 1 as [st
                 | st st' ad ad_id items visits Hid Hfalse _ IH
                 | st st1 st' ad ad_id created items visits Hid Htrue Hlookup _ IH];
    intros all_data.
  - cbn. rewrite app_nil_r. reflexivity.
  - cbn [for_each_ad].
    rewrite (bind_return env _ _ _ _ st all_data st).
    + rewrite kept_records_cons. cbn [snd created_since_cutoff app]. apply IH.
    + unfold keep_ad.
      rewrite (bind_return env _ _ _ _ st ad_id st)
        by (unfold lift; rewrite Hid; reflexivity).
      rewrite Hfalse. reflexivity.
  - cbn [for_each_ad].
    rewrite (bind_return env _ _ _ _ st
               (all_data ++ if created_since_cutoff (ad, Some created)
                            then [ad] else [])%list st1).
    + rewrite kept_records_cons, app_assoc. apply IH.
    + unfold keep_ad.
      rewrite (bind_return env _ _ _ _ st ad_id st)
        by (unfold lift; rewrite Hid; reflexivity).
      rewrite Htrue.
      rewrite (bind_return env _ _ _ _ st created st1) by exact Hlookup.
      destruct created as [dt |].
      * rewrite (datetime_ge_cutoff ad dt).
        destruct (created_since_cutoff (ad, Some (Some dt))); [reflexivity |].
        rewrite app_nil_r. reflexivity.
      * cbn. rewrite app_nil_r. reflexivity.
Qed.

(** One iteration of the page loop on a request that is answered with a
    listing page. *)
Lemma fetch_pages_answered (fuel : nat) (next_page params body next : pyval)
    (items all_data all_data' : list pyval) (st st1 st2 : state env) :
  py_truthy next_page = true ->
  requests_get env AdsListing (py_str env next_page) params st = (Return body, st1) ->
  listing_page body items next ->
  for_each_ad env access_token all_data items st1 = (Return all_data', st2) ->
  fetch_pages env (S fuel) access_token next_page params all_data st
  = fetch_pages env fuel access_token next
      (if py_truthy next then PDict [] else params) all_data' st2.
Proof.
  intros Hnext Hget (Hnoerr & Hitems & _ & Hpaging) Hfor.
  rewrite fetch_pages_step by exact Hnext.
  rewrite (bind_return env _ _ _ _ _ body st1) by exact Hget.
  cbn [bind Monad_M]. unfold lift at 1. rewrite Hnoerr. cbn [outcome_of].
  cbn in Hitems. cbn in Hpaging.
  destruct (py_get body "data" (PList [])) as [e | page_data]; [discriminate |].
  destruct (py_iter_len _ _ Hitems) as [size Hsize].
  unfold lift at 1. cbn [outcome_of]. unfold lift at 1. rewrite Hsize. cbn [outcome_of].
  unfold lift at 1. rewrite Hitems. cbn [outcome_of].
  rewrite Hfor.
  destruct (py_get body "paging" (PDict [])) as [e | paging]; [discriminate |].
  unfold lift at 1. cbn [outcome_of]. unfold lift at 1. rewrite Hpaging. cbn [outcome_of].
  reflexivity.
Qed.

(** The page loop, run where the visits of its pages are given, returns
    the records it had with those it keeps, as soon as it may use one
    iteration for each page. *)
Lemma pages_visited_run :
  forall (next_page params : pyval) (st st' : state env) (visits : list visit),
    pages_visited env access_token next_page params st visits st' ->
    exists pages : nat,
      forall fuel all_data,
        (pages <= fuel)%nat ->
        fetch_pages env fuel access_token next_page params all_data st
        = (Return (all_data ++ kept_records visits)%list, st').
Proof.
  induction 1 as [next_page params st Hnext
                 | next_page params st st1 st2 st' body items next visits more
                     Hnext Hget Hpage Hitems _ [pages IH]].
  - exists 0%nat. intros fuel all_data _.
    rewrite fetch_pages_done by exact Hnext. cbn. rewrite app_nil_r. reflexivity.
  - exists (S pages). intros fuel all_data Hfuel.
    destruct fuel as [| fuel]; [lia |].
    rewrite (fetch_pages_answered fuel _ _ body next items all_data
               (all_data ++ kept_records visits)%list st st1 st2
               Hnext Hget Hpage (items_visited_run _ _ _ _ Hitems all_data)).
    rewrite IH by lia.
    rewrite kept_records_app, app_assoc. reflexivity.
Qed.

End PassRuns.

(** C1, as amended.  Whenever [fetch_api_data] returns, what it returns
    comes from one pass of the page loop, and it is exactly, in the order of
    the pages, the records that pass visited whose creation-time lookup,
    made in that pass, returned a timestamp that is 2024-09-01 00:00:00 or
    later.  The records whose lookup returned "absent", the records whose
    timestamp is earlier, and the records without a non-empty [ad_id] are
    left out.  Nothing is assumed of the answers of the service.  And the
    call does return that list when its first pass gets every page and
    every lookup answered, given one iteration of the loop for each page. *)
Theorem records_kept_iff_created_since_cutoff :
  forall (env : Env) (config : pyval) (st : state env),
    (forall fuel st' records,
        fetch_api_data env fuel config st = (Return records, st') ->
        exists access_token ad_account_id st1 visits,
          py_subscript config "accessToken" = inr access_token /\
          py_subscript config "adAccountId" = inr ad_account_id /\
          extends_log any_call st st1 /\
          pages_visited env access_token (PStr (api_url env ad_account_id))
                        (listing_params env access_token) st1 visits st' /\
          records = map fst (filter created_since_cutoff visits)) /\
    (forall access_token ad_account_id visits st',
        py_subscript config "accessToken" = inr access_token ->
        py_subscript config "adAccountId" = inr ad_account_id ->
        pages_visited env access_token (PStr (api_url env ad_account_id))
                      (listing_params env access_token) st visits st' ->
        exists pages : nat,
          forall fuel,
            (pages <= fuel)%nat ->
            fetch_api_data env fuel config st
            = (Return (map fst (filter created_since_cutoff visits)), st')).
Proof.
  intros env config st. split.
  - intros fuel st' records H.
    destruct (fetch_api_data_return_pass env _ _ _ _ _ H)
      as (access_token & ad_account_id & st1 & Htok & Hacct & Hlog & Hpass).
    destruct (fetch_pages_visits env _ _ _ _ _ _ _ _ Hpass) as (visits & Hvisits & ->).
    exists access_token, ad_account_id, st1, visits.
    repeat split; assumption.
  - intros access_token ad_account_id visits st' Htok Hacct Hvisits.
    destruct (pages_visited_run env _ _ _ _ _ _ Hvisits) as [pages Hrun].
    exists pages. intros fuel Hfuel.
    apply retry_first_attempt.
    rewrite (fetch_api_data_body_run env fuel config _ _ st Htok Hacct).
    exact (Hrun fuel [] Hfuel).
Qed.

(** The pass over the two pages of the example, visit by visit. *)
Lemma two_pages_pass :
  pages_visited Examples.two_pages_env (PStr "T")
    (PStr (api_url Examples.two_pages_env (PStr "123")))
    (listing_params Examples.two_pages_env (PStr "T"))
    Examples.two_pages_start Examples.two_pages_visits (snd Examples.two_pages_call).
Proof.
  change Examples.two_pages_visits
    with ((firstn 3 Examples.two_pages_visits)
            ++ (skipn 3 Examples.two_pages_visits ++ []))%list.
  eapply (page_visited Examples.two_pages_env (PStr "T") _ _ _ _ _ _
            Examples.first_page
            [Examples.ad_A1; Examples.ad_A2; Examples.ad_A3]
            (PStr Examples.second_page_url)).
  - reflexivity.
  - reflexivity.
  - repeat split. repeat constructor; eexists; reflexivity.
  - cbn [firstn Examples.two_pages_visits].
    eapply item_looked_up; [reflexivity | reflexivity | reflexivity |].
    eapply item_looked_up; [reflexivity | reflexivity | reflexivity |].
    eapply item_looked_up; [reflexivity | reflexivity | reflexivity |].
    apply no_more_items.
  - eapply (page_visited Examples.two_pages_env (PStr "T") _ _ _ _ _ _
              Examples.second_page
              [Examples.ad_A4; Examples.ad_without_id; Examples.ad_A6]
              PNone).
    + reflexivity.
    + reflexivity.
    + repeat split. repeat constructor; eexists; reflexivity.
    + cbn [skipn Examples.two_pages_visits].
      eapply item_looked_up; [reflexivity | reflexivity | reflexivity |].
      eapply item_without_id; [reflexivity | reflexivity |].
      eapply item_looked_up; [reflexivity | reflexivity | reflexivity |].
      apply no_more_items.
    + apply no_more_pages. reflexivity.
Qed.

(** The two pages of the example: of the six records, the recent one and
    the one created at the cutoff itself are returned, and they are
    returned whenever the loop may run twice. *)
Lemma records_kept_iff_created_since_cutoff_witness :
  (exists access_token ad_account_id st1 visits,
    py_subscript Examples.config_T "accessToken" = inr access_token /\
    py_subscript Examples.config_T "adAccountId" = inr ad_account_id /\
    extends_log any_call Examples.two_pages_start st1 /\
    pages_visited Examples.two_pages_env access_token
      (PStr (api_url Examples.two_pages_env ad_account_id))
      (listing_params Examples.two_pages_env access_token) st1 visits
      (snd Examples.two_pages_call) /\
    [Examples.ad_A1; Examples.ad_A4] = map fst (filter created_since_cutoff visits)) /\
  (exists pages : nat,
    forall fuel,
      (pages <= fuel)%nat ->
      fetch_api_data Examples.two_pages_env fuel Examples.config_T
        Examples.two_pages_start
      = (Return [Examples.ad_A1; Examples.ad_A4], snd Examples.two_pages_call)).
Proof.
  destruct (records_kept_iff_created_since_cutoff Examples.two_pages_env
              Examples.config_T Examples.two_pages_start) as [Hreturned Hpass].
  split.
  - apply (Hreturned 5%nat (snd Examples.two_pages_call)
             [Examples.ad_A1; Examples.ad_A4]).
    reflexivity.
  - exact (Hpass (PStr "T") (PStr "123") Examples.two_pages_visits
             (snd Examples.two_pages_call) eq_refl eq_refl two_pages_pass).
Defined.

(** C1, as stated, fails: the listing returns the record A1, which has a
    non-empty [ad_id], and the lookup of A1 returns a timestamp after the
    cutoff whenever it is made; but the lookup of the next record raises on
    each attempt, every pass of the fetch ends with that failure, and
    [fetch_api_data] raises: A1 is in no result. *)
Lemma passing_record_in_no_result :
  serves Examples.only_A1_answers_env Examples.insights_url
         (listing_params Examples.only_A1_answers_env (PStr "T")) Examples.first_page /\
  listing_page Examples.first_page
               [Examples.ad_A1; Examples.ad_A2; Examples.ad_A3]
               (PStr Examples.second_page_url) /\
  py_get Examples.ad_A1 "ad_id" PNone = inr (PStr "A1") /\
  (forall st, exists st',
      fetch_ad_creation_time Examples.only_A1_answers_env (PStr "A1") (PStr "T") st
      = (Return (Some (mk_datetime 2024 10 5 8 0 0 0)), st')) /\
  created_since_cutoff (Examples.ad_A1, Some (Some (mk_datetime 2024 10 5 8 0 0 0)))
  = true /\
  fst Examples.only_A1_answers_run
  = Raise (RetryError (RetryError Examples.connection_error)) /\
  forall records, fst Examples.only_A1_answers_run <> Return records.
Proof.
  split; [intros w; reflexivity |].
  split; [repeat split; repeat constructor; eexists; reflexivity |].
  split; [reflexivity |].
  split; [intros st; eexists; reflexivity |].
  split; [reflexivity |].
  assert (Hrun : fst Examples.only_A1_answers_run
                 = Raise (RetryError (RetryError Examples.connection_error)))
    by (vm_compute; reflexivity).
  split; [exact Hrun |]. intros records. rewrite Hrun. discriminate.
Qed.

(** C2, as amended.  A pass of the fetch (one attempt of the decorated
    function) that receives a page response with an error envelope ends by
    raising [FacebookAdsError] built from that envelope: it returns no
    records, whatever earlier pages and items had contributed.  The
    decorated [fetch_api_data] tries again: what it returns is the result of
    one pass, no page response of which carried an error envelope; and when
    it raises, it raises [RetryError] around the exception of its last
    pass, which is that [FacebookAdsError] if the last pass received an
    envelope. *)
Theorem error_envelope_fails_the_fetch :
  forall (env : Env) (fuel : nat) (config : pyval) (st : state env),
    (forall o st' new err,
        fetch_api_data_body env fuel config st = (o, st') ->
        calls st' = (new ++ calls st)%list ->
        error_envelope_received new err ->
        o = Raise (FacebookAdsError ("Facebook API error: " ++ py_str env err))) /\
    (forall records st',
        fetch_api_data env fuel config st = (Return records, st') ->
        exists st1 new,
          fetch_api_data_body env fuel config st1 = (Return records, st') /\
          calls st' = (new ++ calls st1)%list /\
          forall err, ~ error_envelope_received new err) /\
    (forall e st',
        fetch_api_data env fuel config st = (Raise e, st') ->
        exists last st1 new,
          e = RetryError last /\
          fetch_api_data_body env fuel config st1 = (Raise last, st') /\
          calls st' = (new ++ calls st1)%list /\
          forall err,
            error_envelope_received new err ->
            last = FacebookAdsError ("Facebook API error: " ++ py_str env err)).
Proof.
  intros env fuel config st.
  split; [intros o st' new err; apply fetch_body_error_envelope |].
  split.
  - intros records st' Hcall. unfold fetch_api_data, retry in Hcall.
    destruct (retry_statistics env MAX_RETRIES (fetch_api_data_body env fuel config) st)
      as [[o k] s] eqn:Hstat.
    cbn [fst snd] in Hcall. inversion Hcall; subst o s.
    destruct (retry_loop_return env _ _ _ _ _ _ _ _ Hstat)
      as (st1 & before & Hbody & _).
    { intros s o s' Hs.
      destruct (emits_fetch_api_data_body env _ _ _ _ _ Hs) as (new & Hnew & _).
      exists new. exact Hnew. }
    destruct (emits_fetch_api_data_body env _ _ _ _ _ Hbody) as (new & Hnew & _).
    exists st1, new. split; [exact Hbody |]. split; [exact Hnew |].
    intros err Henv.
    pose proof (fetch_body_error_envelope env _ _ _ _ _ _ _ Hbody Hnew Henv).
    discriminate.
  - intros e st' Hcall. unfold fetch_api_data, retry in Hcall.
    destruct (retry_statistics env MAX_RETRIES (fetch_api_data_body env fuel config) st)
      as [[o k] s] eqn:Hstat.
    cbn [fst snd] in Hcall. inversion Hcall; subst o s.
    unfold retry_statistics in Hstat.
    destruct (retry_loop_bounds env _ _ _ _ _ _ _ _ Hstat)
      as (_ & st1 & o1 & Hbody & Ho & _).
    destruct o1 as [a | last |]; try discriminate.
    inversion Ho; subst e.
    destruct (emits_fetch_api_data_body env _ _ _ _ _ Hbody) as (new & Hnew & _).
    exists last, st1, new. split; [reflexivity |]. split; [exact Hbody |].
    split; [exact Hnew |].
    intros err Henv.
    pose proof (fetch_body_error_envelope env _ _ _ _ _ _ _ Hbody Hnew Henv) as Hlast.
    inversion Hlast. reflexivity.
Qed.

(** The second page of the example is an error envelope: each pass raises
    the error built from it, although the first page had a recent ad, and
    after three passes the call raises [RetryError] around that error. *)
Lemma error_envelope_fails_the_fetch_witness :
  fst Examples.error_page_run
  = Raise (FacebookAdsError
             ("Facebook API error: "
              ++ py_str Examples.error_page_env Examples.oauth_error)) /\
  exists last st1 new,
    RetryError (FacebookAdsError
                  ("Facebook API error: "
                   ++ py_str Examples.error_page_env Examples.oauth_error))
    = RetryError last /\
    fetch_api_data_body Examples.error_page_env 5 Examples.config_T st1
    = (Raise last, snd Examples.error_page_call) /\
    calls (snd Examples.error_page_call) = (new ++ calls st1)%list /\
    forall err,
      error_envelope_received new err ->
      last = FacebookAdsError
               ("Facebook API error: " ++ py_str Examples.error_page_env err).
Proof.
  split.
  - apply (proj1 (error_envelope_fails_the_fetch Examples.error_page_env 5
                    Examples.config_T Examples.error_page_start)
                 (fst Examples.error_page_run) (snd Examples.error_page_run)
                 (calls (snd Examples.error_page_run)) Examples.oauth_error).
    + reflexivity.
    + reflexivity.
    + exists Examples.second_page_url, (PDict []), [("error", Examples.oauth_error)].
      split; [left; reflexivity | reflexivity].
  - apply (proj2 (proj2 (error_envelope_fails_the_fetch Examples.error_page_env 5
                           Examples.config_T Examples.error_page_start))
                 _ (snd Examples.error_page_call)).
    reflexivity.
Defined.

(** C2, as stated, fails: the first page request of the call is answered
    with an error envelope, that pass raises, the decorated function makes a
    second pass, which is served, and the call returns the record of that
    pass.  A page response of the call held an error envelope, and the
    caller got records and no error. *)
Lemma records_returned_after_an_error_envelope :
  fst Examples.envelope_first_run = Return [Examples.ad_A1] /\
  error_envelope_received (calls (snd Examples.envelope_first_run)) Examples.oauth_error /\
  fst (fetch_api_data_body Examples.envelope_first_env 5 Examples.config_T
         Examples.envelope_first_start)
  = Raise (FacebookAdsError
             ("Facebook API error: "
              ++ py_str Examples.envelope_first_env Examples.oauth_error)).
Proof.
  split; [vm_compute; reflexivity |]. split; [| vm_compute; reflexivity].
  exists Examples.insights_url,
         (listing_params Examples.envelope_first_env (PStr "T")),
         [("error", Examples.oauth_error)].
  split; [| reflexivity].
  vm_compute. right. right. left. reflexivity.
Qed.

(** X12.  Whatever the pages and the lookups were, every record that
    [fetch_api_data] returns is a JSON object with a non-empty [ad_id] that
    the returning pass visited, and the creation-time lookup made for it in
    that pass returned a timestamp that is 2024-09-01 00:00:00 or later. *)
Theorem returned_records_passed_the_cutoff :
  forall (env : Env) (fuel : nat) (config : pyval) (st st' : state env)
         (records : list pyval),
    fetch_api_data env fuel config st = (Return records, st') ->
    exists access_token ad_account_id st1 visits,
      py_subscript config "accessToken" = inr access_token /\
      extends_log any_call st st1 /\
      pages_visited env access_token (PStr (api_url env ad_account_id))
                    (listing_params env access_token) st1 visits st' /\
      Forall (fun ad =>
                exists d ad_id dt,
                  ad = PDict d /\
                  dict_lookup "ad_id" d = Some ad_id /\
                  py_truthy ad_id = true /\
                  In (ad, Some (Some dt)) visits /\
                  created_since_cutoff (ad, Some (Some dt)) = true)
             records.
Proof.
  intros env fuel config st st' records H.
  destruct (fetch_api_data_return_pass env _ _ _ _ _ H)
    as (access_token & ad_account_id & st1 & Htok & _ & Hlog & Hpass).
  destruct (fetch_pages_visits env _ _ _ _ _ _ _ _ Hpass) as (visits & Hvisits & ->).
  exists access_token, ad_account_id, st1, visits.
  split; [exact Htok |]. split; [exact Hlog |]. split; [exact Hvisits |].
  apply Forall_forall. intros ad Hin. cbn [app] in Hin. unfold kept_records in Hin.
  apply in_map_iff in Hin. destruct Hin as ([ad' lookup] & Hfst & Hin).
  cbn [fst] in Hfst. subst ad'.
  apply filter_In in Hin. destruct Hin as [Hin Hkept].
  destruct lookup as [[dt |] |]; try discriminate.
  destruct (pages_visited_lookup env _ _ _ _ _ _ _ _ Hvisits Hin)
    as (d & ad_id & Had & Hid & Htrue).
  exists d, ad_id, dt. repeat split; assumption.
Qed.

Lemma returned_records_passed_the_cutoff_witness :
  (exists access_token ad_account_id st1 visits,
    py_subscript Examples.config_T "accessToken" = inr access_token /\
    extends_log any_call Examples.flaky_start st1 /\
    pages_visited Examples.flaky_env access_token
      (PStr (api_url Examples.flaky_env ad_account_id))
      (listing_params Examples.flaky_env access_token) st1 visits
      (snd Examples.flaky_call) /\
    Forall (fun ad =>
              exists d ad_id dt,
                ad = PDict d /\
                dict_lookup "ad_id" d = Some ad_id /\
                py_truthy ad_id = true /\
                In (ad, Some (Some dt)) visits /\
                created_since_cutoff (ad, Some (Some dt)) = true)
           [Examples.ad_A1]) /\
  (exists access_token ad_account_id st1 visits,
    py_subscript Examples.config_T "accessToken" = inr access_token /\
    extends_log any_call Examples.two_pages_start st1 /\
    pages_visited Examples.two_pages_env access_token
      (PStr (api_url Examples.two_pages_env ad_account_id))
      (listing_params Examples.two_pages_env access_token) st1 visits
      (snd Examples.two_pages_call) /\
    Forall (fun ad =>
              exists d ad_id dt,
                ad = PDict d /\
                dict_lookup "ad_id" d = Some ad_id /\
                py_truthy ad_id = true /\
                In (ad, Some (Some dt)) visits /\
                created_since_cutoff (ad, Some (Some dt)) = true)
           [Examples.ad_A1; Examples.ad_A4]).
Proof.
  split.
  - apply (returned_records_passed_the_cutoff Examples.flaky_env 5 Examples.config_T
             Examples.flaky_start (snd Examples.flaky_call) [Examples.ad_A1]).
    reflexivity.
  - apply (returned_records_passed_the_cutoff Examples.two_pages_env 5
             Examples.config_T Examples.two_pages_start (snd Examples.two_pages_call)
             [Examples.ad_A1; Examples.ad_A4]).
    reflexivity.
Defined.

(** X13.  In one pass of [fetch_api_data] only the first page request
    carries the query parameters (the fields, the access token, the level,
    the time range and the limit); every request for a following page is
    sent to the URL the previous page named, with no parameters at all. *)
Theorem parameters_sent_with_first_page_only :
  forall (env : Env) (fuel : nat) (config access_token ad_account_id : pyval)
         (st st' : state env) (o : outcome (list pyval)),
    py_subscript config "accessToken" = inr access_token ->
    py_subscript config "adAccountId" = inr ad_account_id ->
    fetch_api_data_body env (S fuel) config st = (o, st') ->
    exists n,
      listing_params_sent (calls st')
      = (repeat (PDict []) n
         ++ listing_params env access_token :: listing_params_sent (calls st))%list.
Proof.
  intros env fuel config access_token ad_account_id st st' o Htok Hacct H.
  rewrite (fetch_api_data_body_run env _ _ _ _ st Htok Hacct) in H.
  exact (fetch_pages_params_first env _ _ _ _ _ _ _ _
           (api_url_truthy env ad_account_id) H).
Qed.

Lemma parameters_sent_with_first_page_only_witness :
  exists n,
    listing_params_sent
      (calls (snd (fetch_api_data_body Examples.two_pages_env 2 Examples.config_T
                     Examples.two_pages_start)))
    = (repeat (PDict []) n
       ++ listing_params Examples.two_pages_env (PStr "T")
       :: listing_params_sent (calls Examples.two_pages_start))%list.
Proof.
  apply (parameters_sent_with_first_page_only Examples.two_pages_env 1
           Examples.config_T (PStr "T") (PStr "123") Examples.two_pages_start
           (snd (fetch_api_data_body Examples.two_pages_env 2 Examples.config_T
                   Examples.two_pages_start))
           (fst (fetch_api_data_body Examples.two_pages_env 2 Examples.config_T
                   Examples.two_pages_start))).
  - reflexivity.
  - reflexivity.
  - reflexivity.
Defined.

(** On the two pages of the example the second request has no parameters. *)
Example two_pages_parameters :
  listing_params_sent
    (calls (snd (fetch_api_data_body Examples.two_pages_env 2 Examples.config_T
                   Examples.two_pages_start)))
  = [PDict []; listing_params Examples.two_pages_env (PStr "T")].
Proof. vm_compute. reflexivity. Qed.

(* ===================================================================== *)
(** * The calls of the Sheet Writer *)
(* ===================================================================== *)

Section SheetCalls.

Variable env : Env.

(** [get_next_empty_row] is one read, and the rest is a computation on the
    answer. *)
Lemma get_next_empty_row_run (sheets : sheets_resource) (spreadsheet_id tab_name : string)
    (st : state env) :
  let range := A1 tab_name "A" None "A" None in
  let r := fst (values_get env spreadsheet_id range (world st)) in
  get_next_empty_row env sheets spreadsheet_id tab_name st
  = (outcome_of (answer <- r ;;
                 values <- py_get answer "values" (PList []) ;;
                 n <- py_len values ;;
                 ret (n + 1)),
     mk_state (snd (values_get env spreadsheet_id range (world st)))
              (EvValuesGet spreadsheet_id range r :: calls st)).
Proof.
  intros range r. subst r range.
  unfold get_next_empty_row, sheets_values_get. cbn [bind Monad_M].
  destruct (values_get env spreadsheet_id (A1 tab_name "A" None "A" None) (world st))
    as [[e | answer] w]; cbn [fst snd outcome_of]; [reflexivity |].
  unfold lift. cbn [bind Monad_result].
  destruct (py_get answer "values" (PList [])) as [e | values]; cbn [outcome_of];
    [reflexivity |].
  destruct (py_len values) as [e | n]; reflexivity.
Qed.

Lemma py_len_nonneg (v : pyval) (n : Z) : py_len v = inr n -> 0 <= n.
Proof.
  destruct v; simpl; intros H; inversion H; apply Nat2Z.is_nonneg.
Qed.

End SheetCalls.

(** X14.  [get_next_empty_row] makes exactly one call, the read of column
    A of the tab.  If the read raises, so does the function; an answer
    without [values] (a column with no filled cell) gives row 1; an answer
    with a list of rows gives the row after them; and a returned row number
    is never below 1. *)
Theorem next_empty_row_from_one_read :
  forall (env : Env) (sheets : sheets_resource) (spreadsheet_id tab_name : string)
         (st st' : state env) (o : outcome Z),
    get_next_empty_row env sheets spreadsheet_id tab_name st = (o, st') ->
    exists r,
      calls st' = EvValuesGet spreadsheet_id (A1 tab_name "A" None "A" None) r :: calls st /\
      (forall e, r = inl e -> o = Raise e) /\
      (forall d, r = inr (PDict d) -> dict_lookup "values" d = None -> o = Return 1) /\
      (forall d rows, r = inr (PDict d) -> dict_lookup "values" d = Some (PList rows) ->
         o = Return (Z.of_nat (List.length rows) + 1)) /\
      (forall n, o = Return n -> 1 <= n).
Proof.
  intros env sheets spreadsheet_id tab_name st st' o H.
  rewrite get_next_empty_row_run in H. cbv zeta in H.
  exists (fst (values_get env spreadsheet_id (A1 tab_name "A" None "A" None) (world st))).
  inversion H as [[Ho Hst]]. clear H. split; [reflexivity |].
  destruct (fst (values_get env spreadsheet_id (A1 tab_name "A" None "A" None) (world st)))
    as [e | answer].
  - repeat split; try discriminate.
    intros e' He'. inversion He'; subst. reflexivity.
  - split; [discriminate |]. split; [| split].
    + intros d Hd Hnone. inversion Hd; subst answer.
      cbn. rewrite Hnone. reflexivity.
    + intros d rows Hd Hrows. inversion Hd; subst answer.
      cbn. rewrite Hrows. reflexivity.
    + intros n Hn. cbn [bind Monad_result] in Hn.
      destruct (py_get answer "values" (PList [])) as [e | values]; [discriminate |].
      destruct (py_len values) as [e | k] eqn:Hlen; [discriminate |].
      cbn in Hn. inversion Hn. pose proof (py_len_nonneg _ _ Hlen). lia.
Qed.

Lemma next_empty_row_from_one_read_witness :
  exists r,
    calls (snd Examples.gap_read)
    = EvValuesGet (SPREADSHEET_ID Examples.one_page_env) (A1 "Sheet1" "A" None "A" None) r
      :: calls (Examples.one_page_start Examples.sheet_with_gap) /\
    (forall e, r = inl e -> Return 4 = Raise e) /\
    (forall d, r = inr (PDict d) -> dict_lookup "values" d = None -> Return 4 = Return 1) /\
    (forall d rows, r = inr (PDict d) -> dict_lookup "values" d = Some (PList rows) ->
       Return 4 = Return (Z.of_nat (List.length rows) + 1)) /\
    (forall n, Return 4 = Return n -> 1 <= n).
Proof.
  apply (next_empty_row_from_one_read Examples.one_page_env Spreadsheets
           (SPREADSHEET_ID Examples.one_page_env) "Sheet1"
           (Examples.one_page_start Examples.sheet_with_gap) (snd Examples.gap_read)
           (Return 4)).
  reflexivity.
Defined.

(** X15.  The calls of [write_to_sheets] when there are rows to write: the
    read of column A, and then, only if the read gave a row number, one
    update.  The update is sent with the input option [RAW], carries all the
    rows under [values], names the columns A to F of the tab [Sheet1]
    starting at a row that is at least 1, and its failure is the failure of
    [write_to_sheets].  When the read or the counting of its rows fails,
    nothing is written. *)
Theorem write_to_sheets_call_sequence :
  forall (env : Env) (sheets : sheets_resource) (data : list (string * list row_entry))
         (st st' : state env) (o : outcome unit),
    build_rows data <> [] ->
    write_to_sheets env sheets data st = (o, st') ->
    (exists r e, calls st' = column_A_read env r :: calls st /\ o = Raise e) \/
    (exists answer k r,
       calls st' = rows_update env data k r :: column_A_read env (inr answer) :: calls st /\
       1 <= k /\
       o = match r with
           | inl e => Raise e
           | inr _ => Return tt
           end).
Proof.
  intros env sheets data st st' o Hrows H. unfold write_to_sheets in H.
  unfold rows_update.
  destruct (build_rows data) as [| first more] eqn:Erows; [congruence |].
  apply bind_inv in H. rewrite get_next_empty_row_run in H. cbv zeta in H.
  fold column_A in H.
  destruct H as [(k & st1 & H1 & H) | [(e & H1 & ->) | (H1 & _)]].
  - right. inversion H1 as [[Ho Hst1]]. clear H1.
    destruct (fst (values_get env (SPREADSHEET_ID env) column_A (world st)))
      as [e | answer]; [discriminate |].
    cbn [bind Monad_result] in Ho.
    destruct (py_get answer "values" (PList [])) as [e | values]; [discriminate |].
    destruct (py_len values) as [e | n] eqn:Hlen; [discriminate |].
    cbn in Ho. inversion Ho; subst k. clear Ho.
    pose proof (py_len_nonneg _ _ Hlen) as Hn.
    unfold sheets_values_update in H. cbn [bind Monad_M world calls] in H.
    match type of H with
    | context [values_update env ?sid ?range ?opt ?body ?w] =>
        destruct (values_update env sid range opt body w) as [[e | x] w2]
    end; cbn [outcome_of] in H; inversion H; subst.
    + exists answer, (n + 1), (inl e).
      split; [reflexivity | split; [lia | reflexivity]].
    + exists answer, (n + 1), (inr x).
      split; [reflexivity | split; [lia | reflexivity]].
  - left. inversion H1 as [[Ho Hst1]].
    eexists; exists e. split; reflexivity.
  - exfalso. inversion H1 as [[Ho Hst1]].
    destruct (fst (values_get env (SPREADSHEET_ID env) column_A (world st)))
      as [e | answer]; [discriminate |].
    cbn [bind Monad_result] in Ho.
    destruct (py_get answer "values" (PList [])) as [e | values]; [discriminate |].
    destruct (py_len values) as [e | n]; discriminate.
Qed.

Lemma write_to_sheets_call_sequence_witness :
  (exists r e,
      calls (snd Examples.gap_write)
      = column_A_read Examples.one_page_env r
        :: calls (Examples.one_page_start Examples.sheet_with_gap) /\
      Return tt = Raise e) \/
  (exists answer k r,
      calls (snd Examples.gap_write)
      = rows_update Examples.one_page_env Examples.one_row k r
        :: column_A_read Examples.one_page_env (inr answer)
        :: calls (Examples.one_page_start Examples.sheet_with_gap) /\
      1 <= k /\
      Return tt = match r with
                  | inl e => Raise e
                  | inr _ => Return tt
                  end).
Proof.
  apply (write_to_sheets_call_sequence Examples.one_page_env Spreadsheets
           Examples.one_row (Examples.one_page_start Examples.sheet_with_gap)
           (snd Examples.gap_write) (Return tt)).
  - discriminate.
  - reflexivity.
Defined.

(** X16.  When the read of column A fails, [write_to_sheets] raises the
    exception of the read and sends no update: the log has the failed read
    and nothing else. *)
Theorem failed_read_stops_the_write :
  forall (env : Env) (sheets : sheets_resource) (data : list (string * list row_entry))
         (st : state env) (e : exn),
    build_rows data <> [] ->
    fst (values_get env (SPREADSHEET_ID env) column_A (world st)) = inl e ->
    exists st',
      write_to_sheets env sheets data st = (Raise e, st') /\
      calls st' = column_A_read env (inl e) :: calls st /\
      update_ranges (calls st') = update_ranges (calls st).
Proof.
  intros env sheets data st e Hrows Hread.
  exists (mk_state (snd (values_get env (SPREADSHEET_ID env) column_A (world st)))
                   (column_A_read env (inl e) :: calls st)).
  split; [| split; reflexivity].
  unfold write_to_sheets.
  destruct (build_rows data) as [| first more] eqn:Erows; [congruence |].
  apply bind_raise. rewrite get_next_empty_row_run. cbv zeta. fold column_A.
  rewrite Hread. reflexivity.
Qed.

Lemma failed_read_stops_the_write_witness :
  exists st',
    write_to_sheets Examples.sheets_down_env Spreadsheets Examples.one_row Examples.sheets_down_start
    = (Raise SheetModel.http_error, st') /\
    calls st' = column_A_read Examples.sheets_down_env (inl SheetModel.http_error)
                :: calls Examples.sheets_down_start /\
    update_ranges (calls st') = update_ranges (calls Examples.sheets_down_start).
Proof.
  apply (failed_read_stops_the_write Examples.sheets_down_env Spreadsheets Examples.one_row
           Examples.sheets_down_start SheetModel.http_error).
  - discriminate.
  - reflexivity.
Defined.

(** With the spreadsheet service refusing reads, /sync fetches the ad and
    then answers 500 with the text of the service's exception. *)
Example sync_data_sheets_down :
  fst (sync_data Examples.sheets_down_env 5 Examples.sheets_down_start)
  = Return (mk_response
              (PDict [("status", PStr "error");
                      ("message",
                       PStr "<HttpError 400 when requesting the values of the range>")])
              500).
Proof. vm_compute. reflexivity. Qed.

(* ===================================================================== *)
(** * From the records to the rows *)
(* ===================================================================== *)

Section Rows.

Variable env : Env.

Lemma build_rows_single (date : string) (rows : list row_entry) :
  build_rows [(date, rows)] = map (row_of date) rows.
Proof. unfold build_rows. simpl. apply app_nil_r. Qed.

(** The row of a record, cell by cell. *)
Lemma row_of_entry_cells (entry : pyval) (row : row_entry) :
  row_of_entry env entry = inr row ->
  row_cells env entry (row_of (YESTERDAY_DATE env) row).
Proof.
  unfold row_of_entry, row_cells. cbn [bind Monad_result].
  destruct (parse_spend env entry) as [e | spend]; [discriminate |].
  destruct (py_get entry "campaign_name" (PStr "Not Available")) as [e | c];
    [discriminate |].
  destruct (py_get entry "ad_name" (PStr "Not Available")) as [e | a];
    [discriminate |].
  intros H. inversion H; subst. exists spend, c, a. repeat split; reflexivity.
Qed.

Lemma rows_cells (api_data : list pyval) (rows : list row_entry) :
  Forall2 (fun entry row => row_of_entry env entry = inr row) api_data rows ->
  Forall2 (row_cells env) api_data (map (row_of (YESTERDAY_DATE env)) rows).
Proof.
  induction 1 as [| entry row api_data rows Hrow _ IH]; simpl; constructor.
  - exact (row_of_entry_cells _ _ Hrow).
  - exact IH.
Qed.

(** The mapping the Processor returns, in terms of the rows of the
    records. *)
Lemma process_daily_data_rows (api_data : list pyval)
    (daily_data : list (string * list row_entry)) :
  process_daily_data env api_data = inr daily_data ->
  exists rows,
    build_rows daily_data = map (row_of (YESTERDAY_DATE env)) rows /\
    Forall2 (fun entry row => row_of_entry env entry = inr row) api_data rows.
Proof.
  intros H. unfold process_daily_data in H.
  destruct api_data as [| entry rest].
  - simpl in H. inversion H; subst. exists []. split; [reflexivity | constructor].
  - rewrite process_entries_cons, process_entry_first in H.
    destruct (row_of_entry env entry) as [e | row] eqn:Hrow; cbn in H; [discriminate |].
    destruct (process_entries_rows env rest row [] daily_data H) as (more & Hd & Hmore).
    exists (row :: more). split.
    + rewrite Hd. apply build_rows_single.
    + constructor; assumption.
Qed.

(** When the Processor raises, one of the records has no row, and the
    exception is the one met on that record. *)
Lemma process_entries_raises (api_data : list pyval) :
  forall (first : row_entry) (rows : list row_entry) (e : exn),
    process_entries env [(YESTERDAY_DATE env, first :: rows)] api_data = inl e ->
    exists entry, In entry api_data /\ row_of_entry env entry = inl e.
Proof.
  induction api_data as [| entry rest IH]; intros first rows e H.
  - discriminate.
  - rewrite process_entries_cons, process_entry_next in H.
    destruct (row_of_entry env entry) as [e0 | row] eqn:Hrow; cbn in H.
    + inversion H; subst. exists entry. split; [left; reflexivity | exact Hrow].
    + destruct (IH _ _ _ H) as (x & Hin & Hx). exists x.
      split; [right; exact Hin | exact Hx].
Qed.

Lemma process_daily_data_raises_on (api_data : list pyval) (e : exn) :
  process_daily_data env api_data = inl e ->
  exists entry, In entry api_data /\ row_of_entry env entry = inl e.
Proof.
  intros H. unfold process_daily_data in H.
  destruct api_data as [| entry rest]; [discriminate |].
  rewrite process_entries_cons, process_entry_first in H.
  destruct (row_of_entry env entry) as [e0 | row] eqn:Hrow; cbn in H.
  - inversion H; subst. exists entry. split; [left; reflexivity | exact Hrow].
  - destruct (process_entries_raises _ _ _ _ H) as (x & Hin & Hx). exists x.
    split; [right; exact Hin | exact Hx].
Qed.

(** On a JSON object only the spend field can fail. *)
Lemma row_of_entry_raises (d : list (string * pyval)) (e : exn) :
  row_of_entry env (PDict d) = inl e -> parse_spend env (PDict d) = inl e.
Proof.
  unfold row_of_entry. cbn [bind Monad_result].
  destruct (parse_spend env (PDict d)) as [e0 | spend];
    [intros H; inversion H; reflexivity |].
  cbn. discriminate.
Qed.

End Rows.

(** X17.  The rows [write_to_sheets] builds from what the Processor
    returned are the rows of the records, one per record and in the order
    of the records, each with six cells: the target date, [campaign_name]
    and [ad_name] (or "Not Available"), the spend, and the target date
    twice more as start and stop date. *)
Theorem rows_sent_follow_the_records :
  forall (env : Env) (api_data : list pyval)
         (daily_data : list (string * list row_entry)),
    process_daily_data env api_data = inr daily_data ->
    Forall2 (row_cells env) api_data (build_rows daily_data) /\
    List.length (build_rows daily_data) = List.length api_data.
Proof.
  intros env api_data daily_data H.
  destruct (process_daily_data_rows env _ _ H) as (rows & -> & Hrows).
  split.
  - exact (rows_cells env _ _ Hrows).
  - rewrite length_map. symmetry. exact (Forall2_length Hrows).
Qed.

Lemma rows_sent_follow_the_records_witness :
  Forall2 (row_cells Examples.one_page_env) [Examples.ad_A1]
          (build_rows Examples.one_row) /\
  List.length (build_rows Examples.one_row) = List.length [Examples.ad_A1].
Proof.
  apply (rows_sent_follow_the_records Examples.one_page_env [Examples.ad_A1]
           Examples.one_row).
  vm_compute. reflexivity.
Defined.

(** X18.  On records that are JSON objects the Processor can fail in one
    way only: with [OverflowError], on a record whose spend is an integer
    that no double can hold.  In every other case it returns. *)
Theorem processor_fails_only_on_overflow :
  forall (env : Env) (api_data : list pyval) (e : exn),
    Forall is_record api_data ->
    process_daily_data env api_data = inl e ->
    e = OverflowError "int too large to convert to float" /\
    exists d n,
      In (PDict d) api_data /\
      dict_lookup "spend" d = Some (PInt n) /\
      float_of_int n = inl (OverflowError "int too large to convert to float").
Proof.
  intros env api_data e Hrec H.
  destruct (process_daily_data_raises_on env _ _ H) as (entry & Hin & Hrow).
  rewrite Forall_forall in Hrec. destruct (Hrec _ Hin) as [d ->].
  apply row_of_entry_raises in Hrow.
  destruct (parse_spend_raises env d e Hrow) as (-> & n & Hn & Hover).
  split; [reflexivity |]. exists d, n. repeat split; assumption.
Qed.

Lemma processor_fails_only_on_overflow_witness :
  OverflowError "int too large to convert to float"
  = OverflowError "int too large to convert to float" /\
  exists d n,
    In (PDict d) [Examples.ad_A1; Examples.ad_huge_spend] /\
    dict_lookup "spend" d = Some (PInt n) /\
    float_of_int n = inl (OverflowError "int too large to convert to float").
Proof.
  apply (processor_fails_only_on_overflow Examples.one_page_env
           [Examples.ad_A1; Examples.ad_huge_spend]
           (OverflowError "int too large to convert to float")).
  - repeat constructor; eexists; reflexivity.
  - vm_compute. reflexivity.
Defined.

(** X19.  The records a fetch returns are never the reason for an
    [AttributeError] or a [KeyError] in the Processor: after
    [fetch_api_data] has returned, [process_daily_data] on its result
    either returns or raises [OverflowError]. *)
Theorem fetched_records_process_unless_overflow :
  forall (env : Env) (fuel : nat) (config : pyval) (st st' : state env)
         (records : list pyval),
    fetch_api_data env fuel config st = (Return records, st') ->
    (exists daily_data, process_daily_data env records = inr daily_data) \/
    process_daily_data env records
    = inl (OverflowError "int too large to convert to float").
Proof.
  intros env fuel config st st' records H.
  pose proof (fetch_api_data_records env _ _ _ _ _ H) as Hrec.
  destruct (process_daily_data env records) as [e | daily_data] eqn:Hproc.
  - right. destruct (process_daily_data_raises_on env _ _ Hproc) as (entry & Hin & Hrow).
    rewrite Forall_forall in Hrec. destruct (Hrec _ Hin) as [d ->].
    apply row_of_entry_raises in Hrow.
    destruct (parse_spend_raises env d e Hrow) as (-> & _). reflexivity.
  - left. exists daily_data. reflexivity.
Qed.

Lemma fetched_records_process_unless_overflow_witness :
  (exists daily_data,
      process_daily_data Examples.two_pages_env [Examples.ad_A1; Examples.ad_A4]
      = inr daily_data) \/
  process_daily_data Examples.two_pages_env [Examples.ad_A1; Examples.ad_A4]
  = inl (OverflowError "int too large to convert to float").
Proof.
  apply (fetched_records_process_unless_overflow Examples.two_pages_env 5
           Examples.config_T Examples.two_pages_start
           (snd (fetch_api_data Examples.two_pages_env 5 Examples.config_T
                   Examples.two_pages_start))).
  reflexivity.
Defined.

(* ===================================================================== *)
(** * The /sync endpoint as a whole *)
(* ===================================================================== *)

Section SyncFacts.

Variable env : Env.

(** The ways the five stages can end. *)
Lemma pipeline_inv (fuel : nat) (st st' : state env) (o : outcome unit) :
  pipeline env fuel st = (o, st') ->
  (o = Return tt /\ stages_complete env fuel st st') \/
  (exists e, o = Raise e /\ stage_raises env fuel st e st') \/
  o = OutOfFuel.
Proof.
  intros H. unfold pipeline in H.
  apply bind_inv in H.
  destruct H as [(config & st1 & H1 & H) | [(e & H1 & ->) | (H1 & ->)]];
    [| right; left; exists e; split; [reflexivity | exact (load_config_raises env fuel st e st' H1)]
     | right; right; reflexivity].
  apply bind_inv in H.
  destruct H as [(sheets & st2 & H2 & H) | [(e & H2 & ->) | (H2 & ->)]];
    [| right; left; exists e; split;
       [reflexivity | exact (init_sheets_api_raises env fuel st config e st1 st' H1 H2)]
     | right; right; reflexivity].
  apply bind_inv in H.
  destruct H as [(api_data & st3 & H3 & H) | [(e & H3 & ->) | (H3 & ->)]];
    [| right; left; exists e; split;
       [reflexivity
       | exact (fetch_api_data_raises env fuel st config sheets e st1 st2 st' H1 H2 H3)]
     | right; right; reflexivity].
  apply bind_inv in H.
  destruct H as [(daily_data & s & H4 & H) | [(e & H4 & ->) | (H4 & ->)]];
    apply lift_inv in H4; destruct H4 as [-> H4];
    destruct (process_daily_data env api_data) as [e' | daily] eqn:Hproc;
    try discriminate.
  - inversion H4; subst daily_data.
    destruct o as [[] | e |].
    + left. split; [reflexivity |].
      exact (all_stages env fuel st config sheets api_data daily st1 st2 st3 st'
               H1 H2 H3 Hproc H).
    + right; left. exists e. split; [reflexivity |].
      exact (write_to_sheets_raises env fuel st config sheets api_data daily e
               st1 st2 st3 st' H1 H2 H3 Hproc H).
    + right; right. reflexivity.
  - inversion H4; subst e'. right; left. exists e. split; [reflexivity |].
    exact (process_daily_data_raises env fuel st config sheets api_data e
             st1 st2 st3 H1 H2 H3 Hproc).
Qed.

Lemma get_world_leaves_state : leaves_state (get_world env).
Proof. intros st o st' H. inversion H. reflexivity. Qed.

Lemma load_config_leaves_state : leaves_state (load_config env).
Proof.
  unfold load_config.
  apply leaves_state_bind; [apply get_world_leaves_state |]. intros w.
  destruct (negb (path_exists env (CONFIG_FILE env) w)); [apply leaves_state_raise |].
  apply leaves_state_bind; [apply leaves_state_lift |]. intros config.
  apply leaves_state_bind; [apply leaves_state_lift |]. intros [| key missing].
  - apply leaves_state_ret.
  - apply leaves_state_raise.
Qed.

Lemma init_sheets_api_calls (st st' : state env) (o : outcome sheets_resource) :
  init_sheets_api env st = (o, st') -> calls st' = calls st.
Proof.
  unfold init_sheets_api, get_world. cbn [bind Monad_M].
  destruct (negb (path_exists env creds_file (world st))).
  - intros H. inversion H. reflexivity.
  - destruct (build_sheets env creds_file (world st)) as [r w'].
    intros H. inversion H. reflexivity.
Qed.

(** The stages up to the write leave the calls to the spreadsheet service
    as they were; a run in which they changed went all the way to a write
    with rows. *)
Lemma pipeline_sheet_calls (fuel : nat) (st st' : state env) (o : outcome unit) :
  pipeline env fuel st = (o, st') ->
  sheet_calls (calls st') = sheet_calls (calls st) \/
  exists config sheets api_data daily_data st1 st2 st3,
    load_config env st = (Return config, st1) /\
    init_sheets_api env st1 = (Return sheets, st2) /\
    fetch_api_data env fuel config st2 = (Return api_data, st3) /\
    process_daily_data env api_data = inr daily_data /\
    api_data <> [] /\
    build_rows daily_data <> [] /\
    write_to_sheets env sheets daily_data st3 = (o, st').
Proof.
  intros H. unfold pipeline in H.
  apply bind_inv in H.
  destruct H as [(config & st1 & H1 & H) | [(e & H1 & _) | (H1 & _)]];
    [| left; rewrite (load_config_leaves_state _ _ _ H1); reflexivity
     | left; rewrite (load_config_leaves_state _ _ _ H1); reflexivity].
  pose proof (load_config_leaves_state _ _ _ H1) as Hst1.
  apply bind_inv in H.
  destruct H as [(sheets & st2 & H2 & H) | [(e & H2 & _) | (H2 & _)]];
    [| left; rewrite (init_sheets_api_calls _ _ _ H2), Hst1; reflexivity
     | left; rewrite (init_sheets_api_calls _ _ _ H2), Hst1; reflexivity].
  pose proof (init_sheets_api_calls _ _ _ H2) as Hst2.
  assert (Hfetch : forall o3 st3, fetch_api_data env fuel config st2 = (o3, st3) ->
            sheet_calls (calls st3) = sheet_calls (calls st)).
  { intros o3 st3 H3.
    rewrite (sheet_calls_unchanged env _ _ (emits_requests_fetch_api_data env _ _ _ _ _ H3)).
    rewrite Hst2, Hst1. reflexivity. }
  apply bind_inv in H.
  destruct H as [(api_data & st3 & H3 & H) | [(e & H3 & _) | (H3 & _)]];
    [| left; exact (Hfetch _ _ H3) | left; exact (Hfetch _ _ H3)].
  apply bind_inv in H.
  destruct H as [(daily_data & s & H4 & H) | [(e & H4 & _) | (H4 & _)]];
    apply lift_inv in H4; destruct H4 as [-> H4];
    [| left; exact (Hfetch _ _ H3) | left; exact (Hfetch _ _ H3)].
  destruct (process_daily_data env api_data) as [e' | daily] eqn:Hproc;
    [discriminate |].
  inversion H4; subst daily_data.
  destruct (process_daily_data_rows env _ _ Hproc) as (rows & Hrows & Hall).
  destruct api_data as [| entry rest].
  - left. inversion Hall; subst rows. simpl in Hrows.
    unfold write_to_sheets in H. rewrite Hrows in H. inversion H; subst.
    exact (Hfetch _ _ H3).
  - right. exists config, sheets, (entry :: rest), daily, st1, st2, st3.
    repeat split; try assumption.
    + discriminate.
    + rewrite Hrows. inversion Hall; subst. discriminate.
Qed.

End SyncFacts.

(** X20.  The response of /sync tells what happened: a response is either
    HTTP 200 with the body
    [{"status": "success", "message": "Data sync completed"}], given only
    when all five stages ran without an exception, or HTTP 500 with the body
    [{"status": "error", "message": str(e)}] for an exception [e] that one
    of the stages raised after the stages before it had returned. *)
Theorem sync_response_reflects_stages :
  forall (env : Env) (fuel : nat) (st st' : state env) (response : http_response),
    sync_data env fuel st = (Return response, st') ->
    (response
     = mk_response (PDict [("status", PStr "success");
                           ("message", PStr "Data sync completed")]) 200 /\
     stages_complete env fuel st st') \/
    (exists e,
       response
       = mk_response
           (PDict [("status", PStr "error");
                   ("message", PStr (exn_str (future_address env (world st')) e))])
           500 /\
       stage_raises env fuel st e st').
Proof.
  intros env fuel st st' response H. rewrite sync_data_run in H.
  destruct (pipeline env fuel st) as [o s] eqn:Hpipe. cbn [fst snd] in H.
  destruct (pipeline_inv env _ _ _ _ Hpipe) as [[-> Hall] | [(e & -> & Hraise) | ->]].
  - inversion H; subst. left. split; [reflexivity | exact Hall].
  - inversion H; subst. right. exists e. split; [reflexivity | exact Hraise].
  - discriminate.
Qed.

(** With the network down: status 500, and the message is the text of the
    [RetryError], which names the class of the connection error. *)
Lemma sync_response_reflects_stages_witness :
  let response :=
    mk_response
      (PDict [("status", PStr "error");
              ("message",
               PStr "RetryError[<Future at 0x7f5d3c2b1a90 state=finished raised ConnectionError>]")])
      500 in
  (response
   = mk_response (PDict [("status", PStr "success");
                         ("message", PStr "Data sync completed")]) 200 /\
   stages_complete Examples.down_env 5 Examples.down_start (snd Examples.down_sync)) \/
  (exists e,
     response
     = mk_response
         (PDict [("status", PStr "error");
                 ("message",
                  PStr (exn_str (future_address Examples.down_env
                                   (world (snd Examples.down_sync))) e))])
         500 /\
     stage_raises Examples.down_env 5 Examples.down_start e (snd Examples.down_sync)).
Proof.
  intros response.
  apply (sync_response_reflects_stages Examples.down_env 5 Examples.down_start
           (snd Examples.down_sync) response).
  reflexivity.
Defined.

(** X21.  /sync touches the spreadsheet only at its last stage, and only
    when there is something to write: a run after which the log has a new
    call to the spreadsheet service loaded the configuration, built the
    service, fetched at least one record and processed the records into at
    least one row.  In particular a run whose fetch fails, or returns no
    record, neither reads nor writes the sheet. *)
Theorem sync_touches_sheet_only_with_rows :
  forall (env : Env) (fuel : nat) (st st' : state env) (o : outcome http_response),
    sync_data env fuel st = (o, st') ->
    sheet_calls (calls st') <> sheet_calls (calls st) ->
    exists config sheets api_data daily_data st1 st2 st3 o',
      load_config env st = (Return config, st1) /\
      init_sheets_api env st1 = (Return sheets, st2) /\
      fetch_api_data env fuel config st2 = (Return api_data, st3) /\
      process_daily_data env api_data = inr daily_data /\
      api_data <> [] /\
      build_rows daily_data <> [] /\
      write_to_sheets env sheets daily_data st3 = (o', st').
Proof.
  intros env fuel st st' o H Hcalls. rewrite sync_data_run in H.
  destruct (pipeline env fuel st) as [o' s] eqn:Hpipe. cbn [fst snd] in H.
  assert (s = st') by (inversion H; reflexivity). subst s.
  destruct (pipeline_sheet_calls env _ _ _ _ Hpipe)
    as [Hsame | (config & sheets & api_data & daily_data & st1 & st2 & st3 & Hrun)].
  - destruct (Hcalls Hsame).
  - exists config, sheets, api_data, daily_data, st1, st2, st3, o'. exact Hrun.
Qed.

Lemma sync_touches_sheet_only_with_rows_witness :
  exists config sheets api_data daily_data st1 st2 st3 o',
    load_config Examples.one_page_env (Examples.one_page_start SheetModel.blank)
    = (Return config, st1) /\
    init_sheets_api Examples.one_page_env st1 = (Return sheets, st2) /\
    fetch_api_data Examples.one_page_env 5 config st2 = (Return api_data, st3) /\
    process_daily_data Examples.one_page_env api_data = inr daily_data /\
    api_data <> [] /\
    build_rows daily_data <> [] /\
    write_to_sheets Examples.one_page_env sheets daily_data st3
    = (o', snd Examples.one_page_sync).
Proof.
  apply (sync_touches_sheet_only_with_rows Examples.one_page_env 5
           (Examples.one_page_start SheetModel.blank) (snd Examples.one_page_sync)
           (fst Examples.one_page_sync)).
  - reflexivity.
  - vm_compute. discriminate.
Defined.

(** X22.  The cutoff works on whole days: for a timestamp with a time of
    day (no negative field), [created_dt >= CUTOFF_DATE] holds exactly when
    its date is 1 September 2024 or later, whatever the time of day. *)
Theorem cutoff_is_the_start_of_the_day :
  forall dt : datetime,
    0 <= hour dt -> 0 <= minute dt -> 0 <= second dt -> 0 <= microsecond dt ->
    (datetime_ge dt CUTOFF_DATE = true <->
     2024 < year dt \/
     (year dt = 2024 /\ (9 < month dt \/ (month dt = 9 /\ 1 <= day dt)))).
Proof.
  intros [y mo d h mi s us]. cbn [hour minute second microsecond year month day].
  intros Hh Hmi Hs Hus. unfold datetime_ge, datetime_fields, CUTOFF_DATE.
  cbn [year month day hour minute second microsecond lex_compare].
  repeat match goal with
         | |- context [?a ?= ?b] => destruct (Z.compare_spec a b)
         end;
    split; intros Hge; try reflexivity; try discriminate; lia.
Qed.

Lemma cutoff_is_the_start_of_the_day_witness :
  datetime_ge (mk_datetime 2024 9 1 23 59 59 0) CUTOFF_DATE = true <->
  2024 < 2024 \/ (2024 = 2024 /\ (9 < 9 \/ (9 = 9 /\ 1 <= 1))).
Proof.
  apply (cutoff_is_the_start_of_the_day (mk_datetime 2024 9 1 23 59 59 0));
    simpl; lia.
Defined.

Section ItemLoop.

Variable env : Env.

Lemma lookup_requests (ad_id access_token : pyval) (st st' : state env)
    (o : outcome (option datetime)) :
  fetch_ad_creation_time env ad_id access_token st = (o, st') ->
  exists responses : list (result pyval),
    calls st' = (map (lookup_request env ad_id access_token) responses ++ calls st)%list /\
    (List.length responses <= 3)%nat.
Proof.
  intros H. unfold fetch_ad_creation_time in H.
  destruct (retry_log env _ _ _ (lookup_request env ad_id access_token)
              (fun s o1 s' => lookup_body_log env ad_id access_token s s' o1)
              _ _ _ H) as (responses & Hlog & Hlen).
  exists responses. split; [exact Hlog | lia].
Qed.

(** The requests one item of a page costs. *)
Lemma keep_ad_log (access_token : pyval) (all_data : list pyval) (ad : pyval)
    (st st' : state env) (o : outcome (list pyval)) :
  keep_ad env access_token all_data ad st = (o, st') ->
  exists new,
    calls st' = (new ++ calls st)%list /\
    (List.length new <= if has_ad_id ad then 3 else 0)%nat.
Proof.
  intros H. unfold keep_ad in H. unfold has_ad_id.
  apply bind_inv in H.
  destruct H as [(ad_id & s & H1 & H) | [(e & H1 & _) | (H1 & _)]];
    apply lift_inv in H1; destruct H1 as [-> H1];
    [| exists []; split; [reflexivity | simpl; lia]
     | exists []; split; [reflexivity | simpl; lia]].
  destruct (py_get ad "ad_id" PNone) as [e | v]; [discriminate |].
  inversion H1; subst v.
  destruct (py_truthy ad_id).
  2:{ inversion H; subst. exists []. split; [reflexivity | simpl; lia]. }
  apply bind_inv in H.
  destruct H as [(created_dt & s & H2 & H) | [(e & H2 & _) | (H2 & _)]].
  - destruct (lookup_requests _ _ _ _ _ H2) as (responses & Hlog & Hlen).
    assert (st' = s).
    { destruct created_dt as [dt |]; [destruct (datetime_ge dt CUTOFF_DATE) |];
        inversion H; reflexivity. }
    subst s. eexists. split; [exact Hlog |]. rewrite length_map. lia.
  - destruct (lookup_requests _ _ _ _ _ H2) as (responses & Hlog & Hlen).
    eexists. split; [exact Hlog |]. rewrite length_map. lia.
  - destruct (lookup_requests _ _ _ _ _ H2) as (responses & Hlog & Hlen).
    eexists. split; [exact Hlog |]. rewrite length_map. lia.
Qed.

End ItemLoop.

(** X23.  The loop over the records of a page makes creation-time lookups
    and nothing else, at most three requests for each record that has a
    non-empty [ad_id]; a record without one costs no request. *)
Theorem item_loop_lookups_bounded :
  forall (env : Env) (access_token : pyval) (items all_data : list pyval)
         (st st' : state env) (o : outcome (list pyval)),
    for_each_ad env access_token all_data items st = (o, st') ->
    exists new,
      calls st' = (new ++ calls st)%list /\
      Forall is_lookup_request new /\
      (List.length new <= 3 * List.length (filter has_ad_id items))%nat.
Proof.
  intros env access_token items.
  induction items as [| ad rest IH]; intros all_data st st' o H.
  - inversion H; subst. exists []. repeat split; [constructor | simpl; lia].
  - destruct (emits_for_each_ad env _ _ _ _ _ _ H) as (new & Hnew & Hlook).
    exists new. split; [exact Hnew |]. split; [exact Hlook |].
    cbn [for_each_ad] in H. apply bind_inv in H.
    assert (Hone : forall o1 s, keep_ad env access_token all_data ad st = (o1, s) ->
              exists n1, calls s = (n1 ++ calls st)%list /\
                (List.length n1 + 3 * List.length (filter has_ad_id rest)
                 <= 3 * List.length (filter has_ad_id (ad :: rest)))%nat).
    { intros o1 s H1. destruct (keep_ad_log env _ _ _ _ _ _ H1) as (n1 & Hn1 & Hlen).
      exists n1. split; [exact Hn1 |]. cbn [filter].
      destruct (has_ad_id ad); simpl in *; lia. }
    destruct H as [(kept & s & H1 & H) | [(e & H1 & _) | (H1 & _)]].
    + destruct (Hone _ _ H1) as (n1 & Hn1 & Hlen).
      destruct (IH _ _ _ _ H) as (n2 & Hn2 & _ & Hlen2).
      assert (new = (n2 ++ n1)%list).
      { apply (app_inv_tail (calls st)). rewrite <- app_assoc, <- Hn1, <- Hn2.
        symmetry. exact Hnew. }
      subst new. rewrite length_app. lia.
    + destruct (Hone _ _ H1) as (n1 & Hn1 & Hlen).
      assert (new = n1).
      { apply (app_inv_tail (calls st)). rewrite <- Hn1. symmetry. exact Hnew. }
      subst new. lia.
    + destruct (Hone _ _ H1) as (n1 & Hn1 & Hlen).
      assert (new = n1).
      { apply (app_inv_tail (calls st)). rewrite <- Hn1. symmetry. exact Hnew. }
      subst new. lia.
Qed.

Lemma item_loop_lookups_bounded_witness :
  exists new,
    calls (snd Examples.second_page_items)
    = (new ++ calls Examples.two_pages_start)%list /\
    Forall is_lookup_request new /\
    (List.length new
     <= 3 * List.length (filter has_ad_id
                           [Examples.ad_A4; Examples.ad_without_id; Examples.ad_A6]))%nat.
Proof.
  apply (item_loop_lookups_bounded Examples.two_pages_env (PStr "T")
           [Examples.ad_A4; Examples.ad_without_id; Examples.ad_A6] []
           Examples.two_pages_start (snd Examples.second_page_items)
           (fst Examples.second_page_items)).
  reflexivity.
Defined.

(* ===================================================================== *)
(** * The passes of a retried fetch *)
(* ===================================================================== *)

Section Passes.

Variable env : Env.

(** A quantity of the log that every run of the function raises by one
    counts the attempts. *)
Lemma retry_loop_count (A : Type) (fn : M env A) (count : list event -> nat) :
  (forall s o s', fn s = (o, s') -> count (calls s') = S (count (calls s))) ->
  forall left attempt st o k st',
    retry_loop env left attempt fn st = ((o, k), st') ->
    (attempt + count (calls st') = S k + count (calls st))%nat.
Proof.
  intros Hfn. induction left as [| left IH]; intros attempt st o k st' H; simpl in H.
  - destruct (fn st) as [[a | e |] s] eqn:E; inversion H; subst;
      rewrite (Hfn _ _ _ E); lia.
  - destruct (fn st) as [[a | e |] s] eqn:E.
    + inversion H; subst. rewrite (Hfn _ _ _ E). lia.
    + pose proof (IH _ _ _ _ _ H) as Hrest. rewrite (Hfn _ _ _ E) in Hrest. lia.
    + inversion H; subst. rewrite (Hfn _ _ _ E). lia.
Qed.

Lemma filter_truthy_empty_params (n : nat) :
  filter py_truthy (repeat (PDict []) n) = [].
Proof. induction n as [| n IH]; [reflexivity | exact IH]. Qed.

(** A pass adds one request with parameters. *)
Lemma first_page_requests_pass (log log' : list event) (n : nat) (params : pyval) :
  py_truthy params = true ->
  listing_params_sent log'
  = (repeat (PDict []) n ++ params :: listing_params_sent log)%list ->
  first_page_requests log' = S (first_page_requests log).
Proof.
  intros Htrue Hsent. unfold first_page_requests.
  rewrite Hsent, filter_app, filter_truthy_empty_params. cbn [app filter].
  rewrite Htrue. reflexivity.
Qed.

End Passes.

(** X24.  A pass of [fetch_api_data] that fails is not resumed where it
    stopped: every attempt of the decorated function starts again with the
    request for the first page, with the full parameters.  The requests
    that carry parameters are as many as the attempts, between one and
    three. *)
Theorem every_attempt_starts_at_the_first_page :
  forall (env : Env) (fuel : nat) (config access_token ad_account_id : pyval)
         (st st' : state env) (o : outcome (list pyval)) (k : nat),
    py_subscript config "accessToken" = inr access_token ->
    py_subscript config "adAccountId" = inr ad_account_id ->
    retry_statistics env MAX_RETRIES (fetch_api_data_body env (S fuel) config) st
    = ((o, k), st') ->
    fetch_api_data env (S fuel) config st = (o, st') /\
    (1 <= k <= 3)%nat /\
    first_page_requests (calls st') = (k + first_page_requests (calls st))%nat.
Proof.
  intros env fuel config access_token ad_account_id st st' o k Htok Hacct Hstat.
  split; [exact (retry_run env _ _ _ _ _ _ _ Hstat) |].
  unfold retry_statistics, MAX_RETRIES in Hstat. cbn [Nat.sub] in Hstat.
  destruct (retry_loop_bounds env _ _ _ _ _ _ _ _ Hstat) as (Hk & _).
  split; [lia |].
  assert (Hpass : forall s o1 s',
            fetch_api_data_body env (S fuel) config s = (o1, s') ->
            first_page_requests (calls s') = S (first_page_requests (calls s))).
  { intros s o1 s' Hrun.
    rewrite (fetch_api_data_body_run env _ _ _ _ s Htok Hacct) in Hrun.
    destruct (fetch_pages_params_first env _ _ _ _ _ _ _ _
                (api_url_truthy env ad_account_id) Hrun) as [n Hn].
    exact (first_page_requests_pass _ _ n (listing_params env access_token) eq_refl Hn). }
  pose proof (retry_loop_count env _ _ first_page_requests Hpass _ _ _ _ _ _ Hstat).
  lia.
Qed.

Lemma every_attempt_starts_at_the_first_page_witness :
  fetch_api_data Examples.down_env 5 Examples.config_T Examples.down_start
  = (Raise (RetryError Examples.connection_error), snd Examples.down_fetch) /\
  (1 <= 3 <= 3)%nat /\
  first_page_requests (calls (snd Examples.down_fetch))
  = (3 + first_page_requests (calls Examples.down_start))%nat.
Proof.
  apply (every_attempt_starts_at_the_first_page Examples.down_env 4 Examples.config_T
           (PStr "T") (PStr "123") Examples.down_start (snd Examples.down_fetch)
           (Raise (RetryError Examples.connection_error)) 3%nat).
  - reflexivity.
  - reflexivity.
  - reflexivity.
Defined.
